(** * Verification of the COREP own-funds reconciliation validator

    Shallow embedding of [validate_response] from [src/corep_engine.py]
    (class [COREPEngine]) and [src/main.py] (class [COREPAssistant]).

    Modelling conventions:
    - the argument [llm_data] is a JSON document as produced by [json.loads];
      JSON numbers are integers (floats are not modelled), and an integer has
      at most 4300 digits, since [json.loads] reads it with [int()];
    - a Python [str] is a Rocq [string] whose characters are the code points
      0..255 (Latin-1), which fixes the behaviour of [int()], [str.isspace],
      [\d] and [repr] on it;
    - a Python [dict] is an association list; lookup returns the first binding,
      iteration follows the list order;
    - Python integers are unbounded, and the conversions between integers
      and decimal strings ([int(str)], [str(int)], [format(int, ",")]) obey
      CPython's default limit of 4300 digits ([sys.get_int_max_str_digits()]);
    - the two lists [errors] and [warnings] are threaded as state, exceptions
      are a result type; a caught exception keeps the state reached before it
      was raised, as in Python. *)

From Stdlib Require Import ZArith String Ascii List Bool Lia DecimalString.
Import ListNotations.
Open Scope string_scope.
Open Scope Z_scope.
Set Warnings "-register-all".

(** ** JSON values and Python exceptions *)

Inductive json : Type :=
| JNull
| JBool (b : bool)
| JInt (z : Z)
| JStr (s : string)
| JArr (l : list json)
| JObj (kvs : list (string * json)).

(** A raised Python exception: its class name and its message. *)
Inductive py_exc : Type :=
| PyExc (cls : string) (msg : string).

Inductive res (A : Type) : Type :=
| Ok (a : A)
| Exc (e : py_exc).
Arguments Ok {A} a.
Arguments Exc {A} e.

(** Results threaded through Python code that raises: [x <-? r ;; k]. *)
Definition res_bind {A B} (r : res A) (k : A -> res B) : res B :=
  match r with
  | Ok a => k a
  | Exc e => Exc e
  end.

Notation "x <-? r ;; k" := (res_bind r (fun x => k))
  (at level 61, r at next level, right associativity).

Definition is_exc {A} (r : res A) : bool := match r with Exc _ => true | Ok _ => false end.

Definition type_name (j : json) : string :=
  match j with
  | JNull => "NoneType"
  | JBool _ => "bool"
  | JInt _ => "int"
  | JStr _ => "str"
  | JArr _ => "list"
  | JObj _ => "dict"
  end.

(** ** Characters and strings *)

Definition chr (n : nat) : string := String (ascii_of_nat n) EmptyString.
Definition squote : string := chr 39.
Definition newline : ascii := ascii_of_nat 10.

Definition is_digit (c : ascii) : bool :=
  let n := nat_of_ascii c in (Nat.leb 48 n && Nat.leb n 57)%bool.

Definition digit_value (c : ascii) : Z := Z.of_nat (nat_of_ascii c) - 48.

(** [str.isspace] on code points 0..255: the set [str.strip()] strips. *)
Definition py_space (c : ascii) : bool :=
  let n := nat_of_ascii c in
  (Nat.leb 9 n && Nat.leb n 13 || Nat.leb 28 n && Nat.leb n 32
   || Nat.eqb n 133 || Nat.eqb n 160)%bool.

(** Decimal rendering of an integer, as [str(int)] for an integer of at
    most 4300 digits (all a JSON document can hold, see above). *)
Definition z_dec (z : Z) : string := NilEmpty.string_of_int (Z.to_int z).

(** The text of [format(n, ",")]: digits grouped by three with commas.
    [fmt_grouped] renders any integer; [py_format_grouped] below raises, as
    CPython does, above 4300 digits, and the messages use [fmt_grouped]
    only on values it has let through. *)
Fixpoint group3 (l : list ascii) (n : nat) : list ascii :=
  match l with
  | [] => []
  | c :: r =>
      if Nat.eqb n 3 then ","%char :: c :: group3 r 1 else c :: group3 r (S n)
  end.

Definition fmt_grouped (z : Z) : string :=
  let ds := list_ascii_of_string (NilEmpty.string_of_uint (N.to_uint (Z.abs_N z))) in
  let body := string_of_list_ascii (rev (group3 (rev ds) 0)) in
  if z <? 0 then "-" ++ body else body.

(** [repr(str)]: quote choice and escapes of CPython's [unicode_repr]. *)
Definition hex_digit (n : nat) : string :=
  if Nat.ltb n 10 then chr (48 + n) else chr (87 + n).

Definition py_printable (c : ascii) : bool :=
  let n := nat_of_ascii c in
  (Nat.leb 32 n && Nat.leb n 126 || Nat.leb 161 n && negb (Nat.eqb n 173))%bool.

Definition repr_char (q : ascii) (c : ascii) : string :=
  let n := nat_of_ascii c in
  if Nat.eqb n 92 then chr 92 ++ chr 92
  else if Ascii.eqb c q then chr 92 ++ String c EmptyString
  else if Nat.eqb n 9 then chr 92 ++ "t"
  else if Nat.eqb n 10 then chr 92 ++ "n"
  else if Nat.eqb n 13 then chr 92 ++ "r"
  else if py_printable c then String c EmptyString
  else chr 92 ++ "x" ++ hex_digit (Nat.div n 16) ++ hex_digit (Nat.modulo n 16).

Definition has_char (c : ascii) (s : string) : bool :=
  existsb (Ascii.eqb c) (list_ascii_of_string s).

Definition repr_str (s : string) : string :=
  let q := if (has_char (ascii_of_nat 39) s && negb (has_char (ascii_of_nat 34) s))%bool
           then ascii_of_nat 34 else ascii_of_nat 39 in
  String q EmptyString
  ++ String.concat EmptyString (map (repr_char q) (list_ascii_of_string s))
  ++ String q EmptyString.

(** [repr] of a JSON value and [str] (the [{value}] of an f-string). *)
Fixpoint py_repr (j : json) : string :=
  match j with
  | JNull => "None"
  | JBool true => "True"
  | JBool false => "False"
  | JInt z => z_dec z
  | JStr s => repr_str s
  | JArr l =>
      "[" ++ String.concat ", " ((fix go (l : list json) : list string :=
                             match l with [] => [] | x :: r => py_repr x :: go r end) l)
          ++ "]"
  | JObj kvs =>
      "{" ++ String.concat ", " ((fix go (l : list (string * json)) : list string :=
                             match l with
                             | [] => []
                             | (k, v) :: r => (repr_str k ++ ": " ++ py_repr v) :: go r
                             end) kvs)
          ++ "}"
  end.

Definition py_str (j : json) : string :=
  match j with
  | JStr s => s
  | _ => py_repr j
  end.

Definition truthy (j : json) : bool :=
  match j with
  | JNull => false
  | JBool b => b
  | JInt z => negb (z =? 0)
  | JStr s => negb (String.eqb s EmptyString)
  | JArr l => negb (Nat.eqb (List.length l) 0)
  | JObj kvs => negb (Nat.eqb (List.length kvs) 0)
  end.

(** ** [int()] on a string, base 10 *)

Fixpoint lstrip (l : list ascii) : list ascii :=
  match l with
  | c :: r => if py_space c then lstrip r else l
  | [] => []
  end.

Definition strip (l : list ascii) : list ascii := rev (lstrip (rev (lstrip l))).

(** The characters [int()] strips: [Py_ISSPACE] (9..13 and 32), and [\x85],
    [\xa0], which [_PyUnicode_TransformDecimalAndSpaceToASCII] first turns
    into a space; unlike [str.isspace] it keeps 28..31. *)
Definition int_space (c : ascii) : bool :=
  let n := nat_of_ascii c in
  (Nat.leb 9 n && Nat.leb n 13 || Nat.eqb n 32 || Nat.eqb n 133 || Nat.eqb n 160)%bool.

Fixpoint int_lstrip (l : list ascii) : list ascii :=
  match l with
  | c :: r => if int_space c then int_lstrip r else l
  | [] => []
  end.

Definition int_strip (l : list ascii) : list ascii := rev (int_lstrip (rev (int_lstrip l))).

(** Digits after the first one; a single underscore may separate digits.
    The result is the value and the number [n] of digits read. *)
Fixpoint digits_tail (l : list ascii) (acc : Z) (n : nat) : option (Z * nat) :=
  match l with
  | [] => Some (acc, n)
  | c :: r =>
      if is_digit c then digits_tail r (10 * acc + digit_value c) (S n)
      else if Ascii.eqb c "_"%char then
        match r with
        | c' :: r' =>
            if is_digit c' then digits_tail r' (10 * acc + digit_value c') (S n) else None
        | [] => None
        end
      else None
  end.

Definition unsigned (l : list ascii) : option (Z * nat) :=
  match l with
  | c :: r => if is_digit c then digits_tail r (digit_value c) 1 else None
  | [] => None
  end.

(** The value of a base-10 literal and its number of digits, before the
    digit limit is applied. *)
Definition int_literal_value (s : string) : option (Z * nat) :=
  match int_strip (list_ascii_of_string s) with
  | c :: r =>
      if Ascii.eqb c "+"%char then unsigned r
      else if Ascii.eqb c "-"%char then option_map (fun p => (- fst p, snd p)) (unsigned r)
      else unsigned (c :: r)
  | [] => None
  end.

(** [sys.get_int_max_str_digits()] *)
Definition int_max_str_digits : nat := 4300.

(** [int(s)] for a string: its value, or [None] when it raises [ValueError]. *)
Definition py_int_parse (s : string) : option Z :=
  match int_literal_value s with
  | Some (z, n) => if Nat.leb n int_max_str_digits then Some z else None
  | None => None
  end.

(** The digit count of [PyLong_FromString]: after the leading blanks and the
    sign, the run of digits and underscores is scanned and its digits are
    counted; [None] when the scan stops on a leading, doubled or trailing
    underscore. *)
Fixpoint scan_digits (l : list ascii) (prev_us : bool) (n : nat) : option nat :=
  match l with
  | c :: r =>
      if is_digit c then scan_digits r false (S n)
      else if Ascii.eqb c "_"%char then (if prev_us then None else scan_digits r true n)
      else if prev_us then None else Some n
  | [] => if prev_us then None else Some n
  end.

Definition scanned_digits (s : string) : option nat :=
  let l := int_lstrip (list_ascii_of_string s) in
  let body := match l with
              | c :: r => if (Ascii.eqb c "+"%char || Ascii.eqb c "-"%char)%bool then r else l
              | [] => []
              end in
  match body with
  | c :: _ => if Ascii.eqb c "_"%char then None else scan_digits body false 0%nat
  | [] => Some 0%nat
  end.

(** The message of the [ValueError] of a rejected literal: [repr] is cut to
    200 characters ([%.200R]). *)
Definition invalid_literal (s : string) : string :=
  "invalid literal for int() with base 10: " ++ substring 0 200 (repr_str s).

Definition to_int_limit_msg (n : nat) : string :=
  "Exceeds the limit (4300 digits) for integer string conversion: value has "
  ++ z_dec (Z.of_nat n) ++ " digits; use sys.set_int_max_str_digits() to increase the limit".

(** The digit limit is checked once the digit run is scanned, before the
    rest of the literal is looked at. *)
Definition int_error_msg (s : string) : string :=
  match scanned_digits s with
  | Some n => if Nat.ltb int_max_str_digits n then to_int_limit_msg n else invalid_literal s
  | None => invalid_literal s
  end.

(** [int(x)] for a JSON value. *)
Definition py_int (j : json) : res Z :=
  match j with
  | JStr s =>
      match py_int_parse s with
      | Some z => Ok z
      | None => Exc (PyExc "ValueError" (int_error_msg s))
      end
  | JInt z => Ok z
  | JBool b => Ok (if b then 1 else 0)
  | _ => Exc (PyExc "TypeError"
                ("int() argument must be a string, a bytes-like object or a real number, not "
                 ++ squote ++ type_name j ++ squote))
  end.

(** ** [format(n, ",")] and [str(n)] on an integer *)

Definition str_limit_msg : string :=
  "Exceeds the limit (4300 digits) for integer string conversion; use sys.set_int_max_str_digits() to increase the limit".

(** At most 4300 digits, the sign not counted. *)
Definition within_str_limit (z : Z) : bool := Z.abs z <? 10 ^ Z.of_nat int_max_str_digits.

(** [format(n, ",")] (the [{n:,}] of an f-string). *)
Definition py_format_grouped (z : Z) : res string :=
  if within_str_limit z then Ok (fmt_grouped z) else Exc (PyExc "ValueError" str_limit_msg).

(** ** [re.match(r'^-?\d+$', s)] *)

Definition digits1 (l : list ascii) : bool :=
  (negb (Nat.eqb (List.length l) 0) && forallb is_digit l)%bool.

Definition int_literal (l : list ascii) : bool :=
  match l with
  | c :: r => if Ascii.eqb c "-"%char then digits1 r else digits1 l
  | [] => false
  end.

(** Without MULTILINE, [$] matches at the end or before a final newline. *)
Definition re_match_int (s : string) : bool :=
  let l := list_ascii_of_string s in
  (int_literal l
   || match rev l with
      | c :: r => Ascii.eqb c newline && int_literal (rev r)
      | [] => false
      end)%bool.

(** ** Python container operations used by the validator *)

Fixpoint assoc (k : string) (kvs : list (string * json)) : option json :=
  match kvs with
  | [] => None
  | (k', v) :: r => if String.eqb k k' then Some v else assoc k r
  end.

Fixpoint is_substring (needle hay : string) : bool :=
  (String.prefix needle hay
   || match hay with String _ r => is_substring needle r | EmptyString => false end)%bool.

Definition no_attribute (j : json) (attr : string) : py_exc :=
  PyExc "AttributeError"
    (squote ++ type_name j ++ squote ++ " object has no attribute " ++ squote ++ attr ++ squote).

(** [o.get(k, default)] *)
Definition dict_get (o : json) (k : string) (dflt : json) : res json :=
  match o with
  | JObj kvs => Ok (match assoc k kvs with Some v => v | None => dflt end)
  | _ => Exc (no_attribute o "get")
  end.

(** [o.items()] *)
Definition dict_items (o : json) : res (list (string * json)) :=
  match o with
  | JObj kvs => Ok kvs
  | _ => Exc (no_attribute o "items")
  end.

(** [k in o] for a string [k]. *)
Definition py_contains (k : string) (o : json) : res bool :=
  match o with
  | JObj kvs => Ok (match assoc k kvs with Some _ => true | None => false end)
  | JArr l => Ok (existsb (fun j => match j with JStr s => String.eqb s k | _ => false end) l)
  | JStr s => Ok (is_substring k s)
  | _ => Exc (PyExc "TypeError"
                ("argument of type " ++ squote ++ type_name o ++ squote ++ " is not iterable"))
  end.

(** [o[k]] for a string [k]. *)
Definition py_getitem (o : json) (k : string) : res json :=
  match o with
  | JObj kvs =>
      match assoc k kvs with
      | Some v => Ok v
      | None => Exc (PyExc "KeyError" (repr_str k))
      end
  | JArr _ => Exc (PyExc "TypeError" "list indices must be integers or slices, not str")
  | JStr _ => Exc (PyExc "TypeError" ("string indices must be integers, not " ++ squote ++ "str" ++ squote))
  | _ => Exc (PyExc "TypeError" (squote ++ type_name o ++ squote ++ " object is not subscriptable"))
  end.

(** ** A state and exception monad: the state is [(errors, warnings)] *)

Definition state : Type := (list string * list string)%type.
Definition M (A : Type) : Type := state -> res A * state.

Definition ret {A} (a : A) : M A := fun s => (Ok a, s).
Definition bind {A B} (m : M A) (k : A -> M B) : M B :=
  fun s => match m s with
           | (Ok a, s') => k a s'
           | (Exc e, s') => (Exc e, s')
           end.
Definition lift {A} (r : res A) : M A := fun s => (r, s).

Notation "x <- m ;; k" := (bind m (fun x => k))
  (at level 61, m at next level, right associativity).
Notation "m ;;; k" := (bind m (fun _ : unit => k))
  (at level 61, right associativity).

(** [errors.append(m)] and [warnings.append(m)] *)
Definition append_error (m : string) : M unit :=
  fun s => (Ok tt, ((fst s ++ [m])%list, snd s)).
Definition append_warning (m : string) : M unit :=
  fun s => (Ok tt, (fst s, (snd s ++ [m])%list)).

(** [try: body  except ValueError as e: handler(str(e))] *)
Definition try_value_error (body : M unit) (handler : string -> M unit) : M unit :=
  fun s => match body s with
           | (Exc (PyExc cls msg), s') =>
               if String.eqb cls "ValueError" then handler msg s' else (Exc (PyExc cls msg), s')
           | r => r
           end.

(** [for x in l: body(x)] *)
Fixpoint for_each {A} (l : list A) (body : A -> M unit) : M unit :=
  match l with
  | [] => ret tt
  | x :: r => body x ;;; for_each r body
  end.

Record verdict : Type := mk_verdict {
  errors : list string;
  warnings : list string;
  is_valid : bool
}.

(** A call either returns the result dictionary or raises. *)
Inductive outcome : Type :=
| Returned (v : verdict)
| Raised (e : py_exc).

(** ** The validation rules shared by both classes *)

Definition required_fields : list string := ["010"; "020"; "030"; "100"].
Definition component_codes : list string := ["010"; "020"; "030"; "040"].
Definition deduction_codes : list string := ["070"].

Definition missing_msg (c : string) : string := "Missing required field: " ++ c.
Definition empty_msg (c : string) : string := "Empty value for field: " ++ c.
Definition nonnumeric_msg (c : string) (v : json) : string :=
  "Non-numeric value in field " ++ c ++ ": " ++ py_str v.
Definition mismatch_msg (calculated reported : Z) : string :=
  "CET1 calculation mismatch: Calculated " ++ fmt_grouped calculated
  ++ " vs Reported " ++ fmt_grouped reported.
Definition negative_msg (reported : Z) : string :=
  "CET1 is negative: " ++ fmt_grouped reported.
Definition calc_error_msg (e : string) : string := "Calculation error: " ++ e.

(** The f-strings of the two checks; their [{x:,}] fields are formatted left
    to right and raise above the digit limit. *)
Definition format_mismatch (calculated reported : Z) : res string :=
  a <-? py_format_grouped calculated ;;
  b <-? py_format_grouped reported ;;
  Ok ("CET1 calculation mismatch: Calculated " ++ a ++ " vs Reported " ++ b).

Definition format_negative (reported : Z) : res string :=
  a <-? py_format_grouped reported ;;
  Ok ("CET1 is negative: " ++ a).

(** ** [COREPEngine.validate_response] (src/corep_engine.py, lines 154-213) *)
Module COREPEngine.

(** Pass 1: [for field_code in required_fields: ...] *)
Definition check_required (llm_data : json) (field_code : string) : M unit :=
  d <- lift (dict_get llm_data "data" (JObj [])) ;;
  present <- lift (py_contains field_code d) ;;
  if negb present then append_error (missing_msg field_code)
  else
    d' <- lift (py_getitem llm_data "data") ;;
    f <- lift (py_getitem d' field_code) ;;
    v <- lift (dict_get f "value" JNull) ;;
    if truthy v then ret tt else append_warning (empty_msg field_code).

(** Pass 2: [for field_code, field_data in llm_data.get("data", {}).items(): ...] *)
Definition check_type (fd : string * json) : M unit :=
  let (field_code, field_data) := fd in
  value <- lift (dict_get field_data "value" (JStr EmptyString)) ;;
  if (truthy value && negb (re_match_int (py_str value)))%bool
  then append_warning (nonnumeric_msg field_code value)
  else ret tt.

(** The loops [for code in [...]: if code in data: ... += int(val_str)]. *)
Fixpoint sum_values (data : json) (codes : list string) (acc : Z) : M Z :=
  match codes with
  | [] => ret acc
  | code :: r =>
      present <- lift (py_contains code data) ;;
      if present then
        f <- lift (py_getitem data code) ;;
        val_str <- lift (dict_get f "value" (JStr "0")) ;;
        if truthy val_str then
          n <- lift (py_int val_str) ;;
          sum_values data r (acc + n)
        else sum_values data r acc
      else sum_values data r acc
  end.

(** Passes 3 and 4: the body of the [try] block. *)
Definition check_calculation (llm_data : json) : M unit :=
  data <- lift (dict_get llm_data "data" (JObj [])) ;;
  components <- sum_values data component_codes 0 ;;
  deductions <- sum_values data deduction_codes 0 ;;
  let calculated_cet1 := components - deductions in
  f100 <- lift (dict_get data "100" (JObj [])) ;;
  reported_cet1_str <- lift (dict_get f100 "value" (JStr "0")) ;;
  reported_cet1 <- (if truthy reported_cet1_str then lift (py_int reported_cet1_str) else ret 0) ;;
  (if negb (calculated_cet1 =? reported_cet1)
   then m <- lift (format_mismatch calculated_cet1 reported_cet1) ;; append_error m
   else ret tt) ;;;
  (if reported_cet1 <? 0
   then m <- lift (format_negative reported_cet1) ;; append_error m
   else ret tt).

Definition validate_body (llm_data : json) : M unit :=
  for_each required_fields (check_required llm_data) ;;;
  d <- lift (dict_get llm_data "data" (JObj [])) ;;
  items <- lift (dict_items d) ;;
  for_each items check_type ;;;
  try_value_error (check_calculation llm_data)
                  (fun e => append_warning (calc_error_msg e)).

Definition validate_response (llm_data : json) : outcome :=
  match validate_body llm_data ([], []) with
  | (Ok _, (errs, warns)) => Returned (mk_verdict errs warns (Nat.eqb (length errs) 0))
  | (Exc e, _) => Raised e
  end.

End COREPEngine.

(** ** [COREPAssistant.validate_response] (src/main.py, lines 130-190) *)
Module COREPAssistant.

(** Pass 1: [for field_code in required_fields: ...] *)
Definition check_required (llm_data : json) (field_code : string) : M unit :=
  d <- lift (dict_get llm_data "data" (JObj [])) ;;
  present <- lift (py_contains field_code d) ;;
  if negb present then append_error (missing_msg field_code)
  else
    d' <- lift (py_getitem llm_data "data") ;;
    f <- lift (py_getitem d' field_code) ;;
    v <- lift (dict_get f "value" JNull) ;;
    if truthy v then ret tt else append_warning (empty_msg field_code).

(** Pass 2: [for field_code, field_data in llm_data.get("data", {}).items(): ...] *)
Definition check_type (fd : string * json) : M unit :=
  let (field_code, field_data) := fd in
  value <- lift (dict_get field_data "value" (JStr EmptyString)) ;;
  if (truthy value && negb (re_match_int (py_str value)))%bool
  then append_warning (nonnumeric_msg field_code value)
  else ret tt.

(** The loops [for code in [...]: if code in data: ... += int(val_str)]. *)
Fixpoint sum_values (data : json) (codes : list string) (acc : Z) : M Z :=
  match codes with
  | [] => ret acc
  | code :: r =>
      present <- lift (py_contains code data) ;;
      if present then
        f <- lift (py_getitem data code) ;;
        val_str <- lift (dict_get f "value" (JStr "0")) ;;
        if truthy val_str then
          n <- lift (py_int val_str) ;;
          sum_values data r (acc + n)
        else sum_values data r acc
      else sum_values data r acc
  end.

(** Passes 3 and 4: the body of the [try] block. *)
Definition check_calculation (llm_data : json) : M unit :=
  data <- lift (dict_get llm_data "data" (JObj [])) ;;
  components <- sum_values data component_codes 0 ;;
  deductions <- sum_values data deduction_codes 0 ;;
  let calculated_cet1 := components - deductions in
  f100 <- lift (dict_get data "100" (JObj [])) ;;
  reported_cet1_str <- lift (dict_get f100 "value" (JStr "0")) ;;
  reported_cet1 <- (if truthy reported_cet1_str then lift (py_int reported_cet1_str) else ret 0) ;;
  (if negb (calculated_cet1 =? reported_cet1)
   then m <- lift (format_mismatch calculated_cet1 reported_cet1) ;; append_error m
   else ret tt) ;;;
  (if reported_cet1 <? 0
   then m <- lift (format_negative reported_cet1) ;; append_error m
   else ret tt).

Definition validate_body (llm_data : json) : M unit :=
  for_each required_fields (check_required llm_data) ;;;
  d <- lift (dict_get llm_data "data" (JObj [])) ;;
  items <- lift (dict_items d) ;;
  for_each items check_type ;;;
  try_value_error (check_calculation llm_data)
                  (fun e => append_warning (calc_error_msg e)).

Definition validate_response (llm_data : json) : outcome :=
  match validate_body llm_data ([], []) with
  | (Ok _, (errs, warns)) => Returned (mk_verdict errs warns (Nat.eqb (length errs) 0))
  | (Exc e, _) => Raised e
  end.

End COREPAssistant.

(** ** Reading a populated template

    A populated template is a mapping whose ["data"] entry is a mapping from
    field codes to field mappings, each holding a scalar ["value"] (a string,
    a number, a boolean or null) when it holds one. *)

Definition scalar (j : json) : bool :=
  match j with JArr _ | JObj _ => false | _ => true end.

Definition field_ok (f : json) : bool :=
  match f with
  | JObj fs => match assoc "value" fs with Some v => scalar v | None => true end
  | _ => false
  end.

Definition populated (llm_data : json) (kvs : list (string * json)) : Prop :=
  exists top, llm_data = JObj top /\ assoc "data" top = Some (JObj kvs)
              /\ forallb (fun kv => field_ok (snd kv)) kvs = true.

Definition has_key (k : string) (kvs : list (string * json)) : bool :=
  match assoc k kvs with Some _ => true | None => false end.

Definition get_value (fs : list (string * json)) (dflt : json) : json :=
  match assoc "value" fs with Some v => v | None => dflt end.

(** The ["value"] stored for field [c], if [c] is present and holds one. *)
Definition value_of (kvs : list (string * json)) (c : string) : option json :=
  match assoc c kvs with Some (JObj fs) => assoc "value" fs | _ => None end.

(** What field [c] adds to the pass-3 sums: [int(value)] when its value is
    truthy, 0 when it is falsy or the field is absent (and 0 when [int()]
    raises, which [rejected] tells). *)
Definition int_value (kvs : list (string * json)) (c : string) : Z :=
  match value_of kvs c with
  | Some v => if truthy v then match py_int v with Ok z => z | Exc _ => 0 end else 0
  | None => 0
  end.

(** Field [c] holds a truthy value that [int()] rejects. *)
Definition rejected (kvs : list (string * json)) (c : string) : bool :=
  match value_of kvs c with
  | Some v => (truthy v && is_exc (py_int v))%bool
  | None => false
  end.

(** What each pass appends, read off the template. *)
Definition pass1_errors (kvs : list (string * json)) (c : string) : list string :=
  if has_key c kvs then [] else [missing_msg c].

Definition pass1_warnings (kvs : list (string * json)) (c : string) : list string :=
  match assoc c kvs with
  | Some (JObj fs) => if truthy (get_value fs JNull) then [] else [empty_msg c]
  | _ => []
  end.

Definition pass2_warnings (kv : string * json) : list string :=
  match snd kv with
  | JObj fs =>
      let v := get_value fs (JStr EmptyString) in
      if (truthy v && negb (re_match_int (py_str v)))%bool then [nonnumeric_msg (fst kv) v] else []
  | _ => []
  end.

(** The [try] block of passes 3 and 4 as a result: the errors it appends, and
    the exception that leaves it, if any; errors appended before the
    exception stay in the list. *)
Definition sum_res (kvs : list (string * json)) (codes : list string) : res Z :=
  fst (COREPEngine.sum_values (JObj kvs) codes 0 ([], [])).

Definition reported_res (kvs : list (string * json)) : res Z :=
  let f100 := match assoc "100" kvs with Some f => f | None => JObj [] end in
  match dict_get f100 "value" (JStr "0") with
  | Ok v => if truthy v then py_int v else Ok 0
  | Exc e => Exc e
  end.

Definition negative_check (reported : Z) : list string * option py_exc :=
  if reported <? 0 then
    match format_negative reported with
    | Ok m => ([m], None)
    | Exc e => ([], Some e)
    end
  else ([], None).

Definition checks_of (calculated reported : Z) : list string * option py_exc :=
  if calculated =? reported then negative_check reported
  else
    match format_mismatch calculated reported with
    | Ok m => let (es, e) := negative_check reported in (m :: es, e)
    | Exc e => ([], Some e)
    end.

Definition calc_res (kvs : list (string * json)) : list string * option py_exc :=
  match sum_res kvs component_codes with
  | Exc e => ([], Some e)
  | Ok comp =>
      match sum_res kvs deduction_codes with
      | Exc e => ([], Some e)
      | Ok ded =>
          match reported_res kvs with
          | Exc e => ([], Some e)
          | Ok r => checks_of (comp - ded) r
          end
      end
  end.

Definition pass3_errors (kvs : list (string * json)) : list string := fst (calc_res kvs).

Definition pass3_warnings (kvs : list (string * json)) : list string :=
  match snd (calc_res kvs) with Some (PyExc _ m) => [calc_error_msg m] | None => [] end.

(** The signed sum [010 + 020 + 030 + 040 - 070]. *)
Definition signed_sum (kvs : list (string * json)) : Z :=
  int_value kvs "010" + int_value kvs "020" + int_value kvs "030" + int_value kvs "040"
  - int_value kvs "070".

(** The data mapping with field [c] set to a field mapping whose ["value"] is [x]. *)
Definition with_value (pre post : list (string * json)) (c : string)
           (rest : list (string * json)) (x : json) : list (string * json) :=
  (pre ++ (c, JObj (("value", x) :: rest)) :: post)%list.

(** A template whose ["data"] mapping is [kvs], with other top-level keys [meta]. *)
Definition with_data (meta kvs : list (string * json)) : json :=
  JObj (("data", JObj kvs) :: meta).

(** ** Sample templates, shaped like the example in [generate_prompt] *)

Definition field (v : json) (d : string) : json :=
  JObj [("value", v); ("description", JStr d)].

Definition sample_data (v010 v020 v030 v040 v070 v100 : string) : list (string * json) :=
  [("010", field (JStr v010) "Ordinary share capital");
   ("020", field (JStr v020) "Share premium account");
   ("030", field (JStr v030) "Retained earnings");
   ("040", field (JStr v040) "Other comprehensive income");
   ("070", field (JStr v070) "Intangible assets (deduction)");
   ("100", field (JStr v100) "Total CET1 capital")].

Definition sample (v010 v020 v030 v040 v070 v100 : string) : json :=
  JObj [("template", JStr "C 01.00"); ("reporting_date", JStr "2024-12-31");
        ("currency", JStr "GBP"); ("data", JObj (sample_data v010 v020 v030 v040 v070 v100))].

(** A mapping whose fields carry no ["value"] at all. *)
Definition valueless : json :=
  JObj [("data", JObj [("010", JObj []); ("020", JObj []); ("030", JObj []); ("100", JObj [])])].

(** Field 010 empty, fields 030 and 100 missing. *)
Definition partial_data : list (string * json) :=
  [("010", field (JStr EmptyString) "Ordinary share capital");
   ("020", field (JStr "5") "Share premium account");
   ("070", field (JStr "5") "Intangible assets (deduction)")].

Definition total_with_newline : string := "505000000" ++ String newline EmptyString.

(** The string of [n] nines: [4300] of them is the largest literal [int()]
    reads with the default limit. *)
Definition nines (n : nat) : string := string_of_list_ascii (repeat "9"%char n).

(** The only exception the [try] block can meet on a populated template. *)
Definition value_error_only {A} (r : res A) : Prop :=
  match r with
  | Ok _ => True
  | Exc (PyExc cls _) => cls = "ValueError"
  end.

(** ** The rest of the pipeline: reply parsing, prompts, displays, reports *)

(** Whether a value is a Python [dict]. *)
Definition is_mapping (j : json) : bool := match j with JObj _ => true | _ => false end.

(** [str(e)] of a raised exception. *)
Definition exc_str (e : py_exc) : string := match e with PyExc _ m => m end.

(** [len(o)] *)
Definition py_len (j : json) : res Z :=
  match j with
  | JStr s => Ok (Z.of_nat (String.length s))
  | JArr l => Ok (Z.of_nat (length l))
  | JObj kvs => Ok (Z.of_nat (length kvs))
  | _ => Exc (PyExc "TypeError"
                ("object of type " ++ squote ++ type_name j ++ squote ++ " has no len()"))
  end.

(** [str.strip()] *)
Definition str_strip (s : string) : string :=
  string_of_list_ascii (strip (list_ascii_of_string s)).

(** [format(s, "<w")] and [format(s, ">w")] on a string. *)
Fixpoint spaces (n : nat) : string :=
  match n with
  | O => EmptyString
  | S k => String " "%char (spaces k)
  end.

Definition ljust (s : string) (w : nat) : string := s ++ spaces (w - String.length s).
Definition rjust (s : string) (w : nat) : string := spaces (w - String.length s) ++ s.

(** [s.split(c)] for a one-character separator. *)
Fixpoint split_on (c : ascii) (s : string) : list string :=
  match s with
  | EmptyString => [EmptyString]
  | String x r =>
      if Ascii.eqb x c then EmptyString :: split_on c r
      else match split_on c r with
           | w :: ws => String x w :: ws
           | [] => [String x EmptyString]
           end
  end.

(** ["\n".join(ls)] *)
Definition join_lines (ls : list string) : string :=
  String.concat (String newline EmptyString) ls.

(** The validation result dictionary returned by [validate_response]. *)
Definition verdict_json (v : verdict) : json :=
  JObj [("errors", JArr (map JStr (errors v)));
        ("warnings", JArr (map JStr (warnings v)));
        ("is_valid", JBool (is_valid v))].

(** *** [re.search(r'\{.*\}', text, re.DOTALL).group()] *)

(** The greedy [.*\}]: the longest prefix of [s] that ends in a closing brace. *)
Fixpoint greedy_close (s : string) : option string :=
  match s with
  | EmptyString => None
  | String c r =>
      match greedy_close r with
      | Some t => Some (String c t)
      | None => if Ascii.eqb c "}"%char then Some (String c EmptyString) else None
      end
  end.

(** A match of the pattern starting at the first character of [s]. *)
Definition brace_match_at (s : string) : option string :=
  match s with
  | String c r => if Ascii.eqb c "{"%char then option_map (String c) (greedy_close r) else None
  | EmptyString => None
  end.

(** The match at the leftmost position where there is one. *)
Fixpoint re_search_braces (s : string) : option string :=
  match brace_match_at s with
  | Some m => Some m
  | None => match s with String _ r => re_search_braces r | EmptyString => None end
  end.

(** *** [json.dumps(obj, indent=2)] (with the default [ensure_ascii=True]) *)

Definition json_escape_char (c : ascii) : string :=
  let n := nat_of_ascii c in
  if Nat.eqb n 34 then chr 92 ++ chr 34
  else if Nat.eqb n 92 then chr 92 ++ chr 92
  else if Nat.eqb n 10 then chr 92 ++ "n"
  else if Nat.eqb n 13 then chr 92 ++ "r"
  else if Nat.eqb n 9 then chr 92 ++ "t"
  else if Nat.eqb n 8 then chr 92 ++ "b"
  else if Nat.eqb n 12 then chr 92 ++ "f"
  else if (Nat.leb 32 n && Nat.leb n 126)%bool then String c EmptyString
  else chr 92 ++ "u00" ++ hex_digit (Nat.div n 16) ++ hex_digit (Nat.modulo n 16).

Definition json_quote (s : string) : string :=
  chr 34 ++ String.concat EmptyString (map json_escape_char (list_ascii_of_string s)) ++ chr 34.

(** A newline followed by the indentation of nesting level [n]. *)
Definition newline_indent (n : nat) : string :=
  String newline EmptyString ++ spaces (2 * n).

Fixpoint json_dumps_at (level : nat) (j : json) : string :=
  match j with
  | JNull => "null"
  | JBool true => "true"
  | JBool false => "false"
  | JInt z => z_dec z
  | JStr s => json_quote s
  | JArr [] => "[]"
  | JArr l =>
      "[" ++ newline_indent (S level)
      ++ String.concat ("," ++ newline_indent (S level))
           ((fix go (l : list json) : list string :=
               match l with [] => [] | x :: r => json_dumps_at (S level) x :: go r end) l)
      ++ newline_indent level ++ "]"
  | JObj [] => "{}"
  | JObj kvs =>
      "{" ++ newline_indent (S level)
      ++ String.concat ("," ++ newline_indent (S level))
           ((fix go (l : list (string * json)) : list string :=
               match l with
               | [] => []
               | (k, v) :: r => (json_quote k ++ ": " ++ json_dumps_at (S level) v) :: go r
               end) kvs)
      ++ newline_indent level ++ "}"
  end.

Definition json_dumps (j : json) : string := json_dumps_at 0 j.

(** *** The prompts of [generate_prompt] and [generate_corep_prompt]

    The fixed text of the f-strings, line by line, with [{{] and [}}] read as
    braces and a backquote standing for a double quote. *)

Fixpoint unbacktick (s : string) : string :=
  match s with
  | EmptyString => EmptyString
  | String c r => String (if Ascii.eqb c "`"%char then ascii_of_nat 34 else c) (unbacktick r)
  end.

Definition text_lines (ls : list string) : string := unbacktick (join_lines ls).

Definition prompt_head : string :=
  text_lines
  ["You are a PRA COREP regulatory reporting assistant. Your task is to populate the COREP Own Funds template (C 01.00) based on the user's scenario.";
   "";
   "REGULATORY RULES:";
   ""].

Definition prompt_schema_label : string :=
  text_lines ["";
   "";
   "COREP TEMPLATE SCHEMA (C 01.00 - CET1 Section):";
   ""].

Definition prompt_scenario_label : string :=
  text_lines ["";
   "";
   "USER SCENARIO:";
   ""].

Definition prompt_instructions : list string :=
  ["";
   "";
   "INSTRUCTIONS:";
   "1. Extract numerical values from the scenario";
   "2. Apply COREP reporting rules exactly as specified";
   "3. Calculate total CET1 capital (Row 100) = 010 + 020 + 030 + 040 - 070";
   "4. Flag any missing or inconsistent data";
   "5. Provide audit trail with specific rule references";
   "6. Format all amounts as numbers without commas or currency symbols";
   "";
   "REQUIRED OUTPUT FORMAT (JSON ONLY):";
   "{";
   "  `template`: `C 01.00`,";
   "  `reporting_date`: `2024-12-31`,";
   "  `currency`: `GBP`,";
   "  `data`: {";
   "    `010`: {`value`: `150000000`, `description`: `Ordinary share capital`},";
   "    `020`: {`value`: `75000000`, `description`: `Share premium account`},";
   "    `030`: {`value`: `300000000`, `description`: `Retained earnings`},";
   "    `040`: {`value`: `25000000`, `description`: `Other comprehensive income`},";
   "    `070`: {`value`: `45000000`, `description`: `Intangible assets (deduction)`, `is_deduction`: true},";
   "    `100`: {`value`: `505000000`, `description`: `Total CET1 capital`, `is_calculated`: true}";
   "  },";
   "  `calculations`: {";
   "    `CET1_formula`: `010 + 020 + 030 + 040 - 070 = 150M + 75M + 300M + 25M - 45M = 505M`";
   "  },"].

Definition prompt_closing : list string :=
  ["  `validation_notes`: [";
   "    {`type`: `INFO`, `message`: `All required fields present`, `fields`: [`010`, `020`, `030`, `100`]}";
   "  ]";
   "}";
   "";
   "Return ONLY valid JSON. No explanations, no markdown, no additional text."].

(** src/corep_engine.py, lines 81-119. *)
Definition engine_prompt_tail : string :=
  text_lines
  (prompt_instructions ++
  ["  # In the generate_prompt method, make sure the example audit_trail is correct:";
   "  `audit_trail`: [";
   "    {`field`: `010`, `rule`: `CRR Article 26(1)(a)`, `justification`: `Ordinary shares are CET1 eligible capital`},";
   "    {`field`: `020`, `rule`: `CRR Article 26(1)(b)`, `justification`: `Share premium account related to CET1 instruments`},";
   "    {`field`: `030`, `rule`: `CRR Article 26(1)(c)`, `justification`: `Retained earnings included in CET1`},";
   "    {`field`: `040`, `rule`: `CRR Article 26(1)(d)`, `justification`: `Other comprehensive income is CET1 component`},";
   "    {`field`: `070`, `rule`: `CRR Article 36(1)(b)`, `justification`: `Intangible assets must be deducted from CET1`},";
   "    {`field`: `100`, `rule`: `CRR Article 25`, `justification`: `Total CET1 = sum of components minus deductions`}";
   "  ],"] ++ prompt_closing)%list.

(** src/main.py, lines 59-92. *)
Definition assistant_prompt_tail : string :=
  text_lines
  (prompt_instructions ++
  ["  `audit_trail`: [";
   "    {`field`: `010`, `rule`: `CRR Article 26(1)(a)`, `justification`: `Ordinary shares are CET1 eligible capital`},";
   "    {`field`: `070`, `rule`: `CRR Article 36(1)(b)`, `justification`: `Intangible assets must be deducted from CET1`}";
   "  ],"] ++ prompt_closing)%list.

Definition prompt_text (tail rules schema_part user_scenario : string) : string :=
  prompt_head ++ rules ++ prompt_schema_label ++ schema_part
  ++ prompt_scenario_label ++ user_scenario ++ tail.

(** [COREPEngine.generate_prompt] (src/corep_engine.py, lines 67-121), with
    [self.rules] and [self.schema] as arguments. *)
Definition generate_prompt (rules : string) (schema : json) (user_scenario : string) : res string :=
  has_sections <-? py_contains "sections" schema ;;
  if has_sections then
    sections <-? py_getitem schema "sections" ;;
    cet1 <-? py_getitem sections "CET1_Capital" ;;
    Ok (prompt_text engine_prompt_tail rules (json_dumps cet1) user_scenario)
  else Ok (prompt_text engine_prompt_tail rules "{}" user_scenario).

(** [COREPAssistant.generate_corep_prompt] (src/main.py, lines 45-94). *)
Definition generate_corep_prompt (rules : string) (schema : json) (user_scenario : string)
  : res string :=
  sections <-? py_getitem schema "sections" ;;
  cet1 <-? py_getitem sections "CET1_Capital" ;;
  Ok (prompt_text assistant_prompt_tail rules (json_dumps cet1) user_scenario).

(** *** [parse_llm_response] and [COREPEngine.process_query]

    [json.loads] and the Groq call are the library's and the service's: they
    are parameters. [json_loads] returns the decoded document or raises
    ([JSONDecodeError] on text that is not JSON); [call_llm] returns the
    reply's content, [None] when the API call raised (the method catches
    every exception and returns [None]). *)

Section Pipeline.

Variable json_loads : string -> res json.
Variable call_llm : string -> option string.

(** src/corep_engine.py, lines 140-152 (identical in src/main.py, lines
    115-128). A [JSONDecodeError] makes the method return [None], which is
    the JSON [null]. *)
Definition parse_llm_response (response_text : string) : res json :=
  let loaded := match re_search_braces response_text with
                | Some json_str => json_loads json_str
                | None => json_loads response_text
                end in
  match loaded with
  | Exc (PyExc cls m) => if String.eqb cls "JSONDecodeError" then Ok JNull else Exc (PyExc cls m)
  | Ok j => Ok j
  end.

Definition llm_failed : json := JObj [("error", JStr "LLM call failed")].
Definition parse_failed : json := JObj [("error", JStr "Failed to parse response")].

(** src/corep_engine.py, lines 37-65; [timestamp] is [datetime.now().isoformat()]. *)
Definition process_query (rules : string) (schema : json) (timestamp user_input : string)
  : res json :=
  prompt <-? generate_prompt rules schema user_input ;;
  match call_llm prompt with
  | None => Ok llm_failed
  | Some llm_response =>
      if String.eqb llm_response EmptyString then Ok llm_failed
      else
        llm_data <-? parse_llm_response llm_response ;;
        if negb (truthy llm_data) then Ok parse_failed
        else
          match COREPEngine.validate_response llm_data with
          | Raised e => Exc e
          | Returned v =>
              Ok (JObj [("success", JBool true); ("template_data", llm_data);
                        ("validation", verdict_json v); ("timestamp", JStr timestamp);
                        ("user_query", JStr user_input)])
          end
  end.

End Pipeline.

(** *** The Streamlit page: [process_report] and the Generate button (src/app.py)

    The session state keeps whether the engine exists, the last result and the
    query history. The progress bar and status text are not modelled; the
    messages shown with [st.error], [st.warning] and [st.success] are. *)

(** The status column: the check-mark emoji (U+2705) or the warning sign (U+26A0 U+FE0F). *)
Inductive status_mark : Type :=
| StatusValid
| StatusFlagged.

Record history_entry : Type := mk_entry {
  h_timestamp : string;
  h_query : string;
  h_status : status_mark
}.

Record session : Type := mk_session {
  s_engine : bool;
  s_results : json;
  s_history : list history_entry
}.

Inductive notice : Type :=
| NError (m : string)
| NWarning (m : string)
| NSuccess (m : string).

Definition set_engine (b : bool) (st : session) : session :=
  mk_session b (s_results st) (s_history st).
Definition set_results (r : json) (st : session) : session :=
  mk_session (s_engine st) r (s_history st).
Definition add_history (e : history_entry) (st : session) : session :=
  mk_session (s_engine st) (s_results st) (s_history st ++ [e])%list.

(** [user_input[:80] + "..." if len(user_input) > 80 else user_input] *)
Definition history_query (user_input : string) : string :=
  if Nat.ltb 80 (String.length user_input) then substring 0 80 user_input ++ "..."
  else user_input.

(** src/app.py, lines 188-244. [engine_created] is whether [init_engine()]
    returns an engine, [query] is the engine's [process_query] and [now] the
    [%H:%M:%S] time. *)
Definition process_report (engine_created : bool) (query : string -> res json) (now : string)
           (user_input : string) (st : session) : session * list notice :=
  let st1 := if s_engine st then st else set_engine engine_created st in
  if negb (s_engine st1) then
    (st1, [NError "Failed to initialize engine. Check your API key and files."])
  else
    let fail e := (NError ("Error processing request: " ++ exc_str e)) in
    match query user_input with
    | Exc e => (st1, [fail e])
    | Ok result =>
        match dict_get result "error" JNull with
        | Exc e => (st1, [fail e])
        | Ok err =>
            if truthy err then
              match py_getitem result "error" with
              | Ok ev => (st1, [NError ("Error: " ++ py_str ev)])
              | Exc e => (st1, [fail e])
              end
            else
              let st2 := set_results result st1 in
              match (validation <-? py_getitem result "validation" ;;
                     py_getitem validation "is_valid") with
              | Exc e => (st2, [fail e])
              | Ok ok =>
                  (add_history (mk_entry now (history_query user_input)
                                         (if truthy ok then StatusValid else StatusFlagged)) st2,
                   [NSuccess "Report generated successfully!"])
              end
        end
    end.

(** The Generate button of [show_report_generator] (src/app.py, lines 178-182). *)
Definition generate_button (engine_created : bool) (query : string -> res json) (now : string)
           (user_input : string) (st : session) : session * list notice :=
  if negb (Nat.eqb (length (strip (list_ascii_of_string user_input))) 0)
  then process_report engine_created query now user_input st
  else (st, [NWarning "Please enter a scenario first."]).

(** *** The template tables *)

Definition pound : string := chr 163.

Definition display_codes : list string := ["010"; "020"; "030"; "040"; "070"; "100"].

(** A row of the table of [display_template] (src/app.py). *)
Record table_row : Type := mk_row {
  row_code : string;
  row_description : json;
  row_amount : json;
  row_type : string
}.

(** The [try]/bare [except] of src/app.py, lines 304-311: the formatted
    amount, or the raw value when anything raises. *)
Definition template_amount (field_info value : json) : json :=
  match (val_int <-? (if truthy value then py_int value else Ok 0) ;;
         ded <-? dict_get field_info "is_deduction" (JBool false) ;;
         if truthy ded
         then a <-? py_format_grouped (Z.abs val_int) ;; Ok (pound ++ "(" ++ a ++ ")")
         else a <-? py_format_grouped val_int ;; Ok (pound ++ a)) with
  | Ok formatted => JStr formatted
  | Exc _ => value
  end.

(** src/app.py, lines 299-318. *)
Definition template_row (code : string) (field_info : json) : res table_row :=
  value <-? dict_get field_info "value" (JStr "0") ;;
  desc <-? dict_get field_info "description" (JStr EmptyString) ;;
  let formatted := template_amount field_info value in
  ded <-? dict_get field_info "is_deduction" (JBool false) ;;
  Ok (mk_row code desc formatted (if truthy ded then "Deduction" else "Component")).

Fixpoint template_rows (data : json) (codes : list string) : res (list table_row) :=
  match codes with
  | [] => Ok []
  | code :: r =>
      present <-? py_contains code data ;;
      if present then
        field_info <-? py_getitem data code ;;
        row <-? template_row code field_info ;;
        rows <-? template_rows data r ;;
        Ok (row :: rows)
      else template_rows data r
  end.

(** [display_template] (src/app.py, lines 287-341): the rows of the table (an
    empty table shows the warning ["No template data available."]) and the
    formulas shown under "View Calculations". *)
Definition display_template (template_data : json) : res (list table_row * list json) :=
  data <-? dict_get template_data "data" (JObj []) ;;
  rows <-? template_rows data display_codes ;;
  has_calc <-? py_contains "calculations" template_data ;;
  if has_calc then
    calcs <-? py_getitem template_data "calculations" ;;
    items <-? dict_items calcs ;;
    Ok (rows, map snd items)
  else Ok (rows, []).

Definition display_order : list (string * string) :=
  [("010", "Ordinary share capital");
   ("020", "Share premium account");
   ("030", "Retained earnings");
   ("040", "Other comprehensive income");
   ("070", "(-) Intangible assets");
   ("100", "TOTAL CET1 CAPITAL")].

(** One printed row of [COREPAssistant.display_corep_template] (src/main.py,
    lines 215-230): only a [ValueError] is caught. *)
Definition corep_row_line (code description : string) (field_info : json) : res string :=
  value_str <-? dict_get field_info "value" (JStr "0") ;;
  match (value <-? (if truthy value_str then py_int value_str else Ok 0) ;;
         ded <-? dict_get field_info "is_deduction" (JBool false) ;;
         if truthy ded
         then a <-? py_format_grouped (Z.abs value) ;; Ok ("(" ++ a ++ ")")
         else py_format_grouped value) with
  | Ok formatted =>
      Ok (ljust code 6 ++ " " ++ ljust description 35 ++ " " ++ rjust formatted 20)
  | Exc (PyExc cls m) =>
      if String.eqb cls "ValueError"
      then Ok (ljust code 6 ++ " " ++ ljust description 35 ++ " " ++ rjust (py_str value_str) 20)
      else Exc (PyExc cls m)
  end.

(** The table rows printed by [display_corep_template] (src/main.py, lines
    201-230); the fixed banner lines and the calculations after the table are
    not modelled. *)
Definition display_corep_rows (llm_data : json) : res (list string) :=
  data <-? dict_get llm_data "data" (JObj []) ;;
  (fix go (order : list (string * string)) : res (list string) :=
     match order with
     | [] => Ok []
     | (code, description) :: r =>
         present <-? py_contains code data ;;
         if present then
           field_info <-? py_getitem data code ;;
           line <-? corep_row_line code description field_info ;;
           lines <-? go r ;;
           Ok (line :: lines)
         else go r
     end) display_order.

(** *** [COREPAssistant.save_report] (src/main.py, lines 294-319)

    The report written to the file; [generated_at] is
    [datetime.now().isoformat()]. *)
Definition save_report_contents (generated_at : string) (llm_data validation_results : json)
  : res json :=
  template <-? dict_get llm_data "template" (JStr "C 01.00") ;;
  data <-? dict_get llm_data "data" (JObj []) ;;
  fields_populated <-? py_len data ;;
  errs <-? py_getitem validation_results "errors" ;;
  n_errors <-? py_len errs ;;
  warns <-? py_getitem validation_results "warnings" ;;
  n_warnings <-? py_len warns ;;
  Ok (JObj [("metadata", JObj [("generated_at", JStr generated_at); ("template", template);
                               ("assistant_version", JStr "1.0")]);
            ("report_data", llm_data);
            ("validation_results", validation_results);
            ("summary", JObj [("fields_populated", JInt fields_populated);
                              ("has_errors", JBool (0 <? n_errors));
                              ("has_warnings", JBool (0 <? n_warnings))])]).

(** *** [show_rules] (src/app.py, lines 496-533)

    The sections shown as expanders, each a title and its markdown, read from
    the text of rules.txt. *)

Definition rules_state : Type := (string * list string * list (string * string))%type.

Definition flush_section (cur : string) (content : list string)
           (shown : list (string * string)) : list (string * string) :=
  if (negb (String.eqb cur EmptyString) && negb (Nat.eqb (length content) 0))%bool
  then (shown ++ [(cur, join_lines content)])%list
  else shown.

Definition rules_step (st : rules_state) (line : string) : rules_state :=
  let '(cur, content, shown) := st in
  if String.prefix "## " line then
    (str_strip (substring 3 (String.length line - 3) line), [], flush_section cur content shown)
  else if String.prefix "### " line then
    if negb (Nat.eqb (length content) 0)
    then (cur, (content ++ [("**" ++ substring 4 (String.length line - 4) line ++ "**")%string])%list, shown)
    else (cur, content, shown)
  else (cur, (content ++ [line])%list, shown).

Definition rules_sections (rules_content : string) : list (string * string) :=
  let '(cur, content, shown) :=
    fold_left rules_step (split_on newline rules_content) (EmptyString, [], []) in
  flush_section cur content shown.

(** The text of a rules file as [show_rules] reads it: a section is a
    ["## "] heading line followed by its body lines. *)
Definition section_lines (sec : string * list string) : list string :=
  ("## " ++ fst sec) :: snd sec.

(** A body line: one line, neither a ["## "] nor a ["### "] heading. *)
Definition body_line (l : string) : bool :=
  (negb (has_char newline l) && negb (String.prefix "## " l)
   && negb (String.prefix "### " l))%bool.

(** The last [if current_section and section_content] of [show_rules]. *)
Definition final_flush (st : rules_state) : list (string * string) :=
  let '(cur, content, shown) := st in flush_section cur content shown.

(** A line of a section's body: a body line [inl l], or a ["### "]
    subheading [inr h] with its text [h]. *)
Definition line_text (x : string + string) : string :=
  match x with inl l => l | inr h => "### " ++ h end.

(** The markdown line [show_rules] appends for it (src/app.py, lines
    519-524). *)
Definition md_line (x : string + string) : string :=
  match x with inl l => l | inr h => "**" ++ h ++ "**" end.

(** The section's body without the subheadings that come before its first
    body line. *)
Fixpoint drop_subheadings (xs : list (string + string)) : list (string + string) :=
  match xs with
  | inr _ :: r => drop_subheadings r
  | _ => xs
  end.

(** One line, and a body line when it is not a subheading. *)
Definition item_ok (x : string + string) : bool :=
  match x with inl l => body_line l | inr h => negb (has_char newline h) end.

(** The [TypeError] of [int(v)] on a list, a mapping or [None]. *)
Definition int_type_error (v : json) : py_exc :=
  PyExc "TypeError"
    ("int() argument must be a string, a bytes-like object or a real number, not "
     ++ squote ++ type_name v ++ squote).

(** *** The validation notes and the audit trail written by the model *)

(** [for x in o] over a JSON value: the elements of a list, the keys of a
    mapping, the characters of a string. *)
Definition py_iter (j : json) : res (list json) :=
  match j with
  | JArr l => Ok l
  | JObj kvs => Ok (map (fun kv => JStr (fst kv)) kvs)
  | JStr s => Ok (map (fun c => JStr (String c EmptyString)) (list_ascii_of_string s))
  | _ => Exc (PyExc "TypeError" (squote ++ type_name j ++ squote ++ " object is not iterable"))
  end.

(** A loop that raises at the first element that raises. *)
Fixpoint res_map {A B} (f : A -> res B) (l : list A) : res (list B) :=
  match l with
  | [] => Ok []
  | x :: r =>
      y <-? f x ;;
      ys <-? res_map f r ;;
      Ok (y :: ys)
  end.

(** The note lines printed by [COREPAssistant.display_validation_results]
    (src/main.py, lines 283-289). *)
Definition cli_note_line (note : json) : res string :=
  note_type <-? dict_get note "type" (JStr "INFO") ;;
  message <-? dict_get note "message" (JStr EmptyString) ;;
  Ok ("  [" ++ py_str note_type ++ "] " ++ py_str message).

Definition cli_note_lines (llm_data : json) : res (list string) :=
  validation_notes <-? dict_get llm_data "validation_notes" (JArr []) ;;
  if truthy validation_notes then
    notes <-? py_iter validation_notes ;;
    res_map cli_note_line notes
  else Ok [].

(** The [st.info] texts of the notes in [display_validation] (src/app.py,
    lines 370-380). *)
Definition app_note_info (note : json) : res string :=
  if is_mapping note then
    note_type <-? dict_get note "type" (JStr "INFO") ;;
    message <-? dict_get note "message" (JStr EmptyString) ;;
    Ok ("[" ++ py_str note_type ++ "] " ++ py_str message)
  else Ok (py_str note).

Definition app_note_infos (template_data : json) : res (list string) :=
  validation_notes <-? dict_get template_data "validation_notes" (JArr []) ;;
  if truthy validation_notes then
    notes <-? py_iter validation_notes ;;
    res_map app_note_info notes
  else Ok [].

(** [COREPAssistant.display_audit_trail] (src/main.py, lines 240-260): [None]
    for the "No audit trail provided" branch, otherwise the lines printed for
    the entries (the banner before them is not modelled). *)
Definition cli_audit_entry (entry : json) : res (list string) :=
  field <-? dict_get entry "field" (JStr "N/A") ;;
  rule <-? dict_get entry "rule" (JStr "N/A") ;;
  justification <-? dict_get entry "justification" (JStr EmptyString) ;;
  Ok [String newline ("Field " ++ py_str field ++ ":"); "  Rule: " ++ py_str rule;
      "  Basis: " ++ py_str justification].

Definition cli_audit_lines (llm_data : json) : res (option (list string)) :=
  audit_trail <-? dict_get llm_data "audit_trail" (JArr []) ;;
  if negb (truthy audit_trail) then Ok None
  else
    entries <-? py_iter audit_trail ;;
    lines <-? res_map cli_audit_entry entries ;;
    Ok (Some (List.concat lines)).

(** The Audit tab of [display_results] (src/app.py, lines 265-269) with
    [display_audit] (lines 382-403): [None] for "No audit trail available.",
    otherwise one expander per entry, its title and its texts. *)
Definition app_audit_entry (entry : json) : res (string * list string) :=
  if is_mapping entry then
    field <-? dict_get entry "field" (JStr "N/A") ;;
    rule <-? dict_get entry "rule" (JStr "No rule") ;;
    justification <-? dict_get entry "justification" (JStr "No justification") ;;
    Ok ("Field " ++ py_str field,
        ["**Rule:** `" ++ py_str rule ++ "`"; "**Justification:** " ++ py_str justification])
  else Ok ("Audit Entry", [py_str entry]).

Definition app_audit (template_data : json) : res (option (list (string * list string))) :=
  has_trail <-? py_contains "audit_trail" template_data ;;
  if has_trail then
    audit_trail <-? py_getitem template_data "audit_trail" ;;
    if negb (truthy audit_trail) then Ok None
    else
      entries <-? py_iter audit_trail ;;
      sections <-? res_map app_audit_entry entries ;;
      Ok (Some sections)
  else Ok None.

(** ** General lemmas *)

Ltac sample_fields :=
  let Hin := fresh "Hin" in
  intros ? Hin; simpl in Hin;
  repeat (destruct Hin as [<-|Hin]; [eexists; eexists; split; reflexivity|]);
  destruct Hin.


Lemma for_each_appends {A} (l : list A) (body : A -> M unit)
      (fe fw : A -> list string) :
  (forall x s, In x l -> body x s = (Ok tt, (fst s ++ fe x, snd s ++ fw x)%list)) ->
  forall s, for_each l body s = (Ok tt, (fst s ++ flat_map fe l, snd s ++ flat_map fw l)%list).
Proof.
  induction l as [|x r IH]; intros Hb s; simpl.
  - unfold ret. destruct s; simpl. rewrite !app_nil_r. reflexivity.
  - unfold bind. rewrite Hb by (left; reflexivity).
    rewrite IH by (intros; apply Hb; right; assumption). simpl.
    rewrite !app_assoc. reflexivity.
Qed.

Lemma assoc_field_ok kvs k v :
  forallb (fun kv => field_ok (snd kv)) kvs = true -> assoc k kvs = Some v -> field_ok v = true.
Proof.
  induction kvs as [|[k' v'] r IH]; simpl; intros Hall Ha; [discriminate|].
  apply andb_true_iff in Hall as [H1 H2].
  destruct (String.eqb k k'); [injection Ha as <-; exact H1 | auto].
Qed.

Section Passes.

Variable llm_data : json.
Variable kvs : list (string * json).
Hypothesis Hpop : populated llm_data kvs.

Lemma check_required_run c s :
  COREPEngine.check_required llm_data c s
  = (Ok tt, (fst s ++ pass1_errors kvs c, snd s ++ pass1_warnings kvs c)%list).
Proof.
  destruct Hpop as (top & -> & Hd & Hall).
  destruct s as [es ws].
  unfold COREPEngine.check_required, bind, lift; simpl. rewrite Hd. simpl.
  unfold pass1_errors, pass1_warnings, has_key.
  destruct (assoc c kvs) as [f|] eqn:Hc; simpl.
  - pose proof (assoc_field_ok _ _ _ Hall Hc) as Hf.
    destruct f; try discriminate. simpl. unfold get_value.
    destruct (truthy _); unfold ret, append_warning; simpl; rewrite ?app_nil_r; reflexivity.
  - unfold append_error. simpl. rewrite app_nil_r. reflexivity.
Qed.

Lemma pass1_run s :
  for_each required_fields (COREPEngine.check_required llm_data) s
  = (Ok tt, (fst s ++ flat_map (pass1_errors kvs) required_fields,
             snd s ++ flat_map (pass1_warnings kvs) required_fields)%list).
Proof.
  apply for_each_appends. intros. apply check_required_run.
Qed.

Lemma check_type_run kv s :
  In kv kvs ->
  COREPEngine.check_type kv s = (Ok tt, (fst s ++ [], snd s ++ pass2_warnings kv)%list).
Proof.
  destruct Hpop as (top & _ & _ & Hall). intros Hin.
  assert (Hf : field_ok (snd kv) = true)
    by (rewrite forallb_forall in Hall; apply Hall; exact Hin).
  destruct s as [es ws]. destruct kv as [c f].
  unfold COREPEngine.check_type, pass2_warnings, bind, lift; simpl.
  destruct f; try discriminate. simpl. unfold get_value.
  destruct (_ && _)%bool; unfold ret, append_warning; simpl; rewrite ?app_nil_r; reflexivity.
Qed.

Lemma pass2_run s :
  for_each kvs COREPEngine.check_type s
  = (Ok tt, (fst s ++ flat_map (fun _ => []) kvs, snd s ++ flat_map pass2_warnings kvs)%list).
Proof.
  apply for_each_appends. intros. apply check_type_run. assumption.
Qed.

End Passes.

Lemma sum_values_state data codes acc s :
  COREPEngine.sum_values data codes acc s
  = (fst (COREPEngine.sum_values data codes acc ([], [])), s).
Proof.
  revert acc. induction codes as [|code r IH]; intros acc; simpl; [reflexivity|].
  unfold bind, lift.
  destruct (py_contains code data) as [[|]|e]; [|apply IH|reflexivity].
  destruct (py_getitem data code) as [f|e]; [|reflexivity].
  destruct (dict_get f "value" (JStr "0")) as [v|e]; [|reflexivity].
  destruct (truthy v); [|apply IH].
  destruct (py_int v) as [n|e]; [apply IH|reflexivity].
Qed.

Lemma check_calculation_run llm_data kvs s :
  populated llm_data kvs ->
  COREPEngine.check_calculation llm_data s
  = match calc_res kvs with
    | (es, None) => (Ok tt, (fst s ++ es, snd s)%list)
    | (es, Some e) => (Exc e, (fst s ++ es, snd s)%list)
    end.
Proof.
  intros (top & -> & Hd & _). destruct s as [es0 ws0].
  unfold COREPEngine.check_calculation, bind at 1, lift at 1. cbn [dict_get]. rewrite Hd.
  unfold bind at 1. rewrite sum_values_state.
  unfold calc_res, sum_res.
  destruct (fst (COREPEngine.sum_values (JObj kvs) component_codes 0 ([], []))) as [comp|e];
    [|cbn; rewrite app_nil_r; reflexivity].
  unfold bind at 1. rewrite sum_values_state.
  destruct (fst (COREPEngine.sum_values (JObj kvs) deduction_codes 0 ([], []))) as [ded|e];
    [|cbn; rewrite app_nil_r; reflexivity].
  unfold reported_res. cbn [dict_get].
  destruct (match assoc "100" kvs with Some f => f | None => JObj [] end) as [| | | | |fs];
    cbn [dict_get bind lift]; try (cbn; rewrite app_nil_r; reflexivity).
  assert (Hneg : forall r e0, (if r <? 0
                               then m <- lift (format_negative r) ;; append_error m
                               else ret tt) (e0, ws0)
                              = match negative_check r with
                                | (es, None) => (Ok tt, (e0 ++ es, ws0)%list)
                                | (es, Some e) => (Exc e, (e0 ++ es, ws0)%list)
                                end).
  { intros r e0. unfold negative_check. destruct (r <? 0);
      [destruct (format_negative r)|]; cbn; rewrite ?app_nil_r; reflexivity. }
  destruct (truthy _); [destruct (py_int _) as [r|e]|]; cbn [bind lift ret];
    try (cbn; rewrite app_nil_r; reflexivity);
    unfold checks_of; destruct (_ =? _); cbn [negb];
    try (unfold bind at 1, ret at 1; apply Hneg);
    unfold bind at 1 2, lift at 1; destruct (format_mismatch _ _) as [m|e];
    try (cbn; rewrite app_nil_r; reflexivity);
    unfold append_error at 1; cbn [fst snd]; rewrite Hneg;
    destruct (negative_check _) as [es [e|]]; cbn; rewrite <- app_assoc; reflexivity.
Qed.

Lemma py_int_scalar v :
  scalar v = true -> truthy v = true -> value_error_only (py_int v).
Proof.
  destruct v as [| | |s| |]; simpl; try discriminate; intros _ _; try exact I.
  destruct (py_int_parse s); simpl; [exact I|reflexivity].
Qed.

Lemma field_value_scalar fs dflt :
  field_ok (JObj fs) = true -> scalar dflt = true -> scalar (get_value fs dflt) = true.
Proof.
  simpl. unfold get_value. destruct (assoc "value" fs); auto.
Qed.

Lemma sum_values_value_error kvs codes acc :
  forallb (fun kv => field_ok (snd kv)) kvs = true ->
  value_error_only (fst (COREPEngine.sum_values (JObj kvs) codes acc ([], []))).
Proof.
  intros Hall. revert acc. induction codes as [|code r IH]; intros acc; simpl; [exact I|].
  unfold bind, lift. cbn [py_contains py_getitem].
  destruct (assoc code kvs) as [f|] eqn:Hc; [|apply IH].
  pose proof (assoc_field_ok _ _ _ Hall Hc) as Hf.
  destruct f as [| | | | |fs]; try discriminate. cbn [dict_get].
  change (match assoc "value" fs with Some v => v | None => JStr "0" end)
    with (get_value fs (JStr "0")).
  destruct (truthy _) eqn:Ht; [|apply IH].
  pose proof (py_int_scalar (get_value fs (JStr "0")) (field_value_scalar fs (JStr "0") Hf eq_refl) Ht)
    as Hv.
  destruct (py_int _) as [n|e]; [apply IH|exact Hv].
Qed.

(** The exception that leaves the [try] block, if any. *)
Definition value_error_opt (e : option py_exc) : Prop :=
  match e with
  | Some (PyExc cls _) => cls = "ValueError"
  | None => True
  end.

Lemma format_value_error z : value_error_only (py_format_grouped z).
Proof. unfold py_format_grouped. destruct (within_str_limit z); reflexivity. Qed.

Lemma checks_of_value_error a r : value_error_opt (snd (checks_of a r)).
Proof.
  assert (Hn : value_error_opt (snd (negative_check r))).
  { unfold negative_check, format_negative. destruct (r <? 0); [|exact I].
    pose proof (format_value_error r) as H.
    destruct (py_format_grouped r) as [x|[cls m]]; [exact I|exact H]. }
  unfold checks_of. destruct (a =? r); [exact Hn|].
  unfold format_mismatch.
  pose proof (format_value_error a) as Ha. pose proof (format_value_error r) as Hr.
  destruct (py_format_grouped a) as [x|[cls m]]; [|exact Ha].
  destruct (py_format_grouped r) as [y|[cls m]]; [|exact Hr].
  cbn [res_bind]. destruct (negative_check r) as [es e]. exact Hn.
Qed.

Lemma calc_res_value_error kvs :
  forallb (fun kv => field_ok (snd kv)) kvs = true -> value_error_opt (snd (calc_res kvs)).
Proof.
  intros Hall. unfold calc_res, sum_res.
  pose proof (sum_values_value_error kvs component_codes 0 Hall) as H1.
  destruct (fst (COREPEngine.sum_values (JObj kvs) component_codes 0 ([], [])))
    as [|[]]; [|exact H1].
  pose proof (sum_values_value_error kvs deduction_codes 0 Hall) as H2.
  destruct (fst (COREPEngine.sum_values (JObj kvs) deduction_codes 0 ([], [])))
    as [|[]]; [|exact H2].
  assert (H3 : value_error_only (reported_res kvs)).
  { unfold reported_res.
    destruct (assoc "100" kvs) as [f|] eqn:Hc; cbn [dict_get]; [|exact I].
    pose proof (assoc_field_ok _ _ _ Hall Hc) as Hf.
    destruct f as [| | | | |fs]; try discriminate. cbn [dict_get].
    change (match assoc "value" fs with Some v => v | None => JStr "0" end)
      with (get_value fs (JStr "0")).
    destruct (truthy _) eqn:Ht; [|exact I].
    exact (py_int_scalar (get_value fs (JStr "0")) (field_value_scalar fs (JStr "0") Hf eq_refl) Ht). }
  destruct (reported_res kvs) as [r|[]]; [apply checks_of_value_error|exact H3].
Qed.

(** On a populated template the validator always returns, and each pass
    contributes what the functions above read off the template. *)
Lemma validate_populated llm_data kvs :
  populated llm_data kvs ->
  COREPEngine.validate_response llm_data
  = Returned (mk_verdict
                (flat_map (pass1_errors kvs) required_fields ++ pass3_errors kvs)
                (flat_map (pass1_warnings kvs) required_fields
                 ++ flat_map pass2_warnings kvs ++ pass3_warnings kvs)
                (Nat.eqb (length (flat_map (pass1_errors kvs) required_fields
                                  ++ pass3_errors kvs)) 0))%list.
Proof.
  intros Hp. pose proof Hp as (top & Heq & Hd & Hall).
  unfold COREPEngine.validate_response, COREPEngine.validate_body.
  unfold bind at 1. rewrite (pass1_run _ _ Hp). cbn [fst snd].
  subst llm_data. cbn [bind lift dict_get]. rewrite Hd. cbn [dict_items].
  unfold bind at 1. rewrite (pass2_run _ _ Hp). cbn [fst snd].
  unfold try_value_error. rewrite (check_calculation_run _ _ _ Hp).
  pose proof (calc_res_value_error kvs Hall) as Hv.
  unfold pass3_errors, pass3_warnings.
  assert (Hnil : forall A (l : list A), flat_map (fun _ => @nil string) l = []).
  { intros A l. induction l; simpl; auto. }
  rewrite Hnil, app_nil_r.
  destruct (calc_res kvs) as [es [[cls m]|]]; cbn [fst snd] in *.
  - rewrite Hv. cbn. unfold append_warning. cbn [fst snd].
    rewrite ?app_nil_r, <- ?app_assoc. reflexivity.
  - rewrite app_nil_r. reflexivity.
Qed.

(** ** Pass 3 on string-valued fields *)

Lemma parse_nonempty s z : py_int_parse s = Some z -> truthy (JStr s) = true.
Proof.
  destruct s; [discriminate|reflexivity].
Qed.

Lemma value_of_some kvs c v :
  value_of kvs c = Some v -> exists fs, assoc c kvs = Some (JObj fs) /\ assoc "value" fs = Some v.
Proof.
  unfold value_of. destruct (assoc c kvs) as [[| | | | |fs]|]; try discriminate.
  intros H. exists fs. auto.
Qed.

Lemma int_value_parsed kvs c s z :
  value_of kvs c = Some (JStr s) -> py_int_parse s = Some z -> int_value kvs c = z.
Proof.
  unfold int_value. intros -> Hp. rewrite (parse_nonempty _ _ Hp). cbn [py_int]. rewrite Hp.
  reflexivity.
Qed.

Lemma value_of_scalar kvs c v :
  forallb (fun kv => field_ok (snd kv)) kvs = true -> value_of kvs c = Some v -> scalar v = true.
Proof.
  intros Hall Hv. destruct (value_of_some _ _ _ Hv) as (fs & Ha & Hfs).
  pose proof (assoc_field_ok _ _ _ Hall Ha) as Hf. simpl in Hf. rewrite Hfs in Hf. exact Hf.
Qed.

(** On a populated template, the only values [int()] rejects are non-empty
    strings it cannot parse. *)
Lemma rejected_spec kvs c :
  forallb (fun kv => field_ok (snd kv)) kvs = true ->
  rejected kvs c = true
  <-> exists s, value_of kvs c = Some (JStr s) /\ s <> EmptyString /\ py_int_parse s = None.
Proof.
  intros Hall. unfold rejected. split.
  - destruct (value_of kvs c) as [v|] eqn:Hv; [|discriminate].
    pose proof (value_of_scalar _ _ _ Hall Hv) as Hsc.
    destruct v as [|b|z|s|l|o]; try discriminate; cbn [truthy py_int is_exc andb].
    + destruct b; discriminate.
    + destruct (z =? 0); discriminate.
    + intros H. apply andb_true_iff in H as [Ht Hp]. exists s. split; [reflexivity|split].
      * intros ->. discriminate Ht.
      * destruct (py_int_parse s); [discriminate|reflexivity].
  - intros (s & -> & Hne & Hp). cbn [py_int]. rewrite Hp.
    destruct s; [contradiction|reflexivity].
Qed.

Lemma parsed_not_rejected kvs c s z :
  value_of kvs c = Some (JStr s) -> py_int_parse s = Some z -> rejected kvs c = false.
Proof.
  unfold rejected. intros -> Hp. cbn [py_int]. rewrite Hp. apply andb_false_r.
Qed.

(** One step of the loop on a field [int()] does not reject. *)
Lemma sum_values_cons_ok kvs code r acc :
  forallb (fun kv => field_ok (snd kv)) kvs = true -> rejected kvs code = false ->
  fst (COREPEngine.sum_values (JObj kvs) (code :: r) acc ([], []))
  = fst (COREPEngine.sum_values (JObj kvs) r (acc + int_value kvs code) ([], [])).
Proof.
  intros Hall Hrej. simpl. unfold bind, lift. cbn [py_contains py_getitem].
  unfold rejected, int_value, value_of in *.
  destruct (assoc code kvs) as [f|] eqn:Ha; [|rewrite Z.add_0_r; reflexivity].
  pose proof (assoc_field_ok _ _ _ Hall Ha) as Hf.
  destruct f as [| | | | |fs]; try discriminate. cbn [dict_get].
  destruct (assoc "value" fs) as [v|] eqn:Hv.
  - destruct (truthy v); cbn [andb] in Hrej; [|rewrite Z.add_0_r; reflexivity].
    destruct (py_int v); [reflexivity|discriminate].
  - cbn. replace (py_int_parse "0") with (Some 0) by reflexivity.
    rewrite Z.add_0_r. reflexivity.
Qed.

(** One step of the loop on a field holding a string [int()] rejects. *)
Lemma sum_values_cons_fail kvs code r acc s :
  value_of kvs code = Some (JStr s) -> s <> EmptyString -> py_int_parse s = None ->
  fst (COREPEngine.sum_values (JObj kvs) (code :: r) acc ([], []))
  = Exc (PyExc "ValueError" (int_error_msg s)).
Proof.
  intros Hv Hne Hp. destruct (value_of_some _ _ _ Hv) as (fs & Ha & Hfs).
  simpl. unfold bind, lift. cbn [py_contains py_getitem]. rewrite Ha. cbn [dict_get].
  rewrite Hfs. destruct s as [|a s']; [contradiction|]. cbn [truthy String.eqb negb py_int].
  rewrite Hp. reflexivity.
Qed.

(** When no listed field holds a value [int()] rejects, the loop adds up the
    values of the listed fields. *)
Lemma sum_values_exact kvs codes acc :
  forallb (fun kv => field_ok (snd kv)) kvs = true ->
  (forall c, In c codes -> rejected kvs c = false) ->
  fst (COREPEngine.sum_values (JObj kvs) codes acc ([], []))
  = Ok (acc + fold_right (fun c t => int_value kvs c + t) 0 codes).
Proof.
  intros Hall. revert acc. induction codes as [|code r IH]; intros acc Hc.
  - cbn. f_equal. lia.
  - rewrite (sum_values_cons_ok _ _ _ _ Hall (Hc code (or_introl eq_refl))).
    rewrite IH by (intros; apply Hc; right; assumption). cbn [fold_right]. f_equal. lia.
Qed.

(** The loop raises on the first listed field whose value [int()] rejects. *)
Lemma sum_values_first_fail kvs pre c0 post acc s0 :
  forallb (fun kv => field_ok (snd kv)) kvs = true ->
  (forall c, In c pre -> rejected kvs c = false) ->
  value_of kvs c0 = Some (JStr s0) -> s0 <> EmptyString -> py_int_parse s0 = None ->
  fst (COREPEngine.sum_values (JObj kvs) (pre ++ c0 :: post) acc ([], []))
  = Exc (PyExc "ValueError" (int_error_msg s0)).
Proof.
  intros Hall Hpre Hv Hne Hp. revert acc. induction pre as [|code r IH]; intros acc.
  - apply (sum_values_cons_fail _ _ _ _ _ Hv Hne Hp).
  - cbn [app]. rewrite (sum_values_cons_ok _ _ _ _ Hall (Hpre code (or_introl eq_refl))).
    apply IH. intros; apply Hpre; right; assumption.
Qed.

(** When every listed field holds a string [int()] accepts, the loop adds up
    their values. *)
Lemma sum_values_parsed kvs codes acc :
  (forall c, In c codes -> exists s z, value_of kvs c = Some (JStr s) /\ py_int_parse s = Some z) ->
  fst (COREPEngine.sum_values (JObj kvs) codes acc ([], []))
  = Ok (acc + fold_right (fun c t => int_value kvs c + t) 0 codes).
Proof.
  revert acc. induction codes as [|code r IH]; intros acc Hc; simpl.
  - f_equal. lia.
  - destruct (Hc code (or_introl eq_refl)) as (s & z & Hv & Hp).
    destruct (value_of_some _ _ _ Hv) as (fs & Ha & Hfs).
    unfold bind, lift. cbn [py_contains py_getitem]. rewrite Ha. cbn [dict_get].
    rewrite Hfs. rewrite (parse_nonempty _ _ Hp). cbn [py_int]. rewrite Hp.
    rewrite IH by (intros; apply Hc; right; assumption).
    rewrite (int_value_parsed _ _ _ _ Hv Hp). f_equal. lia.
Qed.

(** ** The digit limit *)

Lemma is_digit_value c : is_digit c = true -> 0 <= digit_value c <= 9.
Proof.
  unfold is_digit, digit_value. intros H. apply andb_true_iff in H as [H1 H2].
  apply Nat.leb_le in H1, H2. lia.
Qed.

Lemma pow10_succ n : 10 ^ Z.of_nat (S n) = 10 * 10 ^ Z.of_nat n.
Proof. rewrite Nat2Z.inj_succ, Z.pow_succ_r by lia. reflexivity. Qed.

Lemma digits_tail_bound l acc n v m :
  0 <= acc < 10 ^ Z.of_nat n -> digits_tail l acc n = Some (v, m) -> 0 <= v < 10 ^ Z.of_nat m.
Proof.
  assert (Hgen : forall k l acc n, (length l <= k)%nat -> 0 <= acc < 10 ^ Z.of_nat n ->
                 digits_tail l acc n = Some (v, m) -> 0 <= v < 10 ^ Z.of_nat m).
  { induction k as [|k IH]; intros l' acc' n' Hle Hacc H.
    - destruct l'; [injection H as <- <-; exact Hacc|simpl in Hle; lia].
    - destruct l' as [|c r]; cbn [digits_tail] in H; [injection H as <- <-; exact Hacc|].
      simpl in Hle.
      assert (Hstep : forall d, is_digit d = true ->
                      0 <= 10 * acc' + digit_value d < 10 ^ Z.of_nat (S n')).
      { intros d Hd. pose proof (is_digit_value d Hd). rewrite pow10_succ. lia. }
      destruct (is_digit c) eqn:Hc; [exact (IH r _ _ ltac:(lia) (Hstep c Hc) H)|].
      destruct (Ascii.eqb c "_"%char); [|discriminate].
      destruct r as [|c' r']; [discriminate|].
      destruct (is_digit c') eqn:Hc'; [|discriminate].
      simpl in Hle. exact (IH r' _ _ ltac:(lia) (Hstep c' Hc') H). }
  apply (Hgen (length l) l acc n (le_n _)).
Qed.

Lemma unsigned_bound l v m : unsigned l = Some (v, m) -> 0 <= v < 10 ^ Z.of_nat m.
Proof.
  unfold unsigned. destruct l as [|c r]; [discriminate|].
  destruct (is_digit c) eqn:Hc; [|discriminate].
  apply digits_tail_bound. pose proof (is_digit_value c Hc). cbn. lia.
Qed.

Lemma int_literal_value_bound s z m :
  int_literal_value s = Some (z, m) -> Z.abs z < 10 ^ Z.of_nat m.
Proof.
  unfold int_literal_value. destruct (int_strip (list_ascii_of_string s)) as [|c r]; [discriminate|].
  destruct (Ascii.eqb c "+"%char); [intros H; apply unsigned_bound in H; lia|].
  destruct (Ascii.eqb c "-"%char); [|intros H; apply unsigned_bound in H; lia].
  destruct (unsigned r) as [[v k]|] eqn:Hu; [|discriminate]. cbn. intros H.
  injection H as <- <-. apply unsigned_bound in Hu. lia.
Qed.

(** A value [int()] returns from a string has at most 4300 digits, so
    [format(value, ",")] does not raise. *)
Lemma parse_within_limit s z : py_int_parse s = Some z -> within_str_limit z = true.
Proof.
  unfold py_int_parse, within_str_limit. destruct (int_literal_value s) as [[v m]|] eqn:E;
    [|discriminate].
  destruct (Nat.leb m int_max_str_digits) eqn:Hm; [|discriminate]. intros H. injection H as <-.
  apply Nat.leb_le in Hm. apply int_literal_value_bound in E. apply Z.ltb_lt.
  apply (Z.lt_le_trans _ _ _ E). apply Z.pow_le_mono_r; lia.
Qed.

Lemma format_within z : within_str_limit z = true -> py_format_grouped z = Ok (fmt_grouped z).
Proof. unfold py_format_grouped. intros ->. reflexivity. Qed.

Lemma within_abs z : within_str_limit (Z.abs z) = within_str_limit z.
Proof. unfold within_str_limit. rewrite Z.abs_idemp. reflexivity. Qed.

Lemma format_over z :
  within_str_limit z = false -> py_format_grouped z = Exc (PyExc "ValueError" str_limit_msg).
Proof. unfold py_format_grouped. intros ->. reflexivity. Qed.

Lemma negative_check_within r :
  within_str_limit r = true ->
  negative_check r = (if r <? 0 then [negative_msg r] else [], None).
Proof.
  intros H. unfold negative_check, format_negative. rewrite (format_within _ H).
  destruct (r <? 0); reflexivity.
Qed.

(** Passes 3 and 4 when both numbers can be formatted. *)
Lemma checks_of_within a r :
  within_str_limit a = true -> within_str_limit r = true ->
  checks_of a r = ((if a =? r then [] else [mismatch_msg a r])
                   ++ (if r <? 0 then [negative_msg r] else []), None)%list.
Proof.
  intros Ha Hr. unfold checks_of. rewrite (negative_check_within _ Hr).
  destruct (a =? r); [reflexivity|].
  unfold format_mismatch. rewrite (format_within _ Ha), (format_within _ Hr). reflexivity.
Qed.

(** A mismatch whose calculated total has more than 4300 digits raises
    while its message is formatted. *)
Lemma checks_of_over a r :
  a <> r -> within_str_limit a = false ->
  checks_of a r = ([], Some (PyExc "ValueError" str_limit_msg)).
Proof.
  intros Hne Ha. unfold checks_of. apply Z.eqb_neq in Hne. rewrite Hne.
  unfold format_mismatch. rewrite (format_over _ Ha). reflexivity.
Qed.

Lemma value_of_has_key kvs c v : value_of kvs c = Some v -> has_key c kvs = true.
Proof.
  intros H. destruct (value_of_some _ _ _ H) as (fs & Ha & _). unfold has_key. rewrite Ha. reflexivity.
Qed.

Lemma reported_res_parsed kvs s r :
  value_of kvs "100" = Some (JStr s) -> py_int_parse s = Some r -> reported_res kvs = Ok r.
Proof.
  intros Hv Hp. destruct (value_of_some _ _ _ Hv) as (fs & Ha & Hfs).
  unfold reported_res. rewrite Ha. cbn [dict_get]. rewrite Hfs.
  rewrite (parse_nonempty _ _ Hp). cbn [py_int]. rewrite Hp. reflexivity.
Qed.

Lemma reported_res_ok kvs s r :
  forallb (fun kv => field_ok (snd kv)) kvs = true ->
  value_of kvs "100" = Some (JStr s) -> py_int_parse s = Some r -> reported_res kvs = Ok r.
Proof. intros _. apply reported_res_parsed. Qed.

(** The five summed fields and field 100 all hold strings [int()] accepts. *)
Lemma calc_res_parsed kvs s100 r :
  (forall c, In c (component_codes ++ deduction_codes) ->
             exists s z, value_of kvs c = Some (JStr s) /\ py_int_parse s = Some z) ->
  value_of kvs "100" = Some (JStr s100) -> py_int_parse s100 = Some r ->
  calc_res kvs = checks_of (signed_sum kvs) r.
Proof.
  intros Hc Hv Hp. unfold calc_res, sum_res.
  rewrite (sum_values_parsed kvs component_codes 0)
    by (intros c Hin; apply Hc; apply in_or_app; left; exact Hin).
  rewrite (sum_values_parsed kvs deduction_codes 0)
    by (intros c Hin; apply Hc; apply in_or_app; right; exact Hin).
  rewrite (reported_res_parsed _ _ _ Hv Hp). f_equal.
  unfold signed_sum. simpl. lia.
Qed.

(** No summed field holds a value [int()] rejects, and field 100 gives [r]. *)
Lemma calc_res_exact kvs r :
  forallb (fun kv => field_ok (snd kv)) kvs = true ->
  (forall c, In c (component_codes ++ deduction_codes) -> rejected kvs c = false) ->
  reported_res kvs = Ok r ->
  calc_res kvs = checks_of (signed_sum kvs) r.
Proof.
  intros Hall Hc Hr. unfold calc_res, sum_res.
  rewrite (sum_values_exact kvs component_codes 0 Hall)
    by (intros c Hin; apply Hc; apply in_or_app; left; exact Hin).
  rewrite (sum_values_exact kvs deduction_codes 0 Hall)
    by (intros c Hin; apply Hc; apply in_or_app; right; exact Hin).
  rewrite Hr. f_equal.
  unfold signed_sum. simpl. lia.
Qed.

Lemma pass1_errors_nil kvs :
  (forall c, In c required_fields -> has_key c kvs = true) ->
  flat_map (pass1_errors kvs) required_fields = [].
Proof.
  intros H. unfold required_fields. simpl. unfold pass1_errors.
  rewrite !H by (simpl; tauto). reflexivity.
Qed.

Lemma required_present kvs s100 :
  (forall c, In c (component_codes ++ deduction_codes) ->
             exists s z, value_of kvs c = Some (JStr s) /\ py_int_parse s = Some z) ->
  value_of kvs "100" = Some (JStr s100) ->
  forall c, In c required_fields -> has_key c kvs = true.
Proof.
  intros Hc Hv c Hin.
  assert (Hk : forall c, In c (component_codes ++ deduction_codes) -> has_key c kvs = true)
    by (intros c' H'; destruct (Hc c' H') as (s & z & Hs & _); exact (value_of_has_key _ _ _ Hs)).
  destruct Hin as [<-|[<-|[<-|[<-|[]]]]]; try solve [apply Hk; simpl; auto 10].
  exact (value_of_has_key _ _ _ Hv).
Qed.

(** ** Messages *)

Lemma string_app_inv_head (p a b : string) : (p ++ a = p ++ b)%string -> a = b.
Proof.
  induction p as [|x p IH]; simpl; [auto|]. intros H. injection H. exact IH.
Qed.

Lemma missing_msg_inj c c' : missing_msg c = missing_msg c' -> c = c'.
Proof. apply string_app_inv_head. Qed.

(** Passes 3 and 4 only append messages starting with "CET1 ". *)
Lemma pass3_errors_cet1 kvs m : In m (pass3_errors kvs) -> exists t, m = ("CET1 " ++ t)%string.
Proof.
  unfold pass3_errors, calc_res.
  destruct (sum_res kvs component_codes); [|intros []].
  destruct (sum_res kvs deduction_codes); [|intros []].
  destruct (reported_res kvs); [|intros []].
  unfold checks_of, negative_check, format_mismatch, format_negative.
  destruct (_ =? _), (_ <? 0);
    repeat match goal with |- context [py_format_grouped ?z] => destruct (py_format_grouped z) end;
    cbn; intros H; repeat destruct H as [<-|H]; try (eexists; reflexivity); destruct H.
Qed.

Lemma missing_not_pass3 kvs c : ~ In (missing_msg c) (pass3_errors kvs).
Proof.
  intros H. destruct (pass3_errors_cet1 _ _ H) as [t Ht]. discriminate Ht.
Qed.

Lemma missing_in_pass1 kvs c :
  In (missing_msg c) (flat_map (pass1_errors kvs) required_fields) ->
  In c required_fields /\ has_key c kvs = false.
Proof.
  intros H. apply in_flat_map in H as (c' & Hin & H).
  unfold pass1_errors in H. destruct (has_key c' kvs) eqn:Hk; [destruct H|].
  destruct H as [H|[]]. apply missing_msg_inj in H. subst c'. auto.
Qed.

Lemma empty_msg_inj c c' : empty_msg c = empty_msg c' -> c = c'.
Proof. apply string_app_inv_head. Qed.

(** What each pass appends to the warnings. *)
Lemma pass1_warnings_shape kvs k m : In m (pass1_warnings kvs k) -> m = empty_msg k.
Proof.
  unfold pass1_warnings. destruct (assoc k kvs) as [[| | | | |fs]|]; try intros [].
  destruct (truthy _); [intros []|intros [<-|[]]; reflexivity].
Qed.

Lemma pass2_warnings_shape kv m : In m (pass2_warnings kv) -> exists k v, m = nonnumeric_msg k v.
Proof.
  unfold pass2_warnings. destruct (snd kv) as [| | | | |fs]; try intros [].
  destruct (_ && _)%bool; [intros [<-|[]]; eauto|intros []].
Qed.

Lemma pass3_warnings_shape kvs m : In m (pass3_warnings kvs) -> exists e, m = calc_error_msg e.
Proof.
  unfold pass3_warnings. destruct (snd (calc_res kvs)) as [[cls e]|]; [|intros []].
  intros [<-|[]]. eauto.
Qed.

(** The warnings of a verdict on a populated template name field [c] as
    empty only when pass 1 does. *)
Lemma empty_msg_in_warnings kvs c :
  In (empty_msg c) (flat_map (pass1_warnings kvs) required_fields
                    ++ flat_map pass2_warnings kvs ++ pass3_warnings kvs)%list ->
  In (empty_msg c) (pass1_warnings kvs c).
Proof.
  intros H. apply in_app_or in H as [H|H]; [|apply in_app_or in H as [H|H]].
  - apply in_flat_map in H as (k & _ & Hk).
    pose proof (pass1_warnings_shape _ _ _ Hk) as E. apply empty_msg_inj in E. subst k. exact Hk.
  - apply in_flat_map in H as (kv & _ & Hk).
    destruct (pass2_warnings_shape _ _ Hk) as (k & v & E). discriminate E.
  - destruct (pass3_warnings_shape _ _ H) as (e & E). discriminate E.
Qed.

(** ** Changing one field's value *)

Section OneField.

Variables (pre post rest : list (string * json)) (c : string).

Lemma assoc_with_value k x y :
  assoc k (with_value pre post c rest x) = assoc k (with_value pre post c rest y)
  \/ (k = c /\ assoc k (with_value pre post c rest x) = Some (JObj (("value", x) :: rest))
            /\ assoc k (with_value pre post c rest y) = Some (JObj (("value", y) :: rest))).
Proof.
  unfold with_value. induction pre as [|[k' v'] r IH]; simpl.
  - destruct (String.eqb k c) eqn:E; [right|left; reflexivity].
    apply String.eqb_eq in E. auto.
  - destruct (String.eqb k k'); [left; reflexivity|exact IH].
Qed.

Lemma has_key_with_value k x y :
  has_key k (with_value pre post c rest x) = has_key k (with_value pre post c rest y).
Proof.
  unfold has_key. destruct (assoc_with_value k x y) as [->|(_ & -> & ->)]; reflexivity.
Qed.

Lemma assoc_with_value_self x :
  has_key c pre = false -> assoc c (with_value pre post c rest x) = Some (JObj (("value", x) :: rest)).
Proof.
  unfold has_key, with_value. induction pre as [|[k' v'] r IH]; simpl.
  - rewrite String.eqb_refl. reflexivity.
  - destruct (String.eqb c k'); [discriminate|exact IH].
Qed.

Lemma assoc_with_value_other k x y :
  k <> c -> assoc k (with_value pre post c rest x) = assoc k (with_value pre post c rest y).
Proof.
  intros Hk. destruct (assoc_with_value k x y) as [H|(H & _)]; [exact H|contradiction].
Qed.

Lemma sum_values_zero codes acc :
  fst (COREPEngine.sum_values (JObj (with_value pre post c rest (JInt 0))) codes acc ([], []))
  = fst (COREPEngine.sum_values (JObj (with_value pre post c rest (JStr "0"))) codes acc ([], [])).
Proof.
  revert acc. induction codes as [|code r IH]; intros acc; simpl; [reflexivity|].
  unfold bind, lift. cbn [py_contains py_getitem].
  destruct (assoc_with_value code (JInt 0) (JStr "0")) as [Heq|(_ & H0 & H1)].
  - rewrite Heq. destruct (assoc code (with_value pre post c rest (JStr "0"))) as [f|];
      [|apply IH].
    destruct (dict_get f "value" (JStr "0")) as [v|e]; [|reflexivity].
    destruct (truthy v); [|apply IH].
    destruct (py_int v); [apply IH|reflexivity].
  - rewrite H0, H1. cbn. replace (py_int_parse "0") with (Some 0) by reflexivity.
    rewrite Z.add_0_r. apply IH.
Qed.

Lemma calc_res_zero :
  calc_res (with_value pre post c rest (JInt 0)) = calc_res (with_value pre post c rest (JStr "0")).
Proof.
  unfold calc_res, sum_res. rewrite !sum_values_zero.
  assert (Hr : reported_res (with_value pre post c rest (JInt 0))
               = reported_res (with_value pre post c rest (JStr "0"))).
  { unfold reported_res.
    destruct (assoc_with_value "100" (JInt 0) (JStr "0")) as [->|(_ & -> & ->)];
      reflexivity. }
  rewrite Hr. reflexivity.
Qed.

Lemma pass2_zero :
  flat_map pass2_warnings (with_value pre post c rest (JInt 0))
  = flat_map pass2_warnings (with_value pre post c rest (JStr "0")).
Proof.
  unfold with_value. rewrite !flat_map_app. reflexivity.
Qed.

Lemma field_ok_with_value x :
  scalar x = true ->
  forallb (fun kv => field_ok (snd kv)) (pre ++ post) = true ->
  forallb (fun kv => field_ok (snd kv)) (with_value pre post c rest x) = true.
Proof.
  unfold with_value. rewrite !forallb_app. simpl. intros Hx H.
  apply andb_true_iff in H as [H1 H2]. rewrite H1, H2, Hx. reflexivity.
Qed.

End OneField.

Lemma populated_with_data meta kvs :
  forallb (fun kv => field_ok (snd kv)) kvs = true -> populated (with_data meta kvs) kvs.
Proof.
  intros H. eexists. split; [reflexivity|]. split; [reflexivity|exact H].
Qed.

Lemma flat_map_ext_in' {A B} (f g : A -> list B) (l : list A) :
  (forall x, In x l -> f x = g x) -> flat_map f l = flat_map g l.
Proof.
  induction l as [|x r IH]; intros H; simpl; [reflexivity|].
  rewrite H by (left; reflexivity). rewrite IH by (intros; apply H; right; assumption).
  reflexivity.
Qed.

Lemma required_fields_nodup : NoDup required_fields.
Proof.
  unfold required_fields.
  repeat constructor; simpl; intros H; repeat destruct H as [H|H]; try discriminate H; exact H.
Qed.

(** ** Passes 3 and 4 on a populated template *)

Lemma pass1_valid kvs :
  Nat.eqb (length (flat_map (pass1_errors kvs) required_fields)) 0
  = forallb (fun c => has_key c kvs) required_fields.
Proof.
  unfold required_fields, pass1_errors. simpl.
  destruct (has_key "010" kvs), (has_key "020" kvs), (has_key "030" kvs), (has_key "100" kvs);
    reflexivity.
Qed.

Lemma pass1_errors_missing kvs m :
  In m (flat_map (pass1_errors kvs) required_fields) -> exists c, m = missing_msg c.
Proof.
  intros H. apply in_flat_map in H as (c & _ & H). unfold pass1_errors in H.
  destruct (has_key c kvs); [destruct H|]. destruct H as [<-|[]]. eauto.
Qed.

(** The first of a list of fields whose value [int()] rejects. *)
Lemma first_rejected kvs l :
  (exists c, In c l /\ rejected kvs c = true) ->
  exists pre c0 post, l = (pre ++ c0 :: post)%list
                      /\ (forall c, In c pre -> rejected kvs c = false) /\ rejected kvs c0 = true.
Proof.
  induction l as [|x r IH]; intros (c & Hin & Hr); [destruct Hin|].
  destruct (rejected kvs x) eqn:Hx.
  - exists [], x, r. split; [reflexivity|split; [intros _ []|exact Hx]].
  - destruct Hin as [<-|Hin]; [congruence|].
    destruct (IH (ex_intro _ c (conj Hin Hr))) as (pre & c0 & post & -> & Hp & H0).
    exists (x :: pre), c0, post. split; [reflexivity|split; [|exact H0]].
    intros c' [<-|H']; [exact Hx|exact (Hp c' H')].
Qed.

(** The [try] block stops at the first summed field whose value [int()]
    rejects, before any error is appended. *)
Lemma calc_res_first_fail kvs pre c0 post s0 :
  forallb (fun kv => field_ok (snd kv)) kvs = true ->
  (component_codes ++ deduction_codes = pre ++ c0 :: post)%list ->
  (forall c, In c pre -> rejected kvs c = false) ->
  value_of kvs c0 = Some (JStr s0) -> s0 <> EmptyString -> py_int_parse s0 = None ->
  calc_res kvs = ([], Some (PyExc "ValueError" (int_error_msg s0))).
Proof.
  intros Hall Heq Hpre Hv Hne Hp. unfold calc_res, sum_res.
  assert (Hc : forall pre' post', component_codes = (pre' ++ c0 :: post')%list ->
             (forall c, In c pre' -> rejected kvs c = false) ->
             fst (COREPEngine.sum_values (JObj kvs) component_codes 0 ([], []))
             = Exc (PyExc "ValueError" (int_error_msg s0))).
  { intros pre' post' E Hp'. rewrite E.
    exact (sum_values_first_fail kvs pre' c0 post' 0 s0 Hall Hp' Hv Hne Hp). }
  destruct pre as [|a [|b [|c [|d [|e pre']]]]]; cbn [app] in Heq; inversion Heq; subst.
  - rewrite (Hc [] ["020"; "030"; "040"] eq_refl Hpre). reflexivity.
  - rewrite (Hc ["010"] ["030"; "040"] eq_refl Hpre). reflexivity.
  - rewrite (Hc ["010"; "020"] ["040"] eq_refl Hpre). reflexivity.
  - rewrite (Hc ["010"; "020"; "030"] [] eq_refl Hpre). reflexivity.
  - rewrite (sum_values_exact kvs component_codes 0 Hall Hpre).
    change deduction_codes with ([] ++ "070" :: [])%list.
    rewrite (sum_values_first_fail kvs [] "070" [] 0 s0 Hall (fun c H => match H with end) Hv Hne Hp).
    reflexivity.
  - destruct pre'; discriminate.
Qed.

(** The verdict when passes 3 and 4 run to their end or stop on the digit
    limit. *)
Lemma validate_calc kvs llm_data es e :
  populated llm_data kvs -> calc_res kvs = (es, e) ->
  COREPEngine.validate_response llm_data
  = Returned (mk_verdict
                (flat_map (pass1_errors kvs) required_fields ++ es)
                (flat_map (pass1_warnings kvs) required_fields
                 ++ flat_map pass2_warnings kvs
                 ++ match e with Some (PyExc _ m) => [calc_error_msg m] | None => [] end)
                (Nat.eqb (length (flat_map (pass1_errors kvs) required_fields ++ es)) 0))%list.
Proof.
  intros Hp Hc. rewrite (validate_populated _ _ Hp). unfold pass3_errors, pass3_warnings.
  rewrite Hc. reflexivity.
Qed.

(** A mismatch whose calculated total has more than 4300 digits: formatting
    its message raises, and the [except] turns it into a warning. *)
Lemma validate_over_limit llm_data kvs s100 r :
  populated llm_data kvs ->
  (forall c, In c (component_codes ++ deduction_codes) ->
             exists s z, value_of kvs c = Some (JStr s) /\ py_int_parse s = Some z) ->
  value_of kvs "100" = Some (JStr s100) -> py_int_parse s100 = Some r ->
  signed_sum kvs <> r -> within_str_limit (signed_sum kvs) = false ->
  COREPEngine.validate_response llm_data
  = Returned (mk_verdict []
                (flat_map (pass1_warnings kvs) required_fields ++ flat_map pass2_warnings kvs
                 ++ [calc_error_msg str_limit_msg]) true)%list.
Proof.
  intros Hp Hc Hv Hs Hne Hw.
  rewrite (validate_calc kvs llm_data [] (Some (PyExc "ValueError" str_limit_msg)) Hp).
  - rewrite (pass1_errors_nil kvs (required_present kvs s100 Hc Hv)). reflexivity.
  - rewrite (calc_res_parsed kvs s100 r Hc Hv Hs). exact (checks_of_over _ _ Hne Hw).
Qed.

(** *** Strings of nines *)

Lemma digits_tail_nines k acc m :
  digits_tail (repeat "9"%char k) acc m
  = Some (acc * 10 ^ Z.of_nat k + (10 ^ Z.of_nat k - 1), (m + k)%nat).
Proof.
  revert acc m. induction k as [|k IH]; intros acc m.
  - cbn. f_equal. f_equal; lia.
  - cbn [repeat digits_tail]. change (is_digit "9"%char) with true. cbn iota.
    change (digit_value "9"%char) with 9. rewrite IH, pow10_succ.
    f_equal. f_equal; [ring|lia].
Qed.

Lemma int_lstrip_nines k : int_lstrip (repeat "9"%char (S k)) = repeat "9"%char (S k).
Proof. reflexivity. Qed.

Lemma int_literal_value_nines k :
  int_literal_value (nines (S k)) = Some (10 ^ Z.of_nat (S k) - 1, S k).
Proof.
  unfold int_literal_value, nines, int_strip.
  rewrite list_ascii_of_string_of_list_ascii, int_lstrip_nines, rev_repeat, int_lstrip_nines,
    rev_repeat.
  cbn [repeat]. change (Ascii.eqb "9"%char "+"%char) with false.
  change (Ascii.eqb "9"%char "-"%char) with false. cbn iota.
  unfold unsigned. change (is_digit "9"%char) with true. cbn iota.
  change (digit_value "9"%char) with 9. rewrite digits_tail_nines, pow10_succ.
  f_equal. f_equal. ring.
Qed.

(** [int("9" * n)] is [10 ** n - 1] up to the limit. *)
Lemma py_int_parse_nines n :
  (1 <= n <= int_max_str_digits)%nat -> py_int_parse (nines n) = Some (10 ^ Z.of_nat n - 1).
Proof.
  intros Hn. destruct n as [|k]; [lia|].
  unfold py_int_parse. rewrite int_literal_value_nines.
  replace (Nat.leb (S k) int_max_str_digits) with true by (symmetry; apply Nat.leb_le; lia).
  reflexivity.
Qed.

Lemma re_match_int_nines k : re_match_int (nines (S k)) = true.
Proof.
  unfold re_match_int, nines. rewrite list_ascii_of_string_of_list_ascii.
  assert (H : forall n, forallb is_digit (repeat "9"%char n) = true)
    by (induction n as [|n IH]; [reflexivity|exact IH]).
  unfold int_literal. cbn [repeat]. change (Ascii.eqb "9"%char "-"%char) with false. cbn iota.
  unfold digits1. cbn [length Nat.eqb negb andb].
  change (forallb is_digit ("9"%char :: repeat "9"%char k)) with (forallb is_digit (repeat "9"%char (S k))).
  rewrite H. reflexivity.
Qed.

Lemma within_pow10 n : within_str_limit (10 ^ Z.of_nat n) = Nat.ltb n int_max_str_digits.
Proof.
  unfold within_str_limit. rewrite Z.abs_eq by (apply Z.pow_nonneg; lia).
  destruct (Nat.ltb_spec n int_max_str_digits) as [H|H].
  - apply Z.ltb_lt. apply Z.pow_lt_mono_r; lia.
  - apply Z.ltb_ge. apply Z.pow_le_mono_r; lia.
Qed.

(** ** Concrete runs *)

(** C1 (counterexample): with ["abc"] in field 010 and 100 = ["5"], the
    substituted sum 0 would not reconcile with 5, yet no mismatch error is
    reported and the verdict is valid: the [ValueError] of [int("abc")] ends
    the whole [try] block. *)
Lemma nonnumeric_component_not_zero_substituted :
  COREPEngine.validate_response (sample "abc" "0" "0" "0" "0" "5")
  = Returned (mk_verdict []
                ["Non-numeric value in field 010: abc";
                 "Calculation error: invalid literal for int() with base 10: 'abc'"]
                true)
  /\ ~ In (mismatch_msg 0 5)
         (match COREPEngine.validate_response (sample "abc" "0" "0" "0" "0" "5") with
          | Returned v => errors v | Raised _ => [] end).
Proof.
  split; [vm_compute; reflexivity|].
  vm_compute. intros [].
Qed.

(** C2 (counterexample): valid integer strings whose signed sum is -10,
    reported as -10, still give the pass-4 error. *)
Lemma reconciled_negative_total_invalid :
  COREPEngine.validate_response (sample "0" "0" "0" "0" "10" "-10")
  = Returned (mk_verdict ["CET1 is negative: -10"] [] false).
Proof. vm_compute. reflexivity. Qed.

(** C3 (counterexample): a list is not a mapping; the validator raises
    Python's [AttributeError], not an [InvalidInput] error, and a mapping whose
    fields lack their ["value"] yields a verdict with no errors. *)
Lemma no_invalid_input_kind :
  COREPEngine.validate_response (JArr [])
  = Raised (PyExc "AttributeError" "'list' object has no attribute 'get'")
  /\ COREPEngine.validate_response valueless
     = Returned (mk_verdict []
                   ["Empty value for field: 010"; "Empty value for field: 020";
                    "Empty value for field: 030"; "Empty value for field: 100"] true).
Proof. split; vm_compute; reflexivity. Qed.

(** C7 (counterexample): field 100 holds -10, but the [ValueError] raised on
    field 010 skips the negativity check. *)
Lemma negative_total_hidden_by_parse_error :
  COREPEngine.validate_response (sample "abc" "0" "0" "0" "0" "-10")
  = Returned (mk_verdict []
                ["Non-numeric value in field 010: abc";
                 "Calculation error: invalid literal for int() with base 10: 'abc'"]
                true).
Proof. vm_compute. reflexivity. Qed.

(** C4 (counterexample): field 010 holds 4300 nines, which [int()] reads,
    and field 020 holds ["1"]: the signed sum [10 ** 4300] differs from the
    reported 0, but it has 4301 digits, so formatting the mismatch message
    raises [ValueError]. No mismatch error is reported, the last warning is
    the "Calculation error" of the digit limit, and the verdict is valid. *)
Lemma mismatch_unreported_over_limit :
  py_int_parse (nines 4300) = Some (10 ^ 4300 - 1)
  /\ COREPEngine.validate_response (sample (nines 4300) "1" "0" "0" "0" "0")
     = Returned (mk_verdict [] [calc_error_msg str_limit_msg] true).
Proof.
  assert (Hn : py_int_parse (nines 4300) = Some (10 ^ Z.of_nat 4300 - 1))
    by (apply py_int_parse_nines; unfold int_max_str_digits; lia).
  split; [rewrite Hn; reflexivity|].
  set (kvs := sample_data (nines 4300) "1" "0" "0" "0" "0").
  assert (Hsum : signed_sum kvs = 10 ^ Z.of_nat 4300).
  { unfold signed_sum.
    rewrite (int_value_parsed kvs "010" _ _ eq_refl Hn).
    rewrite (int_value_parsed kvs "020" "1" 1 eq_refl eq_refl).
    rewrite (int_value_parsed kvs "030" "0" 0 eq_refl eq_refl).
    rewrite (int_value_parsed kvs "040" "0" 0 eq_refl eq_refl).
    rewrite (int_value_parsed kvs "070" "0" 0 eq_refl eq_refl).
    generalize (10 ^ Z.of_nat 4300). intros p. lia. }
  assert (Hpos : 0 < 10 ^ Z.of_nat 4300) by (apply Z.pow_pos_nonneg; lia).
  rewrite (validate_over_limit _ kvs "0" 0).
  - cbn [flat_map required_fields app].
    change (flat_map pass2_warnings kvs)
      with (pass2_warnings ("010", field (JStr (nines 4300)) "Ordinary share capital")
            ++ flat_map pass2_warnings (tl kvs))%list.
    assert (H2 : pass2_warnings ("010", field (JStr (nines 4300)) "Ordinary share capital") = []).
    { unfold pass2_warnings, field, get_value. cbn [snd assoc String.eqb Ascii.eqb Bool.eqb py_str].
      change (nines 4300) with (nines (S 4299)). rewrite re_match_int_nines. reflexivity. }
    rewrite H2. reflexivity.
  - eexists. split; [reflexivity|split; reflexivity].
  - intros c Hin. simpl in Hin.
    destruct Hin as [<-|Hin]; [exists (nines 4300), (10 ^ Z.of_nat 4300 - 1); split;
                               [reflexivity|exact Hn]|].
    repeat (destruct Hin as [<-|Hin]; [eexists; eexists; split; reflexivity|]). destruct Hin.
  - reflexivity.
  - reflexivity.
  - rewrite Hsum. generalize (10 ^ Z.of_nat 4300) Hpos. intros p Hp. lia.
  - rewrite Hsum, within_pow10. reflexivity.
Qed.

(** ** Claims *)

(** C6: every verdict returned by [validate_response] is valid exactly when
    its error list is empty; the warnings play no part in [is_valid]. *)
Theorem is_valid_iff_no_errors llm_data :
  match COREPEngine.validate_response llm_data with
  | Returned v => is_valid v = true <-> errors v = []
  | Raised _ => True
  end.
Proof.
  unfold COREPEngine.validate_response.
  destruct (COREPEngine.validate_body llm_data ([], [])) as [[u|e] [es ws]]; [|exact I].
  simpl. destruct es; simpl; split; congruence.
Qed.

(** C10: [COREPEngine.validate_response] and [COREPAssistant.validate_response]
    give the same outcome on every input: same errors, same warnings in the
    same order, same [is_valid], and the same exception when one is raised. *)
Theorem validators_equivalent llm_data :
  COREPEngine.validate_response llm_data = COREPAssistant.validate_response llm_data.
Proof. reflexivity. Qed.

(** C8 (code bug): the value ["505000000\n"] is not an optional minus sign
    followed by digits only, yet [re.match(r'^-?\d+$', ...)] accepts it ([$]
    matches before a final newline), so no "Non-numeric value" warning is
    emitted and the template validates cleanly. *)
Theorem trailing_newline_passes_format_check :
  int_literal (list_ascii_of_string total_with_newline) = false
  /\ re_match_int total_with_newline = true
  /\ COREPEngine.validate_response
       (sample "150000000" "75000000" "300000000" "25000000" "45000000" total_with_newline)
     = Returned (mk_verdict [] [] true).
Proof. split; [|split]; vm_compute; reflexivity. Qed.

(** C3 (amended): there is no [InvalidInput] error kind.  Every input that is
    not a mapping makes [validate_response] raise [AttributeError] (from
    [llm_data.get]) instead of returning a verdict, and a mapping is not
    checked for shape: fields without a ["value"] give a verdict with no
    errors. *)
Theorem non_mapping_raises_attribute_error :
  (forall llm_data, (forall top, llm_data <> JObj top) ->
     COREPEngine.validate_response llm_data = Raised (no_attribute llm_data "get"))
  /\ COREPEngine.validate_response valueless
     = Returned (mk_verdict []
                   ["Empty value for field: 010"; "Empty value for field: 020";
                    "Empty value for field: 030"; "Empty value for field: 100"] true).
Proof.
  split.
  - intros llm_data Hnot. destruct llm_data as [| | | | |top]; try reflexivity.
    exfalso. exact (Hnot top eq_refl).
  - vm_compute. reflexivity.
Qed.

Lemma non_mapping_raises_attribute_error_witness :
  COREPEngine.validate_response (JArr [])
  = Raised (PyExc "AttributeError" "'list' object has no attribute 'get'").
Proof.
  apply (proj1 non_mapping_raises_attribute_error (JArr [])).
  intros top H; discriminate H.
Defined.

(** C2 (amended): when fields 010, 020, 030, 040 and 070 hold strings that
    [int()] accepts and field 100 holds a string whose value is their signed
    sum, the verdict has no error if that sum is non-negative, and exactly the
    error "CET1 is negative: <sum>" if it is negative; [is_valid] holds
    exactly when the sum is non-negative. *)
Theorem reconciled_template_verdict llm_data kvs s100 :
  populated llm_data kvs ->
  (forall c, In c (component_codes ++ deduction_codes) ->
             exists s z, value_of kvs c = Some (JStr s) /\ py_int_parse s = Some z) ->
  value_of kvs "100" = Some (JStr s100) ->
  py_int_parse s100 = Some (signed_sum kvs) ->
  exists w, COREPEngine.validate_response llm_data
            = Returned (mk_verdict
                          (if signed_sum kvs <? 0 then [negative_msg (signed_sum kvs)] else [])
                          w (0 <=? signed_sum kvs)).
Proof.
  intros Hp Hc Hv Hs.
  rewrite (validate_populated _ _ Hp).
  rewrite (pass1_errors_nil kvs (required_present kvs s100 Hc Hv)).
  unfold pass3_errors. rewrite (calc_res_parsed kvs s100 _ Hc Hv Hs).
  pose proof (parse_within_limit _ _ Hs) as Hw.
  rewrite (checks_of_within _ _ Hw Hw), Z.eqb_refl. cbn [app fst].
  eexists.
  destruct (Z.ltb_spec (signed_sum kvs) 0); destruct (Z.leb_spec 0 (signed_sum kvs));
    try lia; reflexivity.
Qed.

Lemma reconciled_template_verdict_witness :
  exists w, COREPEngine.validate_response
              (sample "150000000" "75000000" "300000000" "25000000" "45000000" "505000000")
            = Returned (mk_verdict [] w true).
Proof.
  apply (reconciled_template_verdict
           _ (sample_data "150000000" "75000000" "300000000" "25000000" "45000000" "505000000")
           "505000000").
  - eexists. split; [reflexivity|split; reflexivity].
  - sample_fields.
  - reflexivity.
  - reflexivity.
Defined.

(** C4 (amended): when fields 010, 020, 030, 040, 070 and 100 all hold
    strings that [int()] accepts and the signed sum [s] differs from the
    value [r] of field 100, then
    - if [s] has at most 4300 digits, the errors are exactly "CET1
      calculation mismatch: Calculated <s> vs Reported <r>" (both numbers
      comma-grouped), followed by "CET1 is negative: <r>" when [r < 0], and
      the verdict is invalid;
    - if [s] has more than 4300 digits, formatting it raises [ValueError]:
      the errors are empty, the last warning is "Calculation error: Exceeds
      the limit (4300 digits) for integer string conversion; ...", and the
      verdict is valid.
    On the example of the spec the errors are exactly the mismatch message. *)
Theorem mismatch_error_reported :
  (forall llm_data kvs s100 r,
     populated llm_data kvs ->
     (forall c, In c (component_codes ++ deduction_codes) ->
                exists s z, value_of kvs c = Some (JStr s) /\ py_int_parse s = Some z) ->
     value_of kvs "100" = Some (JStr s100) ->
     py_int_parse s100 = Some r ->
     signed_sum kvs <> r ->
     (within_str_limit (signed_sum kvs) = true ->
      exists w, COREPEngine.validate_response llm_data
                = Returned (mk_verdict (mismatch_msg (signed_sum kvs) r
                                        :: (if r <? 0 then [negative_msg r] else []))
                                       w false))
     /\ (within_str_limit (signed_sum kvs) = false ->
         exists w, COREPEngine.validate_response llm_data
                   = Returned (mk_verdict [] (w ++ [calc_error_msg str_limit_msg]) true)))
  /\ COREPEngine.validate_response
       (sample "150000000" "75000000" "300000000" "25000000" "45000000" "999")
     = Returned (mk_verdict ["CET1 calculation mismatch: Calculated 505,000,000 vs Reported 999"]
                            [] false).
Proof.
  split; [|vm_compute; reflexivity].
  intros llm_data kvs s100 r Hp Hc Hv Hs Hne. split.
  - intros Hw.
    rewrite (validate_calc kvs llm_data
               (mismatch_msg (signed_sum kvs) r :: (if r <? 0 then [negative_msg r] else []))
               None Hp).
    + rewrite (pass1_errors_nil kvs (required_present kvs s100 Hc Hv)). eexists. reflexivity.
    + rewrite (calc_res_parsed kvs s100 r Hc Hv Hs).
      rewrite (checks_of_within _ _ Hw (parse_within_limit _ _ Hs)).
      apply Z.eqb_neq in Hne. rewrite Hne. reflexivity.
  - intros Hw. rewrite (validate_over_limit llm_data kvs s100 r Hp Hc Hv Hs Hne Hw).
    eexists. rewrite app_assoc. reflexivity.
Qed.

Lemma mismatch_error_reported_witness :
  exists w, COREPEngine.validate_response
              (sample "150000000" "75000000" "300000000" "25000000" "45000000" "999")
            = Returned (mk_verdict
                          (mismatch_msg (signed_sum (sample_data "150000000" "75000000" "300000000"
                                                                 "25000000" "45000000" "999")) 999
                           :: (if 999 <? 0 then [negative_msg 999] else [])) w false).
Proof.
  refine (proj1 (proj1 mismatch_error_reported
                   _ (sample_data "150000000" "75000000" "300000000" "25000000" "45000000" "999")
                   "999" 999 _ _ _ _ _) _).
  - eexists. split; [reflexivity|split; reflexivity].
  - sample_fields.
  - reflexivity.
  - reflexivity.
  - vm_compute. discriminate.
  - reflexivity.
Defined.

(** C7 (amended): let field 100 hold a string whose value [r] is negative,
    and let [P] be the missing-field errors of pass 1.
    - If no field among 010, 020, 030, 040, 070 holds a value [int()]
      rejects and the signed sum equals [r], the errors are exactly
      [P ++ ["CET1 is negative: <r>"]] (comma grouped) and the verdict is
      invalid.
    - If no such field is rejected and the sum [s] differs from [r] and has
      at most 4300 digits, the errors are exactly [P] followed by the
      mismatch error and then the negativity error; the verdict is invalid.
    - If the sum differs from [r] and has more than 4300 digits, formatting
      the mismatch message raises: the errors are [P], no negativity error
      is added, and the last warning is the "Calculation error" of the digit
      limit.
    - If one of those fields holds a value [int()] rejects, the negativity
      error is not emitted.
    For "-10" with components summing to -10 the errors are exactly
    ["CET1 is negative: -10"]; with a sum of 0 they are the mismatch error
    followed by the negativity error. *)
Theorem negative_total_reported :
  (forall llm_data kvs s100 r,
     populated llm_data kvs ->
     value_of kvs "100" = Some (JStr s100) ->
     py_int_parse s100 = Some r ->
     r < 0 ->
     ((forall c, In c (component_codes ++ deduction_codes) -> rejected kvs c = false) ->
      signed_sum kvs = r ->
      exists w, COREPEngine.validate_response llm_data
                = Returned (mk_verdict (flat_map (pass1_errors kvs) required_fields
                                        ++ [negative_msg r]) w false))
     /\ ((forall c, In c (component_codes ++ deduction_codes) -> rejected kvs c = false) ->
         signed_sum kvs <> r -> within_str_limit (signed_sum kvs) = true ->
         exists w, COREPEngine.validate_response llm_data
                   = Returned (mk_verdict (flat_map (pass1_errors kvs) required_fields
                                           ++ [mismatch_msg (signed_sum kvs) r; negative_msg r])
                                          w false))
     /\ ((forall c, In c (component_codes ++ deduction_codes) -> rejected kvs c = false) ->
         signed_sum kvs <> r -> within_str_limit (signed_sum kvs) = false ->
         exists w, COREPEngine.validate_response llm_data
                   = Returned (mk_verdict (flat_map (pass1_errors kvs) required_fields)
                                          (w ++ [calc_error_msg str_limit_msg])
                                          (forallb (fun c => has_key c kvs) required_fields)))
     /\ ((exists c, In c (component_codes ++ deduction_codes) /\ rejected kvs c = true) ->
         exists v, COREPEngine.validate_response llm_data = Returned v
                   /\ ~ In (negative_msg r) (errors v)))%list
  /\ COREPEngine.validate_response (sample "0" "0" "0" "0" "10" "-10")
     = Returned (mk_verdict ["CET1 is negative: -10"] [] false)
  /\ COREPEngine.validate_response (sample "0" "0" "0" "0" "0" "-10")
     = Returned (mk_verdict ["CET1 calculation mismatch: Calculated 0 vs Reported -10";
                             "CET1 is negative: -10"] [] false).
Proof.
  split; [|split; vm_compute; reflexivity].
  intros llm_data kvs s100 r Hp Hv Hs Hneg.
  pose proof Hp as (top & _ & _ & Hall).
  pose proof (reported_res_parsed _ _ _ Hv Hs) as Hr.
  pose proof (parse_within_limit _ _ Hs) as Hwr.
  apply Z.ltb_lt in Hneg.
  assert (Hinvalid : forall es, Nat.eqb (length (flat_map (pass1_errors kvs) required_fields
                                                 ++ negative_msg r :: es)) 0 = false)
    by (intros es; rewrite length_app; cbn [length]; rewrite Nat.add_succ_r; reflexivity).
  split; [|split; [|split]].
  - intros Hc Heq.
    rewrite (validate_calc kvs llm_data [negative_msg r] None Hp).
    + rewrite (Hinvalid []). eexists. reflexivity.
    + rewrite (calc_res_exact kvs r Hall Hc Hr), Heq, (checks_of_within _ _ Hwr Hwr).
      rewrite Z.eqb_refl, Hneg. reflexivity.
  - intros Hc Hne Hw.
    rewrite (validate_calc kvs llm_data [mismatch_msg (signed_sum kvs) r; negative_msg r] None Hp).
    + rewrite length_app. cbn [length]. rewrite Nat.add_succ_r. eexists. reflexivity.
    + rewrite (calc_res_exact kvs r Hall Hc Hr), (checks_of_within _ _ Hw Hwr).
      apply Z.eqb_neq in Hne. rewrite Hne, Hneg. reflexivity.
  - intros Hc Hne Hw.
    rewrite (validate_calc kvs llm_data [] (Some (PyExc "ValueError" str_limit_msg)) Hp).
    + rewrite !app_nil_r, pass1_valid, app_assoc. eexists. reflexivity.
    + rewrite (calc_res_exact kvs r Hall Hc Hr). exact (checks_of_over _ _ Hne Hw).
  - intros Hex. destruct (first_rejected kvs _ Hex) as (pre & c0 & post & Heq & Hpre & H0).
    apply (rejected_spec kvs c0 Hall) in H0 as (s0 & Hv0 & Hne0 & Hp0).
    rewrite (validate_calc kvs llm_data [] _ Hp
               (calc_res_first_fail kvs pre c0 post s0 Hall Heq Hpre Hv0 Hne0 Hp0)).
    eexists. split; [reflexivity|]. cbn [errors]. rewrite app_nil_r.
    intros H. destruct (pass1_errors_missing _ _ H) as [c Hc]. discriminate Hc.
Qed.

Lemma negative_total_reported_witness :
  exists w, COREPEngine.validate_response (sample "0" "0" "0" "0" "10" "-10")
            = Returned (mk_verdict (flat_map (pass1_errors (sample_data "0" "0" "0" "0" "10" "-10"))
                                             required_fields ++ [negative_msg (-10)]) w false).
Proof.
  refine (proj1 (proj1 negative_total_reported
                   _ (sample_data "0" "0" "0" "0" "10" "-10") "-10" (-10) _ _ _ _) _ _).
  - eexists. split; [reflexivity|split; reflexivity].
  - reflexivity.
  - reflexivity.
  - lia.
  - intros c Hin. simpl in Hin.
    repeat (destruct Hin as [<-|Hin]; [reflexivity|]). destruct Hin.
  - reflexivity.
Defined.

(** C1 (amended): when one of the fields 010, 020, 030, 040, 070 holds a
    non-empty string that [int()] rejects, the [ValueError] is caught inside
    [validate_response], which returns a verdict.  The rejected value is not
    replaced by 0: the loops stop at the first field [c0], in the order
    010, 020, 030, 040, 070, whose value [s0] [int()] rejects, and the last
    warning is "Calculation error: <m>" where [m] is [int_error_msg s0]:
    "invalid literal for int() with base 10: <repr(s0), cut to 200
    characters>", or "Exceeds the limit (4300 digits) for integer string
    conversion: value has <n> digits; ..." when the digit run of [s0] has
    [n > 4300] digits.  The mismatch and negativity checks are skipped, the
    errors are only the missing-field errors of pass 1, and [is_valid] holds
    exactly when no required field is missing. *)
Theorem calc_error_aborts_reconciliation llm_data kvs c s :
  populated llm_data kvs ->
  In c (component_codes ++ deduction_codes) ->
  value_of kvs c = Some (JStr s) -> s <> EmptyString -> py_int_parse s = None ->
  exists pre c0 post s0,
    (component_codes ++ deduction_codes = pre ++ c0 :: post)%list
    /\ (forall c', In c' pre -> rejected kvs c' = false)
    /\ value_of kvs c0 = Some (JStr s0) /\ s0 <> EmptyString /\ py_int_parse s0 = None
    /\ COREPEngine.validate_response llm_data
       = Returned (mk_verdict
                     (flat_map (pass1_errors kvs) required_fields)
                     (flat_map (pass1_warnings kvs) required_fields
                      ++ flat_map pass2_warnings kvs
                      ++ [calc_error_msg (int_error_msg s0)])
                     (forallb (fun c => has_key c kvs) required_fields))%list.
Proof.
  intros Hp Hin Hv Hne Hs. pose proof Hp as (top & _ & _ & Hall).
  assert (Hex : exists c', In c' (component_codes ++ deduction_codes) /\ rejected kvs c' = true)
    by (exists c; split; [exact Hin|apply (rejected_spec kvs c Hall); eauto]).
  destruct (first_rejected kvs _ Hex) as (pre & c0 & post & Heq & Hpre & H0).
  apply (rejected_spec kvs c0 Hall) in H0 as (s0 & Hv0 & Hne0 & Hp0).
  exists pre, c0, post, s0. do 5 (split; [assumption|]).
  rewrite (validate_calc kvs llm_data [] _ Hp
             (calc_res_first_fail kvs pre c0 post s0 Hall Heq Hpre Hv0 Hne0 Hp0)).
  rewrite app_nil_r, pass1_valid. reflexivity.
Qed.

Lemma calc_error_aborts_reconciliation_witness :
  exists pre c0 post s0,
    (component_codes ++ deduction_codes = pre ++ c0 :: post)%list
    /\ (forall c', In c' pre -> rejected (sample_data "abc" "0" "0" "0" "0" "5") c' = false)
    /\ value_of (sample_data "abc" "0" "0" "0" "0" "5") c0 = Some (JStr s0)
    /\ s0 <> EmptyString /\ py_int_parse s0 = None
    /\ COREPEngine.validate_response (sample "abc" "0" "0" "0" "0" "5")
       = Returned (mk_verdict [] ["Non-numeric value in field 010: abc";
                                  calc_error_msg (int_error_msg s0)] true).
Proof.
  apply (calc_error_aborts_reconciliation _ (sample_data "abc" "0" "0" "0" "0" "5") "010" "abc").
  - eexists. split; [reflexivity|split; reflexivity].
  - simpl. auto.
  - reflexivity.
  - discriminate.
  - reflexivity.
Defined.

(** C5: on a populated template, each required code (010, 020, 030, 100)
    absent from the data mapping gives exactly one "Missing required field:
    <code>" error; no code outside the required list ever gets one; and a
    required code present with an empty (falsy) value gets the warning
    "Empty value for field: <code>" and no missing-field error. *)
Theorem missing_required_fields_reported llm_data kvs :
  populated llm_data kvs ->
  exists v, COREPEngine.validate_response llm_data = Returned v
    /\ (forall c, In c required_fields -> has_key c kvs = false ->
                  count_occ string_dec (errors v) (missing_msg c) = 1%nat)
    /\ (forall c, ~ In c required_fields -> ~ In (missing_msg c) (errors v))
    /\ (forall c fs, In c required_fields -> assoc c kvs = Some (JObj fs) ->
                     truthy (get_value fs JNull) = false ->
                     In (empty_msg c) (warnings v) /\ ~ In (missing_msg c) (errors v)).
Proof.
  intros Hp. rewrite (validate_populated _ _ Hp).
  eexists. split; [reflexivity|]. cbn [errors warnings].
  split; [|split].
  - intros c Hin Habs. rewrite count_occ_app.
    rewrite (proj1 (count_occ_not_In _ _ _) (missing_not_pass3 kvs c)).
    rewrite Nat.add_0_r.
    destruct Hin as [<-|[<-|[<-|[<-|[]]]]]; unfold required_fields; simpl flat_map;
      unfold pass1_errors; rewrite Habs;
      destruct (has_key "010" kvs), (has_key "020" kvs), (has_key "030" kvs),
               (has_key "100" kvs); reflexivity.
  - intros c Hnot H. apply in_app_or in H as [H|H].
    + apply missing_in_pass1 in H as [H _]. exact (Hnot H).
    + exact (missing_not_pass3 kvs c H).
  - intros c fs Hin Ha Hempty. split.
    + apply in_or_app. left. apply in_flat_map. exists c. split; [exact Hin|].
      unfold pass1_warnings. rewrite Ha, Hempty. left. reflexivity.
    + intros H. apply in_app_or in H as [H|H].
      * apply missing_in_pass1 in H as [_ H]. unfold has_key in H. rewrite Ha in H.
        discriminate H.
      * exact (missing_not_pass3 kvs c H).
Qed.

Lemma missing_required_fields_reported_witness :
  exists v, COREPEngine.validate_response (with_data [] partial_data) = Returned v
    /\ (forall c, In c required_fields -> has_key c partial_data = false ->
                  count_occ string_dec (errors v) (missing_msg c) = 1%nat)
    /\ (forall c, ~ In c required_fields -> ~ In (missing_msg c) (errors v))
    /\ (forall c fs, In c required_fields -> assoc c partial_data = Some (JObj fs) ->
                     truthy (get_value fs JNull) = false ->
                     In (empty_msg c) (warnings v) /\ ~ In (missing_msg c) (errors v)).
Proof.
  apply missing_required_fields_reported. apply populated_with_data. reflexivity.
Defined.

(** The verdicts with the number 0 and with the string ["0"] in a required
    field [c]. *)
Lemma zero_verdicts meta pre post rest c :
  In c required_fields ->
  has_key c pre = false ->
  forallb (fun kv => field_ok (snd kv)) (pre ++ post) = true ->
  exists errs w1 w2 b,
    COREPEngine.validate_response (with_data meta (with_value pre post c rest (JInt 0)))
    = Returned (mk_verdict errs (w1 ++ empty_msg c :: w2) b)
    /\ COREPEngine.validate_response (with_data meta (with_value pre post c rest (JStr "0")))
       = Returned (mk_verdict errs (w1 ++ w2) b).
Proof.
  intros Hin Hpre Hok.
  pose proof (field_ok_with_value pre post rest c (JInt 0) eq_refl Hok) as Hok0.
  pose proof (field_ok_with_value pre post rest c (JStr "0") eq_refl Hok) as Hok1.
  rewrite (validate_populated _ _ (populated_with_data meta _ Hok0)).
  rewrite (validate_populated _ _ (populated_with_data meta _ Hok1)).
  unfold pass3_errors, pass3_warnings. rewrite calc_res_zero, pass2_zero.
  assert (He : flat_map (pass1_errors (with_value pre post c rest (JInt 0))) required_fields
               = flat_map (pass1_errors (with_value pre post c rest (JStr "0"))) required_fields).
  { apply flat_map_ext_in'. intros k _. unfold pass1_errors.
    rewrite (has_key_with_value pre post rest c k (JInt 0) (JStr "0")). reflexivity. }
  rewrite He.
  destruct (in_split c required_fields Hin) as (bef & aft & Hsplit).
  pose proof required_fields_nodup as Hnd. rewrite Hsplit in Hnd.
  pose proof (NoDup_remove_2 _ _ _ Hnd) as Hc.
  assert (Hother : forall k, In k (bef ++ aft) ->
            pass1_warnings (with_value pre post c rest (JInt 0)) k
            = pass1_warnings (with_value pre post c rest (JStr "0")) k).
  { intros k Hk. unfold pass1_warnings.
    rewrite (assoc_with_value_other pre post rest c k (JInt 0) (JStr "0")); [reflexivity|].
    intros ->. exact (Hc Hk). }
  assert (Hbef : flat_map (pass1_warnings (with_value pre post c rest (JInt 0))) bef
                 = flat_map (pass1_warnings (with_value pre post c rest (JStr "0"))) bef)
    by (apply flat_map_ext_in'; intros; apply Hother; apply in_or_app; left; assumption).
  assert (Haft : flat_map (pass1_warnings (with_value pre post c rest (JInt 0))) aft
                 = flat_map (pass1_warnings (with_value pre post c rest (JStr "0"))) aft)
    by (apply flat_map_ext_in'; intros; apply Hother; apply in_or_app; right; assumption).
  assert (H0 : pass1_warnings (with_value pre post c rest (JInt 0)) c = [empty_msg c])
    by (unfold pass1_warnings; rewrite (assoc_with_value_self pre post rest c _ Hpre); reflexivity).
  assert (H1 : pass1_warnings (with_value pre post c rest (JStr "0")) c = [])
    by (unfold pass1_warnings; rewrite (assoc_with_value_self pre post rest c _ Hpre); reflexivity).
  rewrite Hsplit, !flat_map_app. cbn [flat_map]. rewrite H0, H1, Hbef, Haft.
  rewrite app_nil_l, <- !app_assoc. cbn [app].
  eexists _, _, _, _. split; reflexivity.
Qed.

(** C9: let a required field [c] hold, as its ["value"], the JSON number 0 in
    one template and the string ["0"] in the same template otherwise.
    - With the number 0, pass 1 warns "Empty value for field: <c>"; with
      ["0"] it warns nothing for [c].
    - Pass 2 warns nothing for [c] with either value.
    - In pass 3 neither value is rejected by [int()]: both add 0 to the sums
      (and give 0 as the reported total when [c] is 100), and the [try] block
      has the same outcome.
    - The verdicts have the same errors and [is_valid]; the warnings are the
      same up to "Empty value for field: <c>", inserted at the place of [c]
      in pass 1 with the number 0, and absent from the verdict with ["0"]. *)
Theorem numeric_zero_treated_as_empty meta pre post rest c :
  In c required_fields ->
  has_key c pre = false ->
  forallb (fun kv => field_ok (snd kv)) (pre ++ post) = true ->
  pass1_warnings (with_value pre post c rest (JInt 0)) c = [empty_msg c]
  /\ pass1_warnings (with_value pre post c rest (JStr "0")) c = []
  /\ pass2_warnings (c, JObj (("value", JInt 0) :: rest)) = []
  /\ pass2_warnings (c, JObj (("value", JStr "0") :: rest)) = []
  /\ int_value (with_value pre post c rest (JInt 0)) c = 0
  /\ int_value (with_value pre post c rest (JStr "0")) c = 0
  /\ rejected (with_value pre post c rest (JInt 0)) c = false
  /\ rejected (with_value pre post c rest (JStr "0")) c = false
  /\ (c = "100" -> reported_res (with_value pre post c rest (JInt 0)) = Ok 0
                   /\ reported_res (with_value pre post c rest (JStr "0")) = Ok 0)
  /\ calc_res (with_value pre post c rest (JInt 0))
     = calc_res (with_value pre post c rest (JStr "0"))
  /\ exists errs w1 w2 b,
       COREPEngine.validate_response (with_data meta (with_value pre post c rest (JInt 0)))
       = Returned (mk_verdict errs (w1 ++ empty_msg c :: w2) b)
       /\ COREPEngine.validate_response (with_data meta (with_value pre post c rest (JStr "0")))
          = Returned (mk_verdict errs (w1 ++ w2) b)
       /\ ~ In (empty_msg c) (w1 ++ w2).
Proof.
  intros Hin Hpre Hok.
  pose proof (assoc_with_value_self pre post rest c (JInt 0) Hpre) as A0.
  pose proof (assoc_with_value_self pre post rest c (JStr "0") Hpre) as A1.
  assert (P1 : pass1_warnings (with_value pre post c rest (JStr "0")) c = [])
    by (unfold pass1_warnings; rewrite A1; reflexivity).
  split; [unfold pass1_warnings; rewrite A0; reflexivity|].
  split; [exact P1|].
  split; [reflexivity|]. split; [reflexivity|].
  split; [unfold int_value, value_of; rewrite A0; reflexivity|].
  split; [unfold int_value, value_of; rewrite A1; reflexivity|].
  split; [unfold rejected, value_of; rewrite A0; reflexivity|].
  split; [unfold rejected, value_of; rewrite A1; reflexivity|].
  split; [intros ->; unfold reported_res; rewrite A0, A1; split; reflexivity|].
  split; [apply calc_res_zero|].
  destruct (zero_verdicts meta pre post rest c Hin Hpre Hok) as (errs & w1 & w2 & b & H0 & H1).
  exists errs, w1, w2, b. split; [exact H0|]. split; [exact H1|].
  pose proof (field_ok_with_value pre post rest c (JStr "0") eq_refl Hok) as Hok1.
  rewrite (validate_populated _ _ (populated_with_data meta _ Hok1)) in H1.
  injection H1 as _ Hw _. rewrite <- Hw. intros H.
  apply empty_msg_in_warnings in H. rewrite P1 in H. destruct H.
Qed.

Lemma numeric_zero_treated_as_empty_witness :
  pass1_warnings (with_value [] (tl (sample_data "0" "0" "0" "0" "0" "0")) "010"
       [("description", JStr "Ordinary share capital")] (JInt 0)) "010" = [empty_msg "010"]
  /\ pass1_warnings (with_value [] (tl (sample_data "0" "0" "0" "0" "0" "0")) "010"
       [("description", JStr "Ordinary share capital")] (JStr "0")) "010" = []
  /\ pass2_warnings ("010", JObj [("value", JInt 0); ("description", JStr "Ordinary share capital")]) = []
  /\ pass2_warnings ("010", JObj [("value", JStr "0"); ("description", JStr "Ordinary share capital")]) = []
  /\ int_value (with_value [] (tl (sample_data "0" "0" "0" "0" "0" "0")) "010"
       [("description", JStr "Ordinary share capital")] (JInt 0)) "010" = 0
  /\ int_value (with_value [] (tl (sample_data "0" "0" "0" "0" "0" "0")) "010"
       [("description", JStr "Ordinary share capital")] (JStr "0")) "010" = 0
  /\ rejected (with_value [] (tl (sample_data "0" "0" "0" "0" "0" "0")) "010"
       [("description", JStr "Ordinary share capital")] (JInt 0)) "010" = false
  /\ rejected (with_value [] (tl (sample_data "0" "0" "0" "0" "0" "0")) "010"
       [("description", JStr "Ordinary share capital")] (JStr "0")) "010" = false
  /\ ("010" = "100" ->
      reported_res (with_value [] (tl (sample_data "0" "0" "0" "0" "0" "0")) "010"
       [("description", JStr "Ordinary share capital")] (JInt 0)) = Ok 0
      /\ reported_res (with_value [] (tl (sample_data "0" "0" "0" "0" "0" "0")) "010"
       [("description", JStr "Ordinary share capital")] (JStr "0")) = Ok 0)
  /\ calc_res (with_value [] (tl (sample_data "0" "0" "0" "0" "0" "0")) "010"
       [("description", JStr "Ordinary share capital")] (JInt 0))
     = calc_res (with_value [] (tl (sample_data "0" "0" "0" "0" "0" "0")) "010"
       [("description", JStr "Ordinary share capital")] (JStr "0"))
  /\ exists errs w1 w2 b,
       COREPEngine.validate_response (with_data [] (with_value [] (tl (sample_data "0" "0" "0" "0" "0" "0")) "010"
       [("description", JStr "Ordinary share capital")] (JInt 0)))
       = Returned (mk_verdict errs (w1 ++ empty_msg "010" :: w2) b)
       /\ COREPEngine.validate_response (with_data [] (with_value [] (tl (sample_data "0" "0" "0" "0" "0" "0")) "010"
       [("description", JStr "Ordinary share capital")] (JStr "0")))
          = Returned (mk_verdict errs (w1 ++ w2) b)
       /\ ~ In (empty_msg "010") (w1 ++ w2).
Proof.
  apply numeric_zero_treated_as_empty.
  - simpl. auto.
  - reflexivity.
  - reflexivity.
Defined.

(** ** Further properties of the pipeline *)

(** *** Helpers on strings *)

Lemma sapp_assoc (a b c : string) : ((a ++ b) ++ c)%string = (a ++ (b ++ c))%string.
Proof. induction a as [|x a IH]; simpl; [reflexivity|rewrite IH; reflexivity]. Qed.

Lemma has_char_cons c a s :
  has_char c (String a s) = (Ascii.eqb c a || has_char c s)%bool.
Proof. reflexivity. Qed.

Lemma has_char_app c a b : has_char c (a ++ b) = (has_char c a || has_char c b)%bool.
Proof.
  induction a as [|x a IH]; [reflexivity|].
  change (String x a ++ b)%string with (String x (a ++ b)).
  rewrite !has_char_cons, IH, orb_assoc. reflexivity.
Qed.

(** *** Extracting the JSON object from the reply *)

Lemma greedy_close_none q : has_char "}"%char q = false -> greedy_close q = None.
Proof.
  induction q as [|a q IH]; [reflexivity|].
  rewrite has_char_cons. intros H. apply orb_false_iff in H as [H1 H2].
  simpl. rewrite IH by exact H2. rewrite Ascii.eqb_sym, H1. reflexivity.
Qed.

Lemma greedy_close_none_inv q : greedy_close q = None -> has_char "}"%char q = false.
Proof.
  induction q as [|a q IH]; [reflexivity|].
  simpl. destruct (greedy_close q); [discriminate|].
  destruct (Ascii.eqb a "}") eqn:Ea; [discriminate|]. intros _.
  rewrite has_char_cons, Ascii.eqb_sym, Ea, IH by reflexivity. reflexivity.
Qed.

Lemma greedy_close_last x q :
  has_char "}"%char q = false -> greedy_close (x ++ String "}" q) = Some (x ++ "}")%string.
Proof.
  intros Hq. induction x as [|a x IH]; simpl.
  - rewrite greedy_close_none by exact Hq. reflexivity.
  - rewrite IH. reflexivity.
Qed.

Lemma greedy_close_some r t :
  greedy_close r = Some t ->
  exists x q, t = (x ++ "}")%string /\ r = (t ++ q)%string /\ has_char "}"%char q = false.
Proof.
  revert t. induction r as [|a r IH]; simpl; intros t H; [discriminate|].
  destruct (greedy_close r) as [t'|] eqn:E.
  - injection H as <-. destruct (IH t' eq_refl) as (x & q & -> & -> & Hq).
    exists (String a x), q. auto.
  - destruct (Ascii.eqb a "}") eqn:Ea; [|discriminate]. injection H as <-.
    apply Ascii.eqb_eq in Ea. subst a.
    exists EmptyString, r. split; [reflexivity|]. split; [reflexivity|].
    exact (greedy_close_none_inv r E).
Qed.

Lemma re_search_braces_span p x q :
  has_char "{"%char p = false -> has_char "}"%char q = false ->
  re_search_braces (p ++ String "{" (x ++ String "}" q)) = Some (String "{" (x ++ "}")).
Proof.
  intros Hp Hq. induction p as [|a p IH]; simpl.
  - rewrite greedy_close_last by exact Hq. reflexivity.
  - rewrite has_char_cons in Hp. apply orb_false_iff in Hp as [H1 H2].
    rewrite Ascii.eqb_sym, H1. apply IH. exact H2.
Qed.

(** [parse_llm_response] (src/corep_engine.py, lines 140-152; src/main.py,
    lines 115-128): whatever [json.loads] does, text around the JSON object
    of the reply (prose without ['{'] before it, text without ['}'] after
    it, such as a closing code fence) does not change what the method
    returns. *)
Theorem reply_text_around_object_ignored json_loads p x q :
  has_char "{"%char p = false -> has_char "}"%char q = false ->
  parse_llm_response json_loads (p ++ String "{" (x ++ "}") ++ q)
  = parse_llm_response json_loads (String "{" (x ++ "}")).
Proof.
  intros Hp Hq. unfold parse_llm_response.
  replace (p ++ String "{" (x ++ "}") ++ q)%string with (p ++ String "{" (x ++ String "}" q))%string
    by (simpl; rewrite sapp_assoc; reflexivity).
  rewrite (re_search_braces_span p x q Hp Hq).
  pose proof (re_search_braces_span EmptyString x EmptyString eq_refl eq_refl) as H.
  cbn [String.append] in H. rewrite H. reflexivity.
Qed.

Lemma reply_text_around_object_ignored_witness :
  parse_llm_response (fun s => if String.eqb s "{}" then Ok (JObj [])
                               else Exc (PyExc "JSONDecodeError" "Expecting value"))
                     ("Here is the template:" ++ String newline ("{}" ++ String newline "Done."))
  = Ok (JObj []).
Proof.
  rewrite (reply_text_around_object_ignored _ ("Here is the template:" ++ String newline EmptyString)
             EmptyString (String newline "Done.")).
  - reflexivity.
  - vm_compute. reflexivity.
  - vm_compute. reflexivity.
Defined.

(** [parse_llm_response] (src/corep_engine.py, lines 140-152): when the
    pattern [\{.*\}] finds a match, the text handed to [json.loads] runs
    from the first ['{'] of the reply to its last ['}']. *)
Theorem reply_span_first_open_last_close response_text json_str :
  re_search_braces response_text = Some json_str ->
  exists p x q, response_text = (p ++ json_str ++ q)%string
                /\ json_str = String "{" (x ++ "}")
                /\ has_char "{"%char p = false /\ has_char "}"%char q = false.
Proof.
  revert json_str. induction response_text as [|a r IH]; intros m H; [discriminate|].
  simpl in H. destruct (Ascii.eqb a "{") eqn:Ea.
  - destruct (greedy_close r) as [t|] eqn:Et; simpl in H.
    + injection H as <-. apply Ascii.eqb_eq in Ea. subst a.
      destruct (greedy_close_some r t Et) as (x & q & -> & -> & Hq).
      exists EmptyString, x, q.
      split; [reflexivity|split; [reflexivity|split; [reflexivity|exact Hq]]].
    + destruct (IH m H) as (p & x & q & -> & -> & _ & _).
      exfalso. pose proof (greedy_close_none_inv _ Et) as Hn.
      assert (Hm : has_char "}"%char (String "{" (x ++ "}")) = true).
      { rewrite has_char_cons, has_char_app.
        replace (has_char "}"%char "}") with true by reflexivity.
        rewrite !orb_true_r. reflexivity. }
      rewrite !has_char_app, Hm, orb_true_l, orb_true_r in Hn. discriminate Hn.
  - destruct (IH m H) as (p & x & q & -> & -> & Hp & Hq).
    exists (String a p), x, q.
    split; [reflexivity|split; [reflexivity|split; [|exact Hq]]].
    rewrite has_char_cons, Ascii.eqb_sym, Ea, Hp. reflexivity.
Qed.

Lemma reply_span_first_open_last_close_witness :
  exists p x q, ("Answer: {" ++ String newline "}")%string
                = (p ++ ("{" ++ String newline "}") ++ q)%string
                /\ ("{" ++ String newline "}")%string = String "{" (x ++ "}")
                /\ has_char "{"%char p = false /\ has_char "}"%char q = false.
Proof.
  apply (reply_span_first_open_last_close ("Answer: {" ++ String newline "}")
                                          ("{" ++ String newline "}")).
  vm_compute. reflexivity.
Defined.

(** ** Properties of the rest of the pipeline *)

Lemma validate_non_mapping llm_data :
  is_mapping llm_data = false ->
  COREPEngine.validate_response llm_data = Raised (no_attribute llm_data "get").
Proof.
  destruct llm_data; try reflexivity; discriminate.
Qed.

Lemma engine_returned_is_valid llm_data v :
  COREPEngine.validate_response llm_data = Returned v -> is_valid v = Nat.eqb (length (errors v)) 0.
Proof.
  unfold COREPEngine.validate_response.
  destruct (COREPEngine.validate_body llm_data ([], [])) as [[u|e] [es ws]]; intros H;
    inversion H; reflexivity.
Qed.

Lemma populated_truthy llm_data kvs : populated llm_data kvs -> truthy llm_data = true.
Proof.
  intros (top & -> & Hd & _). destruct top; [discriminate|reflexivity].
Qed.

Lemma string_eqb_neq (s t : string) : s <> t -> String.eqb s t = false.
Proof.
  intros H. destruct (String.eqb s t) eqn:E; [apply String.eqb_eq in E; contradiction|reflexivity].
Qed.

(** [process_query] (src/corep_engine.py, lines 37-65): a reply that parses to
    a truthy JSON value which is not a mapping (a non-empty list, a number, a
    string, [true]) is neither turned into an error result nor validated: the
    [llm_data.get] of [validate_response] raises [AttributeError] out of
    [process_query]. *)
Theorem non_mapping_reply_raises json_loads call_llm rules schema timestamp user_input
        prompt reply llm_data :
  generate_prompt rules schema user_input = Ok prompt ->
  call_llm prompt = Some reply ->
  reply <> EmptyString ->
  parse_llm_response json_loads reply = Ok llm_data ->
  truthy llm_data = true ->
  is_mapping llm_data = false ->
  process_query json_loads call_llm rules schema timestamp user_input
  = Exc (no_attribute llm_data "get").
Proof.
  intros Hg Hc Hne Hp Ht Hm.
  unfold process_query. rewrite Hg. cbn [res_bind]. rewrite Hc.
  rewrite (string_eqb_neq _ _ Hne). rewrite Hp. cbn [res_bind]. rewrite Ht. cbn [negb].
  rewrite (validate_non_mapping _ Hm). reflexivity.
Qed.

Lemma non_mapping_reply_raises_witness :
  process_query (fun s => if String.eqb s "[1, 2]" then Ok (JArr [JInt 1; JInt 2])
                          else Exc (PyExc "JSONDecodeError" "Expecting value"))
                (fun _ => Some "[1, 2]") EmptyString (JObj []) "2024-12-31T00:00:00" "CET1?"
  = Exc (PyExc "AttributeError" "'list' object has no attribute 'get'").
Proof.
  apply (non_mapping_reply_raises _ _ EmptyString (JObj []) "2024-12-31T00:00:00" "CET1?"
           (prompt_text engine_prompt_tail EmptyString "{}" "CET1?") "[1, 2]"
           (JArr [JInt 1; JInt 2]));
    [reflexivity|reflexivity|discriminate|vm_compute; reflexivity|reflexivity|reflexivity].
Defined.

(** The Generate button of src/app.py (lines 178-182, with [process_report],
    lines 188-244): the query history grows by at most one entry per click,
    and it grows exactly when the success message is shown; the new entry
    carries the click's time and shortened query, and the stored result is
    the one [process_query] returned. *)
Theorem history_grows_only_on_success engine_created query now user_input st :
  let r := generate_button engine_created query now user_input st in
  (s_history (fst r) = s_history st /\ forall m, snd r <> [NSuccess m])
  \/ (exists e result,
        query user_input = Ok result
        /\ s_history (fst r) = (s_history st ++ [e])%list
        /\ s_results (fst r) = result
        /\ h_timestamp e = now /\ h_query e = history_query user_input
        /\ snd r = [NSuccess "Report generated successfully!"]).
Proof.
  cbv zeta. unfold generate_button.
  destruct (negb _); [|left; split; [reflexivity|intros m H; discriminate H]].
  unfold process_report.
  set (st1 := if s_engine st then st else set_engine engine_created st).
  assert (H1 : s_history st1 = s_history st) by (unfold st1; destruct (s_engine st); reflexivity).
  destruct (negb (s_engine st1)); [left; split; [exact H1|intros m H; discriminate H]|].
  destruct (query user_input) as [result|e] eqn:Hq;
    [|left; split; [exact H1|intros m H; discriminate H]].
  destruct (dict_get result "error" JNull) as [err|e];
    [|left; split; [exact H1|intros m H; discriminate H]].
  destruct (truthy err).
  { left. destruct (py_getitem result "error"); (split; [exact H1|intros m H; discriminate H]). }
  destruct (res_bind _ _) as [ok|e].
  - right. eexists; exists result. cbn. rewrite H1.
    repeat split; reflexivity.
  - left. split; [exact H1|intros m H; discriminate H].
Qed.

(** [process_report] (src/app.py, lines 188-244) on the result of
    [process_query] (src/corep_engine.py, lines 37-65): when the engine
    exists or can be created, the scenario is not blank and the reply parses
    to a populated template, the click stores the full result (template,
    validation, timestamp, query), shows the success message, and appends
    one history entry whose status is the check mark exactly when the
    validator reported no error. *)
Theorem history_status_follows_verdict json_loads call_llm rules schema timestamp
        engine_created now user_input st prompt reply llm_data kvs :
  strip (list_ascii_of_string user_input) <> [] ->
  (s_engine st || engine_created)%bool = true ->
  generate_prompt rules schema user_input = Ok prompt ->
  call_llm prompt = Some reply ->
  reply <> EmptyString ->
  parse_llm_response json_loads reply = Ok llm_data ->
  populated llm_data kvs ->
  exists v,
    COREPEngine.validate_response llm_data = Returned v
    /\ generate_button engine_created
         (process_query json_loads call_llm rules schema timestamp) now user_input st
       = (mk_session true
            (JObj [("success", JBool true); ("template_data", llm_data);
                   ("validation", verdict_json v); ("timestamp", JStr timestamp);
                   ("user_query", JStr user_input)])
            (s_history st
             ++ [mk_entry now (history_query user_input)
                          (match errors v with [] => StatusValid | _ => StatusFlagged end)])%list,
          [NSuccess "Report generated successfully!"]).
Proof.
  intros Hs He Hg Hc Hne Hp Hpop.
  destruct (COREPEngine.validate_response llm_data) as [v|e] eqn:Hv;
    [|rewrite (validate_populated _ _ Hpop) in Hv; discriminate Hv].
  exists v. split; [reflexivity|].
  unfold generate_button.
  destruct (strip (list_ascii_of_string user_input)) eqn:Hstrip; [contradiction|].
  cbn [length Nat.eqb negb].
  unfold process_report.
  unfold process_query. rewrite Hg. cbn [res_bind]. rewrite Hc.
  rewrite (string_eqb_neq _ _ Hne), Hp. cbn [res_bind]. rewrite (populated_truthy _ _ Hpop).
  cbn [negb]. rewrite Hv.
  pose proof (engine_returned_is_valid _ _ Hv) as Hiv.
  destruct st as [eng res0 hist]; cbn in He |- *.
  destruct eng; cbn in He |- *; [|subst engine_created; cbn];
    rewrite Hiv; destruct (errors v); reflexivity.
Qed.

Lemma history_status_follows_verdict_witness :
  exists v,
    COREPEngine.validate_response (sample "150" "75" "300" "0" "45" "480") = Returned v
    /\ generate_button true
         (process_query (fun _ => Ok (sample "150" "75" "300" "0" "45" "480"))
                        (fun _ => Some "{}") EmptyString (JObj []) "2024-12-31T09:00:00")
         "09:00:00" "Bank has 150 shares" (mk_session false JNull [])
       = (mk_session true
            (JObj [("success", JBool true);
                   ("template_data", sample "150" "75" "300" "0" "45" "480");
                   ("validation", verdict_json v); ("timestamp", JStr "2024-12-31T09:00:00");
                   ("user_query", JStr "Bank has 150 shares")])
            ([] ++ [mk_entry "09:00:00" (history_query "Bank has 150 shares")
                             (match errors v with [] => StatusValid | _ => StatusFlagged end)])%list,
          [NSuccess "Report generated successfully!"]).
Proof.
  apply (history_status_follows_verdict _ _ EmptyString (JObj []) "2024-12-31T09:00:00" true
           "09:00:00" "Bank has 150 shares" (mk_session false JNull [])
           (prompt_text engine_prompt_tail EmptyString "{}" "Bank has 150 shares") "{}"
           (sample "150" "75" "300" "0" "45" "480") (sample_data "150" "75" "300" "0" "45" "480")).
  - vm_compute. discriminate.
  - reflexivity.
  - reflexivity.
  - reflexivity.
  - discriminate.
  - vm_compute. reflexivity.
  - eexists. split; [reflexivity|]. split; [reflexivity|vm_compute; reflexivity].
Defined.

Lemma assoc_forallb (P : string * json -> bool) k kvs v :
  forallb P kvs = true -> assoc k kvs = Some v -> exists k', P (k', v) = true.
Proof.
  induction kvs as [|[k0 v0] r IH]; cbn; intros Hall Ha; [discriminate|].
  apply andb_true_iff in Hall as [H1 H2].
  destruct (String.eqb k k0); [injection Ha as <-; exists k0; exact H1|auto].
Qed.

Lemma template_rows_objs kvs codes :
  forallb (fun kv => is_mapping (snd kv)) kvs = true ->
  exists rows, template_rows (JObj kvs) codes = Ok rows
               /\ map row_code rows = filter (fun c => has_key c kvs) codes.
Proof.
  intros Hall. induction codes as [|code r IH]; cbn; [exists []; split; reflexivity|].
  unfold has_key at 1. destruct (assoc code kvs) as [f|] eqn:Ha; cbn; [|exact IH].
  destruct (assoc_forallb _ _ _ _ Hall Ha) as [k' Hf]. cbn in Hf.
  destruct f as [| | | | |fs]; try discriminate Hf.
  destruct IH as [rows [Hr Hc]].
  cbn. rewrite Hr. cbn. eexists. split; [reflexivity|]. cbn. rewrite Hc. reflexivity.
Qed.

Lemma assistant_returned_is_valid llm_data v :
  COREPAssistant.validate_response llm_data = Returned v ->
  is_valid v = Nat.eqb (length (errors v)) 0.
Proof.
  unfold COREPAssistant.validate_response.
  destruct (COREPAssistant.validate_body llm_data ([], [])) as [[u|e] [es ws]]; intros H;
    inversion H; reflexivity.
Qed.

(** [display_template] (src/app.py, lines 287-341): on a template whose
    ["data"] entry maps field codes to mappings, and whose ["calculations"]
    entry, if any, is a mapping, building the rows (lines 293-318) and
    reading the calculations (lines 338-341) raise nothing, and the table
    has one row per code among 010, 020, 030, 040, 070 and 100 present in
    the data, in that order (the loop of line 297); any other field code is
    not shown.  The Streamlit calls that render the rows are not modelled. *)
Theorem display_template_rows meta kvs :
  forallb (fun kv => is_mapping (snd kv)) kvs = true ->
  match assoc "calculations" meta with Some c => is_mapping c | None => true end = true ->
  exists rows calcs,
    display_template (with_data meta kvs) = Ok (rows, calcs)
    /\ map row_code rows = filter (fun c => has_key c kvs) display_codes.
Proof.
  intros Hall Hcalc. destruct (template_rows_objs kvs display_codes Hall) as [rows [Hr Hc]].
  unfold display_template, with_data.
  change (dict_get (JObj (("data", JObj kvs) :: meta)) "data" (JObj []))
    with (Ok (A := json) (JObj kvs)).
  cbn [res_bind]. rewrite Hr. cbn [res_bind py_contains assoc py_getitem].
  replace (String.eqb "calculations" "data") with false by reflexivity.
  destruct (assoc "calculations" meta) as [c|]; cbn.
  - destruct c as [| | | | |ckvs]; try discriminate Hcalc. cbn.
    exists rows, (map snd ckvs). split; [reflexivity|exact Hc].
  - exists rows, []. split; [reflexivity|exact Hc].
Qed.

Lemma display_template_rows_witness :
  exists rows calcs,
    display_template (with_data [("template", JStr "C 01.00")]
                                (("050", field (JStr "7") "Other reserves")
                                   :: sample_data "150" "75" "300" "0" "45" "480"))
    = Ok (rows, calcs)
    /\ map row_code rows
       = filter (fun c => has_key c (("050", field (JStr "7") "Other reserves")
                                       :: sample_data "150" "75" "300" "0" "45" "480"))
                display_codes.
Proof.
  apply display_template_rows; reflexivity.
Defined.

(** The amount columns of [display_template] (src/app.py, lines 299-318) and
    of [COREPAssistant.display_corep_template] (src/main.py, lines 215-230):
    for a field flagged [is_deduction], the amount is shown as the absolute
    value in parentheses, so a deduction of [z] and one of [-z] give the same
    row, although the validator subtracts them with opposite signs.  The
    values are strings [int()] accepts, so they have at most 4300 digits and
    [format] does not raise on them. *)
Theorem deduction_sign_not_shown code description s s' z rest :
  py_int_parse s = Some z ->
  py_int_parse s' = Some (- z) ->
  truthy (match assoc "is_deduction" rest with Some d => d | None => JBool false end) = true ->
  (exists r, template_row code (JObj (("value", JStr s) :: rest)) = Ok r
             /\ template_row code (JObj (("value", JStr s') :: rest)) = Ok r
             /\ row_amount r = JStr (pound ++ "(" ++ fmt_grouped (Z.abs z) ++ ")")
             /\ row_type r = "Deduction")
  /\ corep_row_line code description (JObj (("value", JStr s) :: rest))
     = Ok (ljust code 6 ++ " " ++ ljust description 35 ++ " "
           ++ rjust ("(" ++ fmt_grouped (Z.abs z) ++ ")") 20)
  /\ corep_row_line code description (JObj (("value", JStr s') :: rest))
     = Ok (ljust code 6 ++ " " ++ ljust description 35 ++ " "
           ++ rjust ("(" ++ fmt_grouped (Z.abs z) ++ ")") 20).
Proof.
  intros Hs Hs' Hd.
  pose proof (parse_nonempty _ _ Hs) as Ts. pose proof (parse_nonempty _ _ Hs') as Ts'.
  unfold template_row, corep_row_line, template_amount. cbn [dict_get assoc String.eqb Ascii.eqb Bool.eqb].
  cbn [res_bind]. rewrite Ts, Ts'. cbn [py_int]. rewrite Hs, Hs'. cbn [res_bind].
  rewrite Hd, Z.abs_opp.
  rewrite (format_within (Z.abs z)) by (rewrite within_abs; exact (parse_within_limit _ _ Hs)).
  cbn [res_bind].
  split; [eexists; split; [reflexivity|split; [reflexivity|split; reflexivity]]|].
  split; reflexivity.
Qed.

Lemma deduction_sign_not_shown_witness :
  (exists r,
     template_row "070" (JObj [("value", JStr "45"); ("description", JStr "Intangible assets");
                               ("is_deduction", JBool true)]) = Ok r
     /\ template_row "070" (JObj [("value", JStr "-45"); ("description", JStr "Intangible assets");
                                  ("is_deduction", JBool true)]) = Ok r
     /\ row_amount r = JStr (pound ++ "(" ++ fmt_grouped (Z.abs 45) ++ ")")
     /\ row_type r = "Deduction")
  /\ corep_row_line "070" "(-) Intangible assets"
       (JObj [("value", JStr "45"); ("description", JStr "Intangible assets");
              ("is_deduction", JBool true)])
     = Ok (ljust "070" 6 ++ " " ++ ljust "(-) Intangible assets" 35 ++ " "
           ++ rjust ("(" ++ fmt_grouped (Z.abs 45) ++ ")") 20)
  /\ corep_row_line "070" "(-) Intangible assets"
       (JObj [("value", JStr "-45"); ("description", JStr "Intangible assets");
              ("is_deduction", JBool true)])
     = Ok (ljust "070" 6 ++ " " ++ ljust "(-) Intangible assets" 35 ++ " "
           ++ rjust ("(" ++ fmt_grouped (Z.abs 45) ++ ")") 20).
Proof.
  apply (deduction_sign_not_shown "070" "(-) Intangible assets" "45" "-45" 45
           [("description", JStr "Intangible assets"); ("is_deduction", JBool true)]);
    vm_compute; reflexivity.
Defined.

(** A field whose value is a non-empty list or mapping: [int(value)] raises
    [TypeError] in both displays.  The bare [except:] of [display_template]
    (src/app.py, lines 304-311) catches it and shows the raw value in the
    Amount column (line 316), while the [except ValueError:] of
    [display_corep_template] (src/main.py, lines 218-230) does not, so the
    [TypeError] escapes. *)
Theorem container_value_display_divergence code description v rest :
  scalar v = false ->
  truthy v = true ->
  (exists r, template_row code (JObj (("value", v) :: rest)) = Ok r /\ row_amount r = v)
  /\ corep_row_line code description (JObj (("value", v) :: rest))
     = Exc (PyExc "TypeError"
              ("int() argument must be a string, a bytes-like object or a real number, not "
               ++ squote ++ type_name v ++ squote)).
Proof.
  intros Hs Ht.
  unfold template_row, corep_row_line, template_amount. cbn [dict_get assoc String.eqb Ascii.eqb Bool.eqb].
  cbn [res_bind]. rewrite Ht.
  destruct v as [| | | |l|kvs]; try discriminate Hs; cbn [py_int type_name];
    (split; [eexists; split; reflexivity|reflexivity]).
Qed.

Lemma container_value_display_divergence_witness :
  (exists r, template_row "010" (JObj [("value", JArr [JStr "150"]);
                                       ("description", JStr "Ordinary share capital")]) = Ok r
             /\ row_amount r = JArr [JStr "150"])
  /\ corep_row_line "010" "Ordinary share capital"
       (JObj [("value", JArr [JStr "150"]); ("description", JStr "Ordinary share capital")])
     = Exc (PyExc "TypeError"
              ("int() argument must be a string, a bytes-like object or a real number, not "
               ++ squote ++ "list" ++ squote)).
Proof.
  apply (container_value_display_divergence "010" "Ordinary share capital" (JArr [JStr "150"])
           [("description", JStr "Ordinary share capital")]); reflexivity.
Defined.

(** [COREPAssistant.save_report] (src/main.py, lines 294-319) on the
    verdict of [validate_response] (lines 130-190): the report keeps the
    template and the verdict unchanged, counts the fields of ["data"], and
    its summary flags errors exactly when the verdict is not valid and
    warnings exactly when there is one. *)
Theorem report_summary_matches_verdict generated_at llm_data kvs v :
  dict_get llm_data "data" (JObj []) = Ok (JObj kvs) ->
  COREPAssistant.validate_response llm_data = Returned v ->
  exists report,
    save_report_contents generated_at llm_data (verdict_json v) = Ok report
    /\ py_getitem report "report_data" = Ok llm_data
    /\ py_getitem report "validation_results" = Ok (verdict_json v)
    /\ py_getitem report "summary"
       = Ok (JObj [("fields_populated", JInt (Z.of_nat (length kvs)));
                   ("has_errors", JBool (negb (is_valid v)));
                   ("has_warnings", JBool (negb (Nat.eqb (length (warnings v)) 0)))]).
Proof.
  intros Hd Hv. pose proof (assistant_returned_is_valid _ _ Hv) as Hiv.
  destruct llm_data as [| | | | |top]; try discriminate Hd.
  cbn [dict_get] in Hd. injection Hd as Hd.
  unfold save_report_contents. cbn [dict_get res_bind]. rewrite Hd.
  cbn [py_len res_bind verdict_json py_getitem assoc String.eqb Ascii.eqb Bool.eqb].
  rewrite !length_map. rewrite Hiv.
  eexists. split; [reflexivity|]. cbn.
  split; [reflexivity|]. split; [reflexivity|].
  destruct (errors v), (warnings v); reflexivity.
Qed.

Lemma report_summary_matches_verdict_witness :
  exists report,
    save_report_contents "2024-12-31T09:00:00" (sample "150" "75" "300" "0" "45" "480")
      (verdict_json (mk_verdict [] [] true)) = Ok report
    /\ py_getitem report "report_data" = Ok (sample "150" "75" "300" "0" "45" "480")
    /\ py_getitem report "validation_results" = Ok (verdict_json (mk_verdict [] [] true))
    /\ py_getitem report "summary"
       = Ok (JObj [("fields_populated",
                    JInt (Z.of_nat (length (sample_data "150" "75" "300" "0" "45" "480"))));
                   ("has_errors", JBool (negb (is_valid (mk_verdict [] [] true))));
                   ("has_warnings",
                    JBool (negb (Nat.eqb (length (warnings (mk_verdict [] [] true))) 0)))]).
Proof.
  apply report_summary_matches_verdict; vm_compute; reflexivity.
Defined.

Lemma split_on_nochar c a : has_char c a = false -> split_on c a = [a].
Proof.
  induction a as [|x a IH]; [reflexivity|].
  rewrite has_char_cons. intros H. apply orb_false_iff in H as [H1 H2].
  cbn. rewrite Ascii.eqb_sym, H1, IH by exact H2. reflexivity.
Qed.

Lemma split_on_sep c a r :
  has_char c a = false -> split_on c (a ++ String c r) = a :: split_on c r.
Proof.
  induction a as [|x a IH]; intros H.
  - cbn. rewrite Ascii.eqb_refl. reflexivity.
  - rewrite has_char_cons in H. apply orb_false_iff in H as [H1 H2].
    cbn. rewrite Ascii.eqb_sym, H1, IH by exact H2. reflexivity.
Qed.

Lemma split_join ls :
  ls <> [] -> forallb (fun l => negb (has_char newline l)) ls = true ->
  split_on newline (join_lines ls) = ls.
Proof.
  induction ls as [|a ls IH]; intros Hne H; [contradiction|].
  cbn [forallb] in H. apply andb_true_iff in H as [H1 H2]. apply negb_true_iff in H1.
  destruct ls as [|b l].
  - apply split_on_nochar. exact H1.
  - change (join_lines (a :: b :: l)) with (a ++ String newline (join_lines (b :: l)))%string.
    rewrite split_on_sep by exact H1. rewrite IH by (discriminate || exact H2). reflexivity.
Qed.

Lemma substring_full t : substring 0 (String.length t) t = t.
Proof.
  induction t as [|x t IH]; [reflexivity|]. cbn. rewrite IH. reflexivity.
Qed.

Lemma rules_header_step cur content shown t :
  rules_step (cur, content, shown) ("## " ++ t)
  = (str_strip t, [], flush_section cur content shown).
Proof.
  unfold rules_step.
  replace (String.prefix "## " ("## " ++ t)) with true by (destruct t; reflexivity).
  cbn. rewrite Nat.sub_0_r, substring_full. reflexivity.
Qed.

Lemma rules_subheading_step cur content shown h :
  rules_step (cur, content, shown) ("### " ++ h)
  = (cur, if Nat.eqb (length content) 0 then content
          else (content ++ [("**" ++ h ++ "**")%string])%list, shown).
Proof.
  unfold rules_step.
  replace (String.prefix "## " ("### " ++ h)) with false by reflexivity.
  replace (String.prefix "### " ("### " ++ h)) with true by (destruct h; reflexivity).
  cbn. rewrite Nat.sub_0_r, substring_full.
  destruct (Nat.eqb (length content) 0); reflexivity.
Qed.

Lemma rules_plain_step cur content shown l :
  body_line l = true -> rules_step (cur, content, shown) l = (cur, (content ++ [l])%list, shown).
Proof.
  unfold body_line, rules_step. intros H.
  apply andb_true_iff in H as [H H3]. apply andb_true_iff in H as [_ H2].
  apply negb_true_iff in H2, H3. rewrite H2, H3. reflexivity.
Qed.

Lemma fold_body b cur content shown :
  forallb body_line b = true ->
  fold_left rules_step b (cur, content, shown) = (cur, (content ++ b)%list, shown).
Proof.
  revert content. induction b as [|l b IH]; intros content H; cbn [fold_left].
  - rewrite app_nil_r. reflexivity.
  - cbn [forallb] in H. apply andb_true_iff in H as [H1 H2].
    rewrite rules_plain_step by exact H1. rewrite IH by exact H2.
    rewrite <- app_assoc. reflexivity.
Qed.

Lemma fold_preamble pre cur content shown :
  forallb (fun l => negb (String.prefix "## " l)) pre = true ->
  exists content', fold_left rules_step pre (cur, content, shown) = (cur, content', shown).
Proof.
  revert content. induction pre as [|l pre IH]; intros content H; cbn [fold_left].
  - exists content. reflexivity.
  - cbn [forallb] in H. apply andb_true_iff in H as [H1 H2]. apply negb_true_iff in H1.
    unfold rules_step at 2. rewrite H1.
    destruct (String.prefix "### " l); [destruct (negb _)|]; apply IH; exact H2.
Qed.

Lemma flush_section_app cur content shown :
  flush_section cur content shown = (shown ++ flush_section cur content [])%list.
Proof.
  unfold flush_section. destruct (_ && _)%bool; [reflexivity|rewrite app_nil_r; reflexivity].
Qed.

Lemma fold_sections secs cur content shown :
  forallb (fun sec => forallb body_line (snd sec)) secs = true ->
  final_flush (fold_left rules_step (flat_map section_lines secs) (cur, content, shown))
  = (flush_section cur content shown
     ++ flat_map (fun sec => flush_section (str_strip (fst sec)) (snd sec) []) secs)%list.
Proof.
  revert cur content shown. induction secs as [|[t b] secs IH]; intros cur content shown H.
  - cbn. rewrite app_nil_r. reflexivity.
  - cbn [forallb fst snd] in H. apply andb_true_iff in H as [H1 H2].
    cbn [flat_map section_lines fst snd fold_left app].
    rewrite rules_header_step, fold_left_app, fold_body by exact H1.
    rewrite IH by exact H2. cbn [app fst snd flat_map].
    rewrite (flush_section_app (str_strip t) b). rewrite app_assoc. reflexivity.
Qed.

(** [show_rules] (src/app.py, lines 496-533): on a rules file made of a
    preamble without ["## "] headings followed by sections, each a ["## "]
    heading and body lines that are not headings, the page shows one
    expander per section, titled by the heading with surrounding white space
    stripped and showing the section's body lines joined by newlines, in file
    order; the preamble is never shown, and a section whose stripped title is
    empty or whose body is empty is not shown (its lines are lost, not
    attached to the previous section). *)
Theorem rules_sections_shown pre secs :
  forallb (fun l => negb (has_char newline l) && negb (String.prefix "## " l))%bool pre = true ->
  forallb (fun sec => negb (has_char newline (fst sec)) && forallb body_line (snd sec))%bool secs
  = true ->
  rules_sections (join_lines (pre ++ flat_map section_lines secs))
  = flat_map (fun sec => flush_section (str_strip (fst sec)) (snd sec) []) secs.
Proof.
  intros Hpre Hsecs.
  assert (Hnl : forallb (fun l => negb (has_char newline l)) (pre ++ flat_map section_lines secs)
                = true).
  { rewrite forallb_app. apply andb_true_iff. split.
    - rewrite forallb_forall in Hpre |- *. intros l Hl.
      pose proof (Hpre l Hl) as Hx; apply andb_true_iff in Hx as [H _]. exact H.
    - rewrite forallb_forall in Hsecs |- *. intros l Hl.
      apply in_flat_map in Hl as [[t b] [Hs Hl]].
      pose proof (Hsecs _ Hs) as Hx; apply andb_true_iff in Hx as [Ht Hb]. cbn [fst snd] in Ht, Hb.
      destruct Hl as [<-|Hl].
      + rewrite has_char_app. exact Ht.
      + rewrite forallb_forall in Hb. specialize (Hb l Hl).
        unfold body_line in Hb. apply andb_true_iff in Hb as [Hb _].
        apply andb_true_iff in Hb as [Hb _]. exact Hb. }
  assert (Hpre' : forallb (fun l => negb (String.prefix "## " l)) pre = true).
  { rewrite forallb_forall in Hpre |- *. intros l Hl.
    pose proof (Hpre l Hl) as Hx; apply andb_true_iff in Hx as [_ H]. exact H. }
  assert (Hbody : forallb (fun sec => forallb body_line (snd sec)) secs = true).
  { rewrite forallb_forall in Hsecs |- *. intros s Hs.
    pose proof (Hsecs s Hs) as Hx; apply andb_true_iff in Hx as [_ H]. exact H. }
  destruct (pre ++ flat_map section_lines secs)%list eqn:E.
  - apply app_eq_nil in E as [_ E]. destruct secs as [|[t b] secs]; [|discriminate E].
    reflexivity.
  - rewrite <- E. rewrite <- E in Hnl.
    unfold rules_sections. rewrite split_join; [|rewrite E; discriminate|exact Hnl].
    change (final_flush (fold_left rules_step (pre ++ flat_map section_lines secs)
                                   (EmptyString, [], [])) = 
            flat_map (fun sec => flush_section (str_strip (fst sec)) (snd sec) []) secs).
    rewrite fold_left_app.
    destruct (fold_preamble pre EmptyString [] [] Hpre') as [content' ->].
    rewrite fold_sections by exact Hbody. reflexivity.
Qed.

Lemma rules_sections_shown_witness :
  rules_sections
    (join_lines (["# CRR own funds rules"; EmptyString]
                 ++ flat_map section_lines
                      [(" Article 26 CET1 items ", ["Capital instruments"; "- share premium"]);
                       ("  ", ["This section has no title"]);
                       ("Article 36", [])]))
  = flat_map (fun sec => flush_section (str_strip (fst sec)) (snd sec) [])
      [(" Article 26 CET1 items ", ["Capital instruments"; "- share premium"]);
       ("  ", ["This section has no title"]);
       ("Article 36", [])].
Proof.
  apply rules_sections_shown; vm_compute; reflexivity.
Defined.

Lemma rules_item_step cur content shown x :
  item_ok x = true ->
  rules_step (cur, content, shown) (line_text x)
  = (cur, match x, content with
          | inr _, [] => content
          | _, _ => (content ++ [md_line x])%list
          end, shown).
Proof.
  destruct x as [l|h]; intros H.
  - rewrite (rules_plain_step _ _ _ _ H). destruct content; reflexivity.
  - cbn [line_text]. rewrite rules_subheading_step. destruct content; reflexivity.
Qed.

Lemma fold_items xs cur content shown :
  forallb item_ok xs = true ->
  fold_left rules_step (map line_text xs) (cur, content, shown)
  = (cur, (content ++ map md_line (match content with [] => drop_subheadings xs | _ => xs end))%list,
     shown).
Proof.
  revert content. induction xs as [|x r IH]; intros content H.
  - destruct content; cbn; rewrite ?app_nil_r; reflexivity.
  - cbn [forallb] in H. apply andb_true_iff in H as [H1 H2].
    cbn [map fold_left]. rewrite (rules_item_step _ _ _ _ H1).
    destruct x as [l|h], content as [|a content]; cbn [drop_subheadings]; rewrite IH by exact H2.
    + reflexivity.
    + destruct (_ ++ _)%list eqn:E; [destruct content; discriminate|].
      rewrite <- E, <- app_assoc. reflexivity.
    + reflexivity.
    + destruct (_ ++ _)%list eqn:E; [destruct content; discriminate|].
      rewrite <- E, <- app_assoc. reflexivity.
Qed.

(** [show_rules] (src/app.py, lines 505-533) on one section: a ["## "]
    heading followed by body lines and ["### "] subheadings, in any order.
    Every subheading that comes after a body line of the section becomes
    the bold line ["**<h>**"] at its place; the subheadings that come
    before the section's first body line are dropped.  The section is shown
    as one expander when its stripped title and the resulting content are
    non-empty, and not at all otherwise. *)
Theorem rules_subheading_position t xs :
  has_char newline t = false ->
  forallb item_ok xs = true ->
  rules_sections (join_lines (("## " ++ t) :: map line_text xs))
  = flush_section (str_strip t) (map md_line (drop_subheadings xs)) [].
Proof.
  intros Ht Hxs.
  assert (Hnl : forallb (fun l => negb (has_char newline l)) (("## " ++ t) :: map line_text xs)
                = true).
  { cbn [forallb]. rewrite has_char_app, Ht. cbn. rewrite forallb_forall in Hxs |- *.
    intros l Hl. apply in_map_iff in Hl as ([l'|h] & <- & Hin); specialize (Hxs _ Hin).
    - unfold item_ok, body_line in Hxs. apply andb_true_iff in Hxs as [Hxs _].
      apply andb_true_iff in Hxs as [Hxs _]. exact Hxs.
    - cbn [line_text]. rewrite has_char_app. exact Hxs. }
  unfold rules_sections. rewrite split_join by (discriminate || exact Hnl).
  cbn [fold_left]. rewrite rules_header_step. unfold flush_section at 2. cbn.
  rewrite fold_items by exact Hxs. reflexivity.
Qed.

Lemma rules_subheading_position_witness :
  rules_sections
    (join_lines (("## " ++ " Article 26 ")
                 :: map line_text [inr "Scope"; inl "Paid up"; inr "Conditions"; inl "Perpetual";
                                   inr "End"]))
  = flush_section (str_strip " Article 26 ")
      (map md_line (drop_subheadings [inr "Scope"; inl "Paid up"; inr "Conditions";
                                      inl "Perpetual"; inr "End"])) [].
Proof.
  apply rules_subheading_position; reflexivity.
Defined.

(** [COREPAssistant.generate_corep_prompt] (src/main.py, lines 45-94) and
    [COREPEngine.generate_prompt] (src/corep_engine.py, lines 67-121) on a
    schema mapping without a ["sections"] key: the command-line assistant
    raises [KeyError: 'sections'] while the engine falls back to an empty
    schema ["{}"] in its prompt. *)
Theorem missing_sections_prompt_divergence rules schema_kvs user_scenario :
  assoc "sections" schema_kvs = None ->
  generate_corep_prompt rules (JObj schema_kvs) user_scenario
  = Exc (PyExc "KeyError" (repr_str "sections"))
  /\ generate_prompt rules (JObj schema_kvs) user_scenario
     = Ok (prompt_text engine_prompt_tail rules "{}" user_scenario).
Proof.
  intros H. unfold generate_corep_prompt, generate_prompt. cbn [py_getitem py_contains].
  rewrite H. split; reflexivity.
Qed.

Lemma missing_sections_prompt_divergence_witness :
  generate_corep_prompt "CRR Article 26" (JObj [("template", JStr "C 01.00")]) "Bank has 150M"
  = Exc (PyExc "KeyError" (repr_str "sections"))
  /\ generate_prompt "CRR Article 26" (JObj [("template", JStr "C 01.00")]) "Bank has 150M"
     = Ok (prompt_text engine_prompt_tail "CRR Article 26" "{}" "Bank has 150M").
Proof.
  apply missing_sections_prompt_divergence. reflexivity.
Defined.

Lemma for_each_ok {A} (l : list A) (body : A -> M unit) :
  (forall x s, In x l -> fst (body x s) = Ok tt) -> forall s, fst (for_each l body s) = Ok tt.
Proof.
  induction l as [|x r IH]; intros Hb s; [reflexivity|].
  cbn [for_each]. unfold bind.
  pose proof (Hb x s (or_introl eq_refl)) as Hx.
  destruct (body x s) as [[u|e] s']; cbn in Hx; [|discriminate Hx].
  apply IH. intros y t Hy. apply Hb. right. exact Hy.
Qed.

Lemma bind_ok_fst {A B} (m : M A) (k : A -> M B) s a s' :
  m s = (Ok a, s') -> (bind m k) s = k a s'.
Proof. unfold bind. intros ->. reflexivity. Qed.

Lemma fst_ok_eq {A} (m : M A) s a : fst (m s) = Ok a -> m s = (Ok a, snd (m s)).
Proof. destruct (m s) as [r s']. cbn. intros ->. reflexivity. Qed.

Lemma py_getitem_obj kvs k v : assoc k kvs = Some v -> py_getitem (JObj kvs) k = Ok v.
Proof. intros H. unfold py_getitem. rewrite H. reflexivity. Qed.

Section MappingFields.

Variables (meta kvs : list (string * json)).
Hypothesis Hmap : forallb (fun kv => is_mapping (snd kv)) kvs = true.

Lemma check_required_mapping c s :
  fst (COREPEngine.check_required (with_data meta kvs) c s) = Ok tt.
Proof.
  destruct s as [es ws].
  assert (Hd1 : dict_get (with_data meta kvs) "data" (JObj []) = Ok (JObj kvs)) by reflexivity.
  assert (Hd2 : py_getitem (with_data meta kvs) "data" = Ok (JObj kvs)) by reflexivity.
  unfold COREPEngine.check_required, bind, lift. rewrite Hd1.
  unfold py_contains. cbv beta iota.
  destruct (assoc c kvs) as [f|] eqn:Hc; [|reflexivity].
  cbv beta iota. cbn [negb]. rewrite Hd2, (py_getitem_obj _ _ _ Hc).
  destruct (assoc_forallb _ _ _ _ Hmap Hc) as [k' Hf]. cbn in Hf.
  destruct f; try discriminate Hf. cbn [dict_get].
  destruct (truthy _); reflexivity.
Qed.

Lemma check_type_mapping kv s :
  In kv kvs -> fst (COREPEngine.check_type kv s) = Ok tt.
Proof.
  intros Hin. assert (Hf : is_mapping (snd kv) = true)
    by (rewrite forallb_forall in Hmap; exact (Hmap kv Hin)).
  destruct kv as [c f]. cbn in Hf. destruct f; try discriminate Hf.
  unfold COREPEngine.check_type, bind, lift. cbn [dict_get].
  destruct (_ && _)%bool; reflexivity.
Qed.

(** Passes 1 and 2 never raise when every field is a mapping. *)
Lemma validate_body_mapping s :
  COREPEngine.validate_body (with_data meta kvs) s
  = (let s1 := snd (for_each required_fields
                      (COREPEngine.check_required (with_data meta kvs)) s) in
     let s2 := snd (for_each kvs COREPEngine.check_type s1) in
     try_value_error (COREPEngine.check_calculation (with_data meta kvs))
                     (fun e => append_warning (calc_error_msg e)) s2).
Proof.
  unfold COREPEngine.validate_body.
  rewrite (bind_ok_fst _ _ _ tt _
             (fst_ok_eq _ _ _ (for_each_ok _ _ (fun x s0 _ => check_required_mapping x s0) s))).
  assert (Hd1 : dict_get (with_data meta kvs) "data" (JObj []) = Ok (JObj kvs)) by reflexivity.
  cbn zeta. unfold bind at 1, lift at 1. rewrite Hd1.
  unfold bind at 1, lift at 1. unfold dict_items. cbv beta iota.
  set (s1 := snd (for_each required_fields (COREPEngine.check_required (with_data meta kvs)) s)).
  rewrite (bind_ok_fst _ _ _ tt _
             (fst_ok_eq _ _ _ (for_each_ok _ _ (fun x s0 H => check_type_mapping x s0 H) s1))).
  reflexivity.
Qed.

End MappingFields.

Lemma sum_values_type_error kvs fs v s :
  assoc "010" kvs = Some (JObj fs) -> assoc "value" fs = Some v ->
  scalar v = false -> truthy v = true ->
  COREPEngine.sum_values (JObj kvs) component_codes 0 s = (Exc (int_type_error v), s).
Proof.
  intros H010 Hv Hs Ht.
  unfold component_codes. cbn [COREPEngine.sum_values].
  unfold bind at 1, lift at 1. unfold py_contains. cbv beta iota. rewrite H010. cbv beta iota.
  unfold bind at 1, lift at 1. rewrite (py_getitem_obj _ _ _ H010).
  unfold bind at 1, lift at 1. unfold dict_get. cbv beta iota. rewrite Hv. rewrite Ht.
  unfold bind at 1, lift at 1.
  destruct v; try discriminate Hs; reflexivity.
Qed.

(** [validate_response] (src/corep_engine.py, lines 154-213, and src/main.py,
    lines 130-190): when every field of ["data"] is a mapping and field 010
    holds a non-empty list or mapping as its value, the [int()] of the
    reconciliation raises [TypeError], which the [except ValueError] handler
    does not catch: both validators raise instead of returning a verdict. *)
Theorem container_value_escapes_handler meta kvs fs v :
  forallb (fun kv => is_mapping (snd kv)) kvs = true ->
  assoc "010" kvs = Some (JObj fs) ->
  assoc "value" fs = Some v ->
  scalar v = false ->
  truthy v = true ->
  COREPEngine.validate_response (with_data meta kvs) = Raised (int_type_error v)
  /\ COREPAssistant.validate_response (with_data meta kvs) = Raised (int_type_error v).
Proof.
  intros Hmap H010 Hv Hs Ht.
  assert (He : COREPEngine.validate_response (with_data meta kvs) = Raised (int_type_error v)).
  { unfold COREPEngine.validate_response. rewrite (validate_body_mapping meta kvs Hmap).
    cbv zeta.
    set (s2 := snd (for_each kvs COREPEngine.check_type
                     (snd (for_each required_fields
                             (COREPEngine.check_required (with_data meta kvs)) ([], []))))).
    assert (Hc : COREPEngine.check_calculation (with_data meta kvs) s2
                 = (Exc (int_type_error v), s2)).
    { unfold COREPEngine.check_calculation.
      assert (Hd1 : dict_get (with_data meta kvs) "data" (JObj []) = Ok (JObj kvs))
        by reflexivity.
      unfold bind at 1, lift at 1. rewrite Hd1.
      unfold bind at 1. rewrite (sum_values_type_error _ _ _ _ H010 Hv Hs Ht). reflexivity. }
    unfold try_value_error. rewrite Hc. reflexivity. }
  split; [exact He|].
  change (COREPAssistant.validate_response (with_data meta kvs))
    with (COREPEngine.validate_response (with_data meta kvs)).
  exact He.
Qed.

Lemma container_value_escapes_handler_witness :
  COREPEngine.validate_response
    (with_data [] (("010", JObj [("value", JArr [JStr "150000000"])])
                     :: sample_data "150" "75" "300" "0" "45" "480"))
  = Raised (int_type_error (JArr [JStr "150000000"]))
  /\ COREPAssistant.validate_response
       (with_data [] (("010", JObj [("value", JArr [JStr "150000000"])])
                        :: sample_data "150" "75" "300" "0" "45" "480"))
     = Raised (int_type_error (JArr [JStr "150000000"])).
Proof.
  apply (container_value_escapes_handler _ _ [("value", JArr [JStr "150000000"])]);
    reflexivity.
Defined.

(** [validate_response] of both classes (src/corep_engine.py, lines
    154-213; src/main.py, lines 130-190) on a populated template: a mapping
    whose ["data"] maps codes to mappings, each ["value"] being a string, an
    integer, a boolean or [null] (JSON floats are outside the model; the
    strings and integers may have any number of digits).  Neither validator
    raises; the errors are the missing-field messages of 010, 020, 030, 100
    followed by the errors of passes 3 and 4, and the warnings are the
    empty-field messages, then the non-numeric messages in field order, then
    the calculation-error warning, if any. *)
Theorem populated_template_verdict llm_data kvs :
  populated llm_data kvs ->
  let v := mk_verdict
             (flat_map (pass1_errors kvs) required_fields ++ pass3_errors kvs)
             (flat_map (pass1_warnings kvs) required_fields
              ++ flat_map pass2_warnings kvs ++ pass3_warnings kvs)
             (Nat.eqb (length (flat_map (pass1_errors kvs) required_fields
                               ++ pass3_errors kvs)) 0) in
  COREPEngine.validate_response llm_data = Returned v
  /\ COREPAssistant.validate_response llm_data = Returned v.
Proof.
  intros Hp. cbv zeta. split.
  - exact (validate_populated _ _ Hp).
  - change (COREPAssistant.validate_response llm_data)
      with (COREPEngine.validate_response llm_data).
    exact (validate_populated _ _ Hp).
Qed.

Lemma populated_template_verdict_witness :
  let kvs := sample_data "150" "abc" "300" EmptyString "45" "480" in
  let v := mk_verdict
             (flat_map (pass1_errors kvs) required_fields ++ pass3_errors kvs)
             (flat_map (pass1_warnings kvs) required_fields
              ++ flat_map pass2_warnings kvs ++ pass3_warnings kvs)
             (Nat.eqb (length (flat_map (pass1_errors kvs) required_fields
                               ++ pass3_errors kvs)) 0) in
  COREPEngine.validate_response (sample "150" "abc" "300" EmptyString "45" "480") = Returned v
  /\ COREPAssistant.validate_response (sample "150" "abc" "300" EmptyString "45" "480")
     = Returned v.
Proof.
  apply (populated_template_verdict (sample "150" "abc" "300" EmptyString "45" "480")
           (sample_data "150" "abc" "300" EmptyString "45" "480")).
  eexists. split; [reflexivity|]. split; reflexivity.
Defined.

Section SameInt.

Variables (pre post rest : list (string * json)) (c : string) (x y : json).
Hypothesis Htr : truthy x = truthy y.
Hypothesis Hint : py_int x = py_int y.

Lemma sum_values_same codes acc :
  fst (COREPEngine.sum_values (JObj (with_value pre post c rest x)) codes acc ([], []))
  = fst (COREPEngine.sum_values (JObj (with_value pre post c rest y)) codes acc ([], [])).
Proof.
  revert acc. induction codes as [|code r IH]; intros acc; simpl; [reflexivity|].
  unfold bind, lift. cbn [py_contains py_getitem].
  destruct (assoc_with_value pre post rest c code x y) as [Heq|(_ & H0 & H1)].
  - rewrite Heq. destruct (assoc code (with_value pre post c rest y)) as [f|]; [|apply IH].
    destruct (dict_get f "value" (JStr "0")) as [v|e]; [|reflexivity].
    destruct (truthy v); [|apply IH].
    destruct (py_int v); [apply IH|reflexivity].
  - rewrite H0, H1. cbn [dict_get assoc String.eqb Ascii.eqb Bool.eqb].
    rewrite Htr. destruct (truthy y); [|apply IH].
    rewrite Hint. destruct (py_int y); [apply IH|reflexivity].
Qed.

Lemma calc_res_same :
  calc_res (with_value pre post c rest x) = calc_res (with_value pre post c rest y).
Proof.
  unfold calc_res, sum_res. rewrite !sum_values_same.
  assert (Hr : reported_res (with_value pre post c rest x)
               = reported_res (with_value pre post c rest y)).
  { unfold reported_res.
    destruct (assoc_with_value pre post rest c "100" x y) as [->|(_ & -> & ->)];
      [reflexivity|].
    cbn [dict_get assoc String.eqb Ascii.eqb Bool.eqb]. rewrite Htr, Hint. reflexivity. }
  rewrite Hr. reflexivity.
Qed.

Lemma pass1_warnings_same c' :
  pass1_warnings (with_value pre post c rest x) c' = pass1_warnings (with_value pre post c rest y) c'.
Proof.
  unfold pass1_warnings.
  destruct (assoc_with_value pre post rest c c' x y) as [->|(_ & -> & ->)]; [reflexivity|].
  unfold get_value. cbn [assoc String.eqb Ascii.eqb Bool.eqb]. rewrite Htr. reflexivity.
Qed.

Lemma pass1_errors_same c' :
  pass1_errors (with_value pre post c rest x) c' = pass1_errors (with_value pre post c rest y) c'.
Proof.
  unfold pass1_errors. rewrite (has_key_with_value pre post rest c c' x y). reflexivity.
Qed.

End SameInt.

(** [validate_response] (src/corep_engine.py, lines 154-213): a JSON [true]
    as a field's value counts as 1 in the reconciliation, exactly like the
    string ["1"], but the format check of pass 2 flags it as non-numeric:
    the verdict has the same errors and validity as with ["1"], and one more
    warning, "Non-numeric value in field <code>: True", at the field's place. *)
Theorem true_counted_but_flagged meta pre post rest c :
  forallb (fun kv => field_ok (snd kv)) (pre ++ post) = true ->
  exists E W1 W2 b,
    COREPEngine.validate_response (with_data meta (with_value pre post c rest (JStr "1")))
    = Returned (mk_verdict E (W1 ++ W2) b)
    /\ COREPEngine.validate_response (with_data meta (with_value pre post c rest (JBool true)))
       = Returned (mk_verdict E (W1 ++ ("Non-numeric value in field " ++ c ++ ": True") :: W2) b).
Proof.
  intros Hall.
  set (kx := with_value pre post c rest (JStr "1")).
  set (ky := with_value pre post c rest (JBool true)).
  rewrite (validate_populated _ kx (populated_with_data meta kx
                                      (field_ok_with_value pre post rest c (JStr "1") eq_refl Hall))).
  rewrite (validate_populated _ ky (populated_with_data meta ky
                                      (field_ok_with_value pre post rest c (JBool true) eq_refl Hall))).
  assert (H3 : calc_res kx = calc_res ky) by (apply calc_res_same; reflexivity).
  assert (HE : flat_map (pass1_errors kx) required_fields
               = flat_map (pass1_errors ky) required_fields).
  { apply flat_map_ext_in'. intros c' _. apply pass1_errors_same. }
  assert (HW : flat_map (pass1_warnings kx) required_fields
               = flat_map (pass1_warnings ky) required_fields).
  { apply flat_map_ext_in'. intros c' _. apply pass1_warnings_same; reflexivity. }
  assert (HP2x : flat_map pass2_warnings kx
                 = (flat_map pass2_warnings pre ++ flat_map pass2_warnings post)%list).
  { unfold kx, with_value. rewrite flat_map_app. reflexivity. }
  assert (HP2y : flat_map pass2_warnings ky
                 = (flat_map pass2_warnings pre
                    ++ ("Non-numeric value in field " ++ c ++ ": True")%string
                    :: flat_map pass2_warnings post)%list).
  { unfold ky, with_value. rewrite flat_map_app. reflexivity. }
  unfold pass3_errors, pass3_warnings. rewrite <- H3, <- HE, <- HW, HP2x, HP2y.
  eexists _, (flat_map (pass1_warnings kx) required_fields ++ flat_map pass2_warnings pre)%list,
    (flat_map pass2_warnings post ++ match snd (calc_res kx) with
                                     | None => []
                                     | Some (PyExc _ m) => [calc_error_msg m]
                                     end)%list, _.
  split; [f_equal; f_equal; rewrite <- !app_assoc; reflexivity|].
  f_equal. f_equal. rewrite <- !app_assoc. reflexivity.
Qed.

Lemma true_counted_but_flagged_witness :
  exists E W1 W2 b,
    COREPEngine.validate_response
      (with_data [] (with_value [] (tl (sample_data "150" "75" "300" "0" "45" "526")) "010"
                                [("description", JStr "Ordinary share capital")] (JStr "1")))
    = Returned (mk_verdict E (W1 ++ W2) b)
    /\ COREPEngine.validate_response
         (with_data [] (with_value [] (tl (sample_data "150" "75" "300" "0" "45" "526")) "010"
                                   [("description", JStr "Ordinary share capital")] (JBool true)))
       = Returned (mk_verdict E (W1 ++ ("Non-numeric value in field " ++ "010" ++ ": True") :: W2) b).
Proof.
  apply true_counted_but_flagged. reflexivity.
Defined.

Lemma res_map_exc {A B} (f : A -> res B) pre x post e :
  (forall y, In y pre -> exists z, f y = Ok z) -> f x = Exc e ->
  res_map f (pre ++ x :: post) = Exc e.
Proof.
  intros Hpre Hx. induction pre as [|y pre IH]; cbn.
  - rewrite Hx. reflexivity.
  - destruct (Hpre y (or_introl eq_refl)) as [z ->]. cbn.
    rewrite IH by (intros y' Hy'; apply Hpre; right; exact Hy'). reflexivity.
Qed.

Lemma res_map_ok {A B} (f : A -> res B) (g : B -> nat) (k : nat) l :
  (forall x, In x l -> exists y, f x = Ok y /\ g y = k) ->
  exists ys, res_map f l = Ok ys /\ length ys = length l
             /\ list_sum (map g ys) = (k * length l)%nat.
Proof.
  induction l as [|x l IH]; intros H; cbn.
  - exists []. split; [reflexivity|]. split; [reflexivity|]. cbn. lia.
  - destruct (H x (or_introl eq_refl)) as [y [-> Hy]]. cbn.
    destruct IH as [ys [-> [Hl Hs]]]; [intros x' Hx'; apply H; right; exact Hx'|].
    exists (y :: ys). split; [reflexivity|]. split; [cbn; lia|].
    change (list_sum (map g (y :: ys))) with (g y + list_sum (map g ys))%nat.
    rewrite Hs, Hy. cbn [length]. lia.
Qed.

Lemma forallb_mapping_obj l y :
  forallb is_mapping l = true -> In y l -> exists kvs, y = JObj kvs.
Proof.
  intros H Hy. rewrite forallb_forall in H. specialize (H y Hy).
  destruct y; try discriminate H. eexists; reflexivity.
Qed.

Lemma notes_cli_app ns infos :
  forallb is_mapping ns = true -> res_map app_note_info ns = Ok infos ->
  res_map cli_note_line ns = Ok (map (String.append "  ") infos).
Proof.
  revert infos. induction ns as [|m ns IH]; intros infos Hall Hi; cbn in Hi |- *.
  - injection Hi as <-. reflexivity.
  - cbn in Hall. apply andb_true_iff in Hall as [Hm Hr].
    destruct m; try discriminate Hm. cbn in Hi |- *.
    destruct (res_map app_note_info ns) as [is|e]; [|discriminate Hi].
    injection Hi as <-. rewrite (IH is Hr eq_refl). reflexivity.
Qed.

(** The notes of ["validation_notes"] (a list written by the model): the
    Validation tab of the page (src/app.py, lines 370-380) always shows them,
    a mapping as "[type] message" and anything else as its [str()]; the
    command-line report (src/main.py, lines 283-289) prints the same texts,
    indented, when every note is a mapping, and otherwise raises
    [AttributeError] at the first note that is not. *)
Theorem validation_notes_display top l :
  assoc "validation_notes" top = Some (JArr l) ->
  exists infos,
    app_note_infos (JObj top) = Ok infos
    /\ (forallb is_mapping l = true ->
        cli_note_lines (JObj top) = Ok (map (String.append "  ") infos))
    /\ (forall pre x post, l = (pre ++ x :: post)%list ->
        forallb is_mapping pre = true -> is_mapping x = false ->
        cli_note_lines (JObj top) = Exc (no_attribute x "get")).
Proof.
  intros Hn. unfold app_note_infos, cli_note_lines. cbn [dict_get]. rewrite Hn. cbn [res_bind].
  destruct l as [|n l].
  - exists []. cbn. split; [reflexivity|]. split; [reflexivity|].
    intros pre x post Hl. destruct pre; discriminate Hl.
  - cbn [truthy length Nat.eqb negb py_iter res_bind].
    assert (Happ : forall m, exists s, app_note_info m = Ok s).
    { intros m. unfold app_note_info. destruct m; cbn; eexists; reflexivity. }
    destruct (res_map_ok app_note_info (fun _ => O) O (n :: l)) as [infos [Hi _]];
      [intros m _; destruct (Happ m) as [s Hs]; exists s; split; [exact Hs|reflexivity]|].
    exists infos. split; [exact Hi|]. split.
    + intros Hall. exact (notes_cli_app _ _ Hall Hi).
    + intros pre x post Hl Hpre Hx. rewrite Hl. apply res_map_exc.
      * intros y Hy. destruct (forallb_mapping_obj pre y Hpre Hy) as [kvs ->].
        cbn. eexists. reflexivity.
      * destruct x; try discriminate Hx; reflexivity.
Qed.

Lemma validation_notes_display_witness :
  exists infos,
    app_note_infos (JObj [("validation_notes",
                           JArr [JObj [("type", JStr "INFO"); ("message", JStr "All fields present")];
                                 JStr "Check 070"])]) = Ok infos
    /\ (forallb is_mapping [JObj [("type", JStr "INFO"); ("message", JStr "All fields present")];
                            JStr "Check 070"] = true ->
        cli_note_lines (JObj [("validation_notes",
                               JArr [JObj [("type", JStr "INFO");
                                           ("message", JStr "All fields present")];
                                     JStr "Check 070"])])
        = Ok (map (String.append "  ") infos))
    /\ (forall pre x post,
          [JObj [("type", JStr "INFO"); ("message", JStr "All fields present")]; JStr "Check 070"]
          = (pre ++ x :: post)%list ->
          forallb is_mapping pre = true -> is_mapping x = false ->
          cli_note_lines (JObj [("validation_notes",
                                 JArr [JObj [("type", JStr "INFO");
                                             ("message", JStr "All fields present")];
                                       JStr "Check 070"])])
          = Exc (no_attribute x "get")).
Proof.
  apply validation_notes_display. reflexivity.
Defined.

(** The audit trail of the template (a list written by the model): the
    Audit tab of the page (src/app.py, lines 265-269 and 382-403) shows one
    expander per entry whatever the entries are; the command-line report
    (src/main.py, lines 240-260) prints three lines per entry when every
    entry is a mapping, and otherwise raises [AttributeError] at the first
    entry that is not. *)
Theorem audit_trail_display top l :
  assoc "audit_trail" top = Some (JArr l) ->
  l <> [] ->
  (exists sections, app_audit (JObj top) = Ok (Some sections) /\ length sections = length l)
  /\ (forallb is_mapping l = true ->
      exists lines, cli_audit_lines (JObj top) = Ok (Some lines)
                    /\ length lines = (3 * length l)%nat)
  /\ (forall pre x post, l = (pre ++ x :: post)%list ->
      forallb is_mapping pre = true -> is_mapping x = false ->
      cli_audit_lines (JObj top) = Exc (no_attribute x "get")).
Proof.
  intros Ha Hne.
  assert (Ht : truthy (JArr l) = true) by (destruct l; [contradiction|reflexivity]).
  split; [|split].
  - unfold app_audit. cbn [py_contains py_getitem]. rewrite Ha. cbn [res_bind].
    rewrite Ht. cbn [negb py_iter res_bind].
    destruct (res_map_ok app_audit_entry (fun _ => O) O l) as [ss [Hs [Hl _]]].
    { intros e _. unfold app_audit_entry.
      destruct e; cbn; eexists; split; reflexivity. }
    rewrite Hs. exists ss. split; [reflexivity|exact Hl].
  - intros Hall. unfold cli_audit_lines. cbn [dict_get]. rewrite Ha. cbn [res_bind].
    rewrite Ht. cbn [negb py_iter res_bind].
    destruct (res_map_ok cli_audit_entry (@length string) 3%nat l) as [ls [Hs [_ Hsum]]].
    { intros e He. destruct (forallb_mapping_obj l e Hall He) as [kvs ->].
      cbn. eexists. split; reflexivity. }
    rewrite Hs. cbn. exists (List.concat ls). split; [reflexivity|].
    rewrite length_concat. exact Hsum.
  - intros pre x post Hl Hpre Hx. unfold cli_audit_lines. cbn [dict_get]. rewrite Ha.
    cbn [res_bind]. rewrite Ht. cbn [negb py_iter res_bind]. rewrite Hl.
    rewrite (res_map_exc _ pre x post (no_attribute x "get")).
    + reflexivity.
    + intros y Hy. destruct (forallb_mapping_obj pre y Hpre Hy) as [kvs ->].
      cbn. eexists. reflexivity.
    + destruct x; try discriminate Hx; reflexivity.
Qed.

Lemma audit_trail_display_witness :
  (exists sections,
     app_audit (JObj [("audit_trail", JArr [JObj [("field", JStr "010")]; JStr "CRR 26"])])
     = Ok (Some sections)
     /\ length sections = length [JObj [("field", JStr "010")]; JStr "CRR 26"])
  /\ (forallb is_mapping [JObj [("field", JStr "010")]; JStr "CRR 26"] = true ->
      exists lines,
        cli_audit_lines (JObj [("audit_trail", JArr [JObj [("field", JStr "010")]; JStr "CRR 26"])])
        = Ok (Some lines)
        /\ length lines = (3 * length [JObj [("field", JStr "010")]; JStr "CRR 26"])%nat)
  /\ (forall pre x post,
        [JObj [("field", JStr "010")]; JStr "CRR 26"] = (pre ++ x :: post)%list ->
        forallb is_mapping pre = true -> is_mapping x = false ->
        cli_audit_lines (JObj [("audit_trail", JArr [JObj [("field", JStr "010")]; JStr "CRR 26"])])
        = Exc (no_attribute x "get")).
Proof.
  apply audit_trail_display; [reflexivity|discriminate].
Defined.

(** The Generate button (src/app.py, lines 178-182 and 188-244) on the
    engine's [process_query] (src/corep_engine.py, lines 37-65): when the
    model call fails or returns nothing, the page shows "Error: LLM call
    failed", and when the reply does not parse to a truthy JSON value (text
    that is not JSON parses to [None]), it shows "Error: Failed to parse
    response"; in both cases the stored result and the history are left as
    they were. *)
Theorem llm_failure_reported json_loads call_llm rules schema timestamp engine_created now
        user_input st prompt :
  strip (list_ascii_of_string user_input) <> [] ->
  (s_engine st || engine_created)%bool = true ->
  generate_prompt rules schema user_input = Ok prompt ->
  ((call_llm prompt = None \/ call_llm prompt = Some EmptyString) ->
   generate_button engine_created (process_query json_loads call_llm rules schema timestamp)
                   now user_input st
   = (mk_session true (s_results st) (s_history st), [NError "Error: LLM call failed"]))
  /\ (forall reply llm_data,
        call_llm prompt = Some reply -> reply <> EmptyString ->
        parse_llm_response json_loads reply = Ok llm_data -> truthy llm_data = false ->
        generate_button engine_created (process_query json_loads call_llm rules schema timestamp)
                        now user_input st
        = (mk_session true (s_results st) (s_history st),
           [NError "Error: Failed to parse response"])).
Proof.
  intros Hs He Hg.
  assert (Hb : forall q, generate_button engine_created q now user_input st
                         = process_report engine_created q now user_input st).
  { intros q. unfold generate_button.
    destruct (strip (list_ascii_of_string user_input)); [contradiction|reflexivity]. }
  assert (Hr : forall r m,
             process_query json_loads call_llm rules schema timestamp user_input = Ok r ->
             r = JObj [("error", JStr m)] -> m <> EmptyString ->
             process_report engine_created (process_query json_loads call_llm rules schema timestamp)
                            now user_input st
             = (mk_session true (s_results st) (s_history st), [NError ("Error: " ++ m)])).
  { intros r m Hq -> Hm. unfold process_report.
    destruct st as [eng res0 hist]. cbn in He |- *.
    destruct eng; cbn in He |- *; [|subst engine_created; cbn];
      rewrite Hq; cbn; destruct m; (contradiction || reflexivity). }
  split.
  - intros Hc. rewrite Hb. apply (Hr llm_failed); [|reflexivity|discriminate].
    unfold process_query. rewrite Hg. cbn [res_bind].
    destruct Hc as [-> | ->]; reflexivity.
  - intros reply llm_data Hc Hne Hp Ht. rewrite Hb. apply (Hr parse_failed); [|reflexivity|discriminate].
    unfold process_query. rewrite Hg. cbn [res_bind]. rewrite Hc, (string_eqb_neq _ _ Hne), Hp.
    cbn [res_bind]. rewrite Ht. reflexivity.
Qed.

Lemma llm_failure_reported_witness :
  ((fun _ : string => Some "I cannot help with that.") (prompt_text engine_prompt_tail EmptyString "{}" "CET1?") = None
   \/ (fun _ : string => Some "I cannot help with that.") (prompt_text engine_prompt_tail EmptyString "{}" "CET1?")
      = Some EmptyString ->
   generate_button true
     (process_query (fun _ => Exc (PyExc "JSONDecodeError" "Expecting value: line 1 column 1 (char 0)"))
                    (fun _ => Some "I cannot help with that.") EmptyString (JObj [])
                    "2024-12-31T09:00:00")
     "09:00:00" "CET1?" (mk_session false JNull [])
   = (mk_session true (s_results (mk_session false JNull [])) (s_history (mk_session false JNull [])),
      [NError "Error: LLM call failed"]))
  /\ (forall reply llm_data,
        (fun _ : string => Some "I cannot help with that.")
          (prompt_text engine_prompt_tail EmptyString "{}" "CET1?") = Some reply ->
        reply <> EmptyString ->
        parse_llm_response (fun _ => Exc (PyExc "JSONDecodeError" "Expecting value: line 1 column 1 (char 0)"))
                           reply = Ok llm_data ->
        truthy llm_data = false ->
        generate_button true
          (process_query (fun _ => Exc (PyExc "JSONDecodeError" "Expecting value: line 1 column 1 (char 0)"))
                         (fun _ => Some "I cannot help with that.") EmptyString (JObj [])
                         "2024-12-31T09:00:00")
          "09:00:00" "CET1?" (mk_session false JNull [])
        = (mk_session true (s_results (mk_session false JNull []))
                      (s_history (mk_session false JNull [])),
           [NError "Error: Failed to parse response"])).
Proof.
  apply llm_failure_reported; [vm_compute; discriminate|reflexivity|reflexivity].
Defined.

Lemma string_length_app s t : String.length (s ++ t) = (String.length s + String.length t)%nat.
Proof. induction s as [|c s IH]; cbn; [reflexivity|rewrite IH; reflexivity]. Qed.

Lemma string_app_empty s : (s ++ EmptyString)%string = s.
Proof. induction s as [|c s IH]; cbn; [reflexivity|rewrite IH; reflexivity]. Qed.

Lemma substring_length_le n s : (String.length (substring 0 n s) <= n)%nat.
Proof.
  revert n. induction s as [|c s IH]; intros [|n]; cbn; try lia.
  specialize (IH n). lia.
Qed.

Lemma substring_short n s : (String.length s <= n)%nat -> substring 0 n s = s.
Proof.
  revert n. induction s as [|c s IH]; intros [|n] H; cbn in *; try reflexivity; try lia.
  rewrite IH by lia. reflexivity.
Qed.

Lemma prefix_app s t : String.prefix s (s ++ t) = true.
Proof.
  induction s as [|c s IH]; [destruct t; reflexivity|].
  cbn. destruct (ascii_dec c c) as [_|n]; [exact IH|contradiction].
Qed.

(** The Query column of the history (src/app.py, line 230): it never has
    more than 83 characters, starts with the first 80 characters of the
    scenario, and is the scenario itself when it has at most 80. *)
Theorem history_query_shape user_input :
  (String.length (history_query user_input) <= 83)%nat
  /\ String.prefix (substring 0 80 user_input) (history_query user_input) = true
  /\ ((String.length user_input <= 80)%nat -> history_query user_input = user_input).
Proof.
  unfold history_query. destruct (Nat.ltb 80 (String.length user_input)) eqn:E.
  - apply Nat.ltb_lt in E. split; [|split].
    + rewrite string_length_app. pose proof (substring_length_le 80 user_input). cbn. lia.
    + apply prefix_app.
    + intros H. lia.
  - apply Nat.ltb_ge in E. split; [lia|split].
    + rewrite substring_short by exact E. rewrite <- (string_app_empty user_input) at 2.
      apply prefix_app.
    + reflexivity.
Qed.
